(** * Template engine of marcusrbrown/containers (scripts/template_engine.py)

    A shallow embedding of [TemplateEngine]: template metadata loading and
    schema check, inheritance resolution with [_deep_merge], parameter
    preparation and validation, generation and design-time validation.

    Python data is embedded as [value] (what [yaml.safe_load] yields);
    a Python [dict] is an association list kept in insertion order, because
    the code iterates over [.items()] and the order decides which error is
    raised first.  Exceptions are constructors of [exn]; code that may raise
    returns [res]. *)

From Stdlib Require Import String Ascii List ZArith Bool Lia Sorted Permutation.
Import ListNotations.
Open Scope list_scope.
Open Scope string_scope.
#[local] Set Warnings "-register-all".

(** ** Python values and dicts *)

Inductive value : Type :=
| VNone
| VBool (b : bool)
| VInt (z : Z)
| VStr (s : string)
| VList (l : list value)
| VDict (d : list (string * value)).

Definition dict := list (string * value).

(** [d[k]] / [k in d] on a dict. *)
Fixpoint dict_get (k : string) (d : dict) : option value :=
  match d with
  | [] => None
  | (k', v) :: r => if String.eqb k k' then Some v else dict_get k r
  end.

(** [d[k] = v]: an existing key keeps its position, a new key goes last. *)
Fixpoint dict_set (k : string) (v : value) (d : dict) : dict :=
  match d with
  | [] => [(k, v)]
  | (k', v') :: r =>
      if String.eqb k k' then (k', v) :: r else (k', v') :: dict_set k v r
  end.

(** [d.pop(k, None)]. *)
Fixpoint dict_pop (k : string) (d : dict) : dict :=
  match d with
  | [] => []
  | (k', v') :: r => if String.eqb k k' then r else (k', v') :: dict_pop k r
  end.

Definition dict_mem (k : string) (d : dict) : bool :=
  match dict_get k d with Some _ => true | None => false end.

(** ** Exceptions and results *)

(** The exception classes the embedded code can raise.  Jinja's
    [TemplateSyntaxError], [UndefinedError] and [TemplateNotFound] are all
    subclasses of [TemplateError], the only Jinja class the code catches, so
    they share one constructor.  [KeyError] carries the [repr] of its key;
    [YAMLError] is the base class of what [yaml.safe_load] raises on a
    malformed document. *)
Inductive exn : Type :=
| FileNotFoundError (msg : string)
| ValidationError (msg : string)
| YAMLError (msg : string)
| ValueError (msg : string)
| TypeError (msg : string)
| KeyError (key_repr : string)
| AttributeError (msg : string)
| RecursionError
| ReError (msg : string)
| TemplateError (msg : string).

(** [str(e)]. *)
Definition exn_str (e : exn) : string :=
  match e with
  | FileNotFoundError m | ValidationError m | YAMLError m | ValueError m | TypeError m
  | AttributeError m | ReError m | TemplateError m | KeyError m => m
  | RecursionError => "maximum recursion depth exceeded"
  end.

Inductive res (A : Type) : Type :=
| Ok (a : A)
| Raise (e : exn).
Arguments Ok {A} a.
Arguments Raise {A} e.

Definition res_bind {A B} (r : res A) (k : A -> res B) : res B :=
  match r with Ok a => k a | Raise e => Raise e end.

Notation "'let*' x ':=' c 'in' k" := (res_bind c (fun x => k))
  (at level 200, x name, c at level 100, k at level 200).

Definition is_ok {A} (r : res A) : bool :=
  match r with Ok _ => true | Raise _ => false end.

(** ** Python operations on values *)

Definition py_truthy (v : value) : bool :=
  match v with
  | VNone => false
  | VBool b => b
  | VInt z => negb (Z.eqb z 0)
  | VStr s => negb (String.eqb s EmptyString)
  | VList l => match l with [] => false | _ => true end
  | VDict d => match d with [] => false | _ => true end
  end.

(** [bool] is a subclass of [int] in Python: [True == 1]. *)
Definition as_int (v : value) : option Z :=
  match v with
  | VBool b => Some (if b then 1%Z else 0%Z)
  | VInt z => Some z
  | _ => None
  end.

(** [a == b]; dict equality ignores order. *)
Fixpoint py_eq (a b : value) {struct a} : bool :=
  match a, b with
  | VNone, VNone => true
  | VStr x, VStr y => String.eqb x y
  | VList xs, VList ys =>
      (fix go (xs ys : list value) : bool :=
         match xs, ys with
         | [], [] => true
         | x :: xs', y :: ys' => py_eq x y && go xs' ys'
         | _, _ => false
         end) xs ys
  | VDict xs, VDict ys =>
      Nat.eqb (length xs) (length ys) &&
      (fix go (xs : list (string * value)) : bool :=
         match xs with
         | [] => true
         | (k, x) :: r =>
             match dict_get k ys with
             | Some y => py_eq x y
             | None => false
             end && go r
         end) xs
  | _, _ =>
      match as_int a, as_int b with
      | Some x, Some y => Z.eqb x y
      | _, _ => false
      end
  end.

(** [t in s] for strings. *)
Fixpoint is_substring (t s : string) : bool :=
  String.prefix t s ||
  match s with
  | EmptyString => false
  | String _ s' => is_substring t s'
  end.

Definition type_name (v : value) : string :=
  match v with
  | VNone => "NoneType" | VBool _ => "bool" | VInt _ => "int"
  | VStr _ => "str" | VList _ => "list" | VDict _ => "dict"
  end.

(** [x in c]. *)
Definition in_op (x c : value) : res bool :=
  match c with
  | VList l => Ok (existsb (py_eq x) l)
  | VDict d =>
      match x with
      | VStr k => Ok (dict_mem k d)
      | VList _ | VDict _ => Raise (TypeError ("unhashable type: '" ++ type_name x ++ "'"))
      | _ => Ok false
      end
  | VStr s =>
      match x with
      | VStr t => Ok (is_substring t s)
      | _ => Raise (TypeError "'in <string>' requires string as left operand")
      end
  | _ => Raise (TypeError ("argument of type '" ++ type_name c ++ "' is not iterable"))
  end.

(** [c[k]] with a string key. *)
Definition getitem (c : value) (k : string) : res value :=
  match c with
  | VDict d => match dict_get k d with Some v => Ok v | None => Raise (KeyError ("'" ++ k ++ "'")) end
  | VList _ => Raise (TypeError "list indices must be integers or slices, not str")
  | VStr _ => Raise (TypeError "string indices must be integers")
  | _ => Raise (TypeError ("'" ++ type_name c ++ "' object is not subscriptable"))
  end.

(** [c.get(k, dflt)]. *)
Definition get_method (c : value) (k : string) (dflt : value) : res value :=
  match c with
  | VDict d => match dict_get k d with Some v => Ok v | None => Ok dflt end
  | _ => Raise (AttributeError ("'" ++ type_name c ++ "' object has no attribute 'get'"))
  end.

(** [c.items()]. *)
Definition items_method (c : value) : res dict :=
  match c with
  | VDict d => Ok d
  | _ => Raise (AttributeError ("'" ++ type_name c ++ "' object has no attribute 'items'"))
  end.

(** [for x in c] over a value that is not a [str] (the code turns a [str]
    into a one-element list before iterating). *)
Definition py_iter (c : value) : res (list value) :=
  match c with
  | VList l => Ok l
  | VDict d => Ok (map (fun kv => VStr (fst kv)) d)
  | VStr s => Ok (map (fun a => VStr (String a EmptyString)) (list_ascii_of_string s))
  | _ => Raise (TypeError ("'" ++ type_name c ++ "' object is not iterable"))
  end.

Fixpoint str_ltb (s t : string) : bool :=
  match s, t with
  | _, EmptyString => false
  | EmptyString, String _ _ => true
  | String a s', String b t' =>
      if Nat.eqb (nat_of_ascii a) (nat_of_ascii b) then str_ltb s' t'
      else Nat.ltb (nat_of_ascii a) (nat_of_ascii b)
  end.

(** [a < b] for numbers and strings (list ordering is not used by the code). *)
Definition py_lt (a b : value) : res bool :=
  match as_int a, as_int b with
  | Some x, Some y => Ok (Z.ltb x y)
  | _, _ =>
      match a, b with
      | VStr s, VStr t => Ok (str_ltb s t)
      | _, _ => Raise (TypeError ("'<' not supported between instances of '"
                                  ++ type_name a ++ "' and '" ++ type_name b ++ "'"))
      end
  end.

Definition digit (n : nat) : ascii := ascii_of_nat (48 + n).

Fixpoint digits_of (fuel n : nat) (acc : string) : string :=
  match fuel with
  | O => acc
  | S f =>
      let acc' := String (digit (Nat.modulo n 10)) acc in
      if Nat.ltb n 10 then acc' else digits_of f (Nat.div n 10) acc'
  end.

Definition z_str (z : Z) : string :=
  let n := Z.to_nat (Z.abs z) in
  (if Z.ltb z 0 then "-" else EmptyString) ++ digits_of (S n) n EmptyString.

Fixpoint join (sep : string) (l : list string) : string :=
  match l with
  | [] => EmptyString
  | [x] => x
  | x :: r => x ++ sep ++ join sep r
  end.

(** [repr(v)] (string escapes are not modelled) and [str(v)]. *)
Fixpoint py_repr (v : value) : string :=
  match v with
  | VNone => "None"
  | VBool b => if b then "True" else "False"
  | VInt z => z_str z
  | VStr s => "'" ++ s ++ "'"
  | VList l => "[" ++ join ", " (map py_repr l) ++ "]"
  | VDict d => "{" ++ join ", " (map (fun kv => "'" ++ fst kv ++ "': " ++ py_repr (snd kv)) d) ++ "}"
  end.

Definition py_str (v : value) : string :=
  match v with VStr s => s | _ => py_repr v end.

(** ** The [re] fragment used for [re.match]

    Patterns are sequences of single-character atoms (literals, [.], classes
    [[...]] with ranges and negation, escapes [\d], [\w], [\s] and escaped
    punctuation) and the anchors [^] and [$], each optionally followed by
    [*], [+] or [?].  Groups, alternation and counted repetition lie outside
    the fragment: [re_parse] returns [None] for them, and [re_match] raises
    as for an invalid pattern, where Python may compile them.  For that
    reason [_validate_parameter] is embedded over any matcher
    ([validate_parameter_with]), and [re_match] is the instance the
    concrete runs use.  [$] follows Python: it matches at the end of the
    string or just before a final newline. *)

Inductive atom : Type :=
| AChar (p : ascii -> bool)
| ABol
| AEol.

Inductive quant : Type := QOne | QStar | QPlus | QOpt.

Definition regex := list (atom * quant).

Definition newline : ascii := "010"%char.

Definition in_range (lo hi c : ascii) : bool :=
  Nat.leb (nat_of_ascii lo) (nat_of_ascii c) && Nat.leb (nat_of_ascii c) (nat_of_ascii hi).

Definition is_digit (c : ascii) : bool := in_range "0" "9" c.
Definition is_alpha (c : ascii) : bool := in_range "a" "z" c || in_range "A" "Z" c.
Definition is_word (c : ascii) : bool := is_alpha c || is_digit c || (c =? "_")%char.
Definition is_space (c : ascii) : bool :=
  existsb (Ascii.eqb c) [" "%char; "009"%char; newline; "011"%char; "012"%char; "013"%char].

Definition escape_class (e : ascii) : option (ascii -> bool) :=
  if (e =? "d")%char then Some is_digit
  else if (e =? "w")%char then Some is_word
  else if (e =? "s")%char then Some is_space
  else if is_alpha e || is_digit e then None
  else Some (fun x => (x =? e)%char).

Fixpoint class_items (l : list ascii) (acc : ascii -> bool) {struct l}
  : option ((ascii -> bool) * list ascii) :=
  match l with
  | [] => None
  | c :: r =>
      if (c =? "]")%char then Some (acc, r)
      else if (c =? "\")%char then
        match r with
        | e :: r' =>
            match escape_class e with
            | Some p => class_items r' (fun x => acc x || p x)
            | None => None
            end
        | [] => None
        end
      else
        match r with
        | m :: c2 :: r' =>
            if (m =? "-")%char && negb (c2 =? "]")%char then
              if Nat.leb (nat_of_ascii c) (nat_of_ascii c2)
              then class_items r' (fun x => acc x || in_range c c2 x)
              else None
            else class_items r (fun x => acc x || (x =? c)%char)
        | _ => class_items r (fun x => acc x || (x =? c)%char)
        end
  end.

(** The text after [[]: an optional [^], a leading [] taken literally. *)
Definition parse_class (l : list ascii) : option ((ascii -> bool) * list ascii) :=
  let '(neg, l1) :=
    match l with
    | c :: r => if (c =? "^")%char then (true, r) else (false, l)
    | [] => (false, l)
    end in
  let items :=
    match l1 with
    | c :: r => if (c =? "]")%char then class_items r (fun x => (x =? "]")%char)
                else class_items l1 (fun _ => false)
    | [] => None
    end in
  match items with
  | Some (p, rest) => Some ((if neg then fun x => negb (p x) else p), rest)
  | None => None
  end.

Definition is_special (c : ascii) : bool :=
  existsb (Ascii.eqb c) ["*"%char; "+"%char; "?"%char; "("%char; ")"%char; "|"%char; "{"%char].

Definition is_quant (c : ascii) : bool :=
  existsb (Ascii.eqb c) ["*"%char; "+"%char; "?"%char; "{"%char].

Fixpoint parse_pieces (fuel : nat) (l : list ascii) : option regex :=
  match fuel with
  | O => None
  | S f =>
      match l with
      | [] => Some []
      | c :: r =>
          let ar : option (atom * list ascii) :=
            if (c =? "^")%char then Some (ABol, r)
            else if (c =? "$")%char then Some (AEol, r)
            else if (c =? ".")%char then Some (AChar (fun x => negb (x =? newline)%char), r)
            else if (c =? "[")%char then
              match parse_class r with Some (p, r') => Some (AChar p, r') | None => None end
            else if (c =? "\")%char then
              match r with
              | e :: r' => match escape_class e with Some p => Some (AChar p, r') | None => None end
              | [] => None
              end
            else if is_special c then None
            else Some (AChar (fun x => (x =? c)%char), r) in
          match ar with
          | None => None
          | Some (a, r1) =>
              let '(q, r2) :=
                match r1 with
                | d :: r1' =>
                    if (d =? "*")%char then (QStar, r1')
                    else if (d =? "+")%char then (QPlus, r1')
                    else if (d =? "?")%char then (QOpt, r1')
                    else (QOne, r1)
                | [] => (QOne, r1)
                end in
              let anchor := match a with AChar _ => false | _ => true end in
              let one := match q with QOne => true | _ => false end in
              let requant := match r2 with d :: _ => negb one && is_quant d | [] => false end in
              if (anchor && negb one) || requant then None
              else match parse_pieces f r2 with
                   | Some rest => Some ((a, q) :: rest)
                   | None => None
                   end
          end
      end
  end.

Definition re_parse (pat : string) : option regex :=
  let l := list_ascii_of_string pat in parse_pieces (S (length l)) l.

(** End positions reachable from position [i]. *)
Definition atom_step (a : atom) (s : list ascii) (i : nat) : list nat :=
  match a with
  | AChar p => match nth_error s i with Some c => if p c then [S i] else [] | None => [] end
  | ABol => if Nat.eqb i 0 then [i] else []
  | AEol =>
      if Nat.eqb i (length s)
         || (Nat.eqb (S i) (length s) && (nth i s "a"%char =? newline)%char)
      then [i] else []
  end.

Fixpoint star_from (a : atom) (s : list ascii) (fuel i : nat) : list nat :=
  match fuel with
  | O => [i]
  | S f => i :: flat_map (fun j => if Nat.ltb i j then star_from a s f j else []) (atom_step a s i)
  end.

Definition piece_step (pq : atom * quant) (s : list ascii) (i : nat) : list nat :=
  let '(a, q) := pq in
  match q with
  | QOne => atom_step a s i
  | QOpt => i :: atom_step a s i
  | QStar => star_from a s (S (length s)) i
  | QPlus => flat_map (star_from a s (S (length s))) (atom_step a s i)
  end.

Fixpoint regex_ends (r : regex) (s : list ascii) (i : nat) : list nat :=
  match r with
  | [] => [i]
  | pq :: r' => flat_map (regex_ends r' s) (piece_step pq s i)
  end.

(** [re.match(pattern, string)] is truthy: a match starting at position 0. *)
Definition re_match (pattern string : value) : res bool :=
  match pattern, string with
  | VStr pat, VStr s =>
      match re_parse pat with
      | Some r =>
          Ok (match regex_ends r (list_ascii_of_string s) 0 with [] => false | _ => true end)
      | None => Raise (ReError ("bad pattern " ++ pat))
      end
  | _, _ => Raise (TypeError "first argument must be string or compiled pattern")
  end.

(** ** The metadata schema ([_get_template_schema]) as [jsonschema.validate]
    applies it.  JSON Schema's ["number"] admits ints but not bools; floats
    are not part of [value]. *)

Definition is_str (v : value) : bool := match v with VStr _ => true | _ => false end.
Definition is_number (v : value) : bool := match v with VInt _ => true | _ => false end.
Definition is_boolean (v : value) : bool := match v with VBool _ => true | _ => false end.
Definition is_array (v : value) : bool := match v with VList _ => true | _ => false end.
Definition is_object (v : value) : bool := match v with VDict _ => true | _ => false end.
Definition str_array (v : value) : bool :=
  match v with VList l => forallb is_str l | _ => false end.
Definition str_enum (choices : list string) (v : value) : bool :=
  match v with VStr s => existsb (String.eqb s) choices | _ => false end.

(** Check of an optional property. *)
Definition opt_prop (d : dict) (k : string) (chk : value -> bool) : bool :=
  match dict_get k d with Some v => chk v | None => true end.

(** An object with the given required keys whose properties pass [props]. *)
Definition object_with (req : list string) (props : dict -> bool) (v : value) : bool :=
  match v with
  | VDict d => forallb (fun k => dict_mem k d) req && props d
  | _ => false
  end.

(** [patternProperties] key ["^[a-zA-Z_][a-zA-Z0-9_]*$"], applied with
    [re.search]; the pattern is anchored at the start, so search and match
    agree. *)
Definition param_name_pattern : string := "^[a-zA-Z_][a-zA-Z0-9_]*$".

Definition is_param_name (k : string) : bool :=
  match re_match (VStr param_name_pattern) (VStr k) with Ok b => b | Raise _ => false end.

Definition param_spec_ok : value -> bool :=
  object_with ["type"; "description"] (fun d =>
    opt_prop d "type" (str_enum ["string"; "integer"; "boolean"; "array"; "object"])
    && opt_prop d "description" is_str
    && opt_prop d "required" is_boolean
    && opt_prop d "enum" is_array
    && opt_prop d "pattern" is_str
    && opt_prop d "min" is_number
    && opt_prop d "max" is_number).

Definition parameters_ok : value -> bool :=
  object_with [] (fun d =>
    forallb (fun kv => if is_param_name (fst kv) then param_spec_ok (snd kv) else true) d).

Definition files_ok : value -> bool :=
  object_with ["dockerfile"] (fun d =>
    opt_prop d "dockerfile" is_str && opt_prop d "compose" is_str
    && opt_prop d "config" str_array && opt_prop d "scripts" str_array
    && opt_prop d "docs" str_array).

Definition dependencies_ok : value -> bool :=
  object_with [] (fun d =>
    opt_prop d "build" str_array && opt_prop d "runtime" str_array
    && opt_prop d "test" str_array).

Definition testing_ok : value -> bool :=
  object_with [] (fun d =>
    opt_prop d "build_args" is_object && opt_prop d "env_vars" is_object
    && opt_prop d "health_check" is_str && opt_prop d "test_commands" str_array
    && opt_prop d "integration_tests" str_array).

Definition registry_ok : value -> bool :=
  object_with [] (fun d =>
    opt_prop d "namespace" is_str && opt_prop d "repository" is_str
    && opt_prop d "tags" str_array).

Definition template_schema_ok : value -> bool :=
  object_with ["name"; "version"; "description"; "category"] (fun d =>
    opt_prop d "name" is_str && opt_prop d "version" is_str
    && opt_prop d "description" is_str
    && opt_prop d "category" (str_enum ["app"; "database"; "infrastructure"; "microservice"; "base"])
    && opt_prop d "author" is_str && opt_prop d "license" is_str
    && opt_prop d "tags" str_array && opt_prop d "inherits" is_str
    && opt_prop d "parameters" parameters_ok && opt_prop d "files" files_ok
    && opt_prop d "dependencies" dependencies_ok && opt_prop d "testing" testing_ok
    && opt_prop d "platforms" str_array && opt_prop d "registry" registry_ok).

(** ** The error [jsonschema.validate] raises

    [iter_errors] visits the keywords of a schema in the order they are
    written in [_get_template_schema] (["type"] before ["enum"],
    ["required"], ["properties"], ["patternProperties"] and ["items"]) and
    the entries of ["properties"] in the schema's order; ["required"],
    ["properties"], ["patternProperties"] and ["items"] say nothing about an
    instance of another type.  Each error is kept with the length of its
    path in the instance and whether the instance has the ["type"] of the
    schema that failed ([_matches_type]).  [best_match] returns the first
    error with the greatest [(-len(path), not _matches_type())]: none of
    the keywords of this schema is a weak or a strong match. *)

Record schema_error : Type := {
  err_depth : nat;
  err_type_ok : bool;
  err_message : string
}.

Definition mk_err (depth : nat) (type_ok : bool) (msg : string) : schema_error :=
  {| err_depth := depth; err_type_ok := type_ok; err_message := msg |}.

(** A schema over an instance at the given depth. *)
Definition schema_check : Type := nat -> value -> list schema_error.

(** [{"type": ty}]: [f"{instance!r} is not of type {ty!r}"]. *)
Definition type_errs (ty : string) (chk : value -> bool) : schema_check :=
  fun depth v =>
    if chk v then [] else [mk_err depth false (py_repr v ++ " is not of type '" ++ ty ++ "'")].

(** [{"type": "string", "enum": choices}]: [f"{instance!r} is not one of {enums!r}"]. *)
Definition str_enum_errs (choices : list string) : schema_check :=
  fun depth v =>
    (type_errs "string" is_str depth v ++
     (if str_enum choices v then []
      else [mk_err depth (is_str v) (py_repr v ++ " is not one of " ++ py_repr (VList (map VStr choices)))]))%list.

(** [{"type": "array", "items": {"type": "string"}}]. *)
Definition str_array_errs : schema_check :=
  fun depth v =>
    (type_errs "array" is_array depth v ++
     match v with VList l => flat_map (type_errs "string" is_str (S depth)) l | _ => [] end)%list.

(** [{}] *)
Definition any_errs : schema_check := fun _ _ => [].

(** ["properties"]: the listed properties the instance has, in the schema's order. *)
Fixpoint props_errs (props : list (string * schema_check)) (depth : nat) (d : dict)
  : list schema_error :=
  match props with
  | [] => []
  | (k, chk) :: r =>
      (match dict_get k d with Some v => chk (S depth) v | None => [] end ++ props_errs r depth d)%list
  end.

(** [{"type": "object", "required": req, "properties": props}]:
    [f"{property!r} is a required property"] for each missing key, in the
    order of [req]. *)
Definition object_errs (req : list string) (props : list (string * schema_check)) : schema_check :=
  fun depth v =>
    (type_errs "object" is_object depth v ++
     match v with
     | VDict d =>
         flat_map (fun k => if dict_mem k d then []
                            else [mk_err depth true (py_repr (VStr k) ++ " is a required property")]) req
         ++ props_errs props depth d
     | _ => []
     end)%list.

Definition param_spec_errs : schema_check :=
  object_errs ["type"; "description"]
    [("type", str_enum_errs ["string"; "integer"; "boolean"; "array"; "object"]);
     ("description", type_errs "string" is_str);
     ("default", any_errs);
     ("required", type_errs "boolean" is_boolean);
     ("enum", type_errs "array" is_array);
     ("pattern", type_errs "string" is_str);
     ("min", type_errs "number" is_number);
     ("max", type_errs "number" is_number)].

(** [{"type": "object", "patternProperties": {param_name_pattern: ...}}]:
    every key the pattern matches, in the instance's order. *)
Definition parameters_errs : schema_check :=
  fun depth v =>
    (type_errs "object" is_object depth v ++
     match v with
     | VDict d =>
         flat_map (fun kv => if is_param_name (fst kv) then param_spec_errs (S depth) (snd kv) else []) d
     | _ => []
     end)%list.

Definition template_errs : schema_check :=
  object_errs ["name"; "version"; "description"; "category"]
    [("name", type_errs "string" is_str);
     ("version", type_errs "string" is_str);
     ("description", type_errs "string" is_str);
     ("category", str_enum_errs ["app"; "database"; "infrastructure"; "microservice"; "base"]);
     ("author", type_errs "string" is_str);
     ("license", type_errs "string" is_str);
     ("tags", str_array_errs);
     ("inherits", type_errs "string" is_str);
     ("parameters", parameters_errs);
     ("files", object_errs ["dockerfile"]
                 [("dockerfile", type_errs "string" is_str);
                  ("compose", type_errs "string" is_str);
                  ("config", str_array_errs);
                  ("scripts", str_array_errs);
                  ("docs", str_array_errs)]);
     ("dependencies", object_errs []
                        [("build", str_array_errs);
                         ("runtime", str_array_errs);
                         ("test", str_array_errs)]);
     ("testing", object_errs []
                   [("build_args", type_errs "object" is_object);
                    ("env_vars", type_errs "object" is_object);
                    ("health_check", type_errs "string" is_str);
                    ("test_commands", str_array_errs);
                    ("integration_tests", str_array_errs)]);
     ("platforms", str_array_errs);
     ("registry", object_errs []
                    [("namespace", type_errs "string" is_str);
                     ("repository", type_errs "string" is_str);
                     ("tags", str_array_errs)])].

(** [a] is strictly more relevant than [b] for [best_match]. *)
Definition more_relevant (a b : schema_error) : bool :=
  Nat.ltb (err_depth a) (err_depth b)
  || (Nat.eqb (err_depth a) (err_depth b) && negb (err_type_ok a) && err_type_ok b).

(** [max(errors, key=relevance)]: the first of the most relevant. *)
Fixpoint best_of (best : schema_error) (l : list schema_error) : schema_error :=
  match l with
  | [] => best
  | e :: r => best_of (if more_relevant e best then e else best) r
  end.

(** [e.message] of the error [validate] raises. *)
Definition schema_message (v : value) : string :=
  match template_errs 0 v with
  | [] => EmptyString
  | e :: r => err_message (best_of e r)
  end.

(** ** The template store

    [metas] maps a template path to its [template.yaml]: the document
    [yaml.safe_load] returns, or the message of the [YAMLError] it raises;
    [sources] maps ["<template_path>/<pattern>"] to the text of a source
    file under [templates_dir].  A path with no entry does not exist on
    disk.  [rng] is the state of Python's [random] module, read by Jinja's
    [random] filter: the [k]-th [random.choice] of a rendering, on a
    sequence of length [n], picks index [rng k n mod n]. *)

Inductive yaml_file : Type :=
| Parsed (v : value)
| Unparsable (msg : string).

Record store : Type := {
  metas : list (string * yaml_file);
  sources : list (string * string);
  rng : nat -> nat -> nat
}.

Fixpoint assoc {A} (k : string) (l : list (string * A)) : option A :=
  match l with
  | [] => None
  | (k', a) :: r => if String.eqb k k' then Some a else assoc k r
  end.

(** [TemplateEngine()] as [main] builds it. *)
Definition templates_dir : string := "templates".

(** [load_template_metadata].  The write to [_template_cache] is not
    modelled: nothing in the engine reads the cache. *)
Definition load_template_metadata (st : store) (template_path : string) : res dict :=
  match assoc template_path (metas st) with
  | None => Raise (FileNotFoundError ("Template metadata not found: " ++ templates_dir ++ "/"
                                      ++ template_path ++ "/template.yaml"))
  | Some (Unparsable msg) => Raise (YAMLError msg)
  | Some (Parsed metadata) =>
      let invalid := ValidationError ("Invalid template metadata in " ++ template_path ++ ": "
                                      ++ schema_message metadata) in
      match metadata with
      | VDict d => if template_schema_ok metadata then Ok d else Raise invalid
      | _ => Raise invalid
      end
  end.

(** [_deep_merge]: [result] starts as a copy of [base]; each key of
    [override] is merged recursively when both sides are dicts and
    assigned otherwise. *)
Fixpoint deep_merge_into (result : dict) (override : value) {struct override} : dict :=
  match override with
  | VDict od =>
      (fix go (result : dict) (od : list (string * value)) : dict :=
         match od with
         | [] => result
         | (key, v) :: rest =>
             go (match dict_get key result, v with
                 | Some (VDict rd), VDict _ => dict_set key (VDict (deep_merge_into rd v)) result
                 | _, _ => dict_set key v result
                 end) rest
         end) result od
  | _ => result
  end.

Definition deep_merge (base override : dict) : dict := deep_merge_into base (VDict override).

(** [resolve_inheritance].  [depth] is the stack depth still available
    before Python raises [RecursionError]. *)
Fixpoint resolve_inheritance (depth : nat) (st : store) (template_path : string) : res dict :=
  match depth with
  | O => Raise RecursionError
  | S depth' =>
      let* metadata := load_template_metadata st template_path in
      match dict_get "inherits" metadata with
      | None => Ok metadata
      | Some (VStr parent_path) =>
          let* parent_metadata := resolve_inheritance depth' st parent_path in
          Ok (dict_pop "inherits" (deep_merge parent_metadata metadata))
      | Some _ => Raise (TypeError "unsupported operand type(s) for /")
      end
  end.

(** ** Parameters *)

(** [isinstance] checks; [bool] is a subclass of [int]. *)
Definition isinstance_str (v : value) : bool := match v with VStr _ => true | _ => false end.
Definition isinstance_int (v : value) : bool :=
  match v with VInt _ | VBool _ => true | _ => false end.
Definition isinstance_bool (v : value) : bool := match v with VBool _ => true | _ => false end.
Definition isinstance_list (v : value) : bool := match v with VList _ => true | _ => false end.
Definition isinstance_dict (v : value) : bool := match v with VDict _ => true | _ => false end.

Definition check {A} (cond : bool) (e : exn) (k : res A) : res A :=
  if cond then Raise e else k.

(** [_validate_parameter], for any [re_match] standing for Python's
    [re.match] (its truth value, or the [re.error] it raises). *)
Definition validate_parameter_with (re_match : value -> value -> res bool)
    (name : string) (v definition : value) : res unit :=
  let* param_type := getitem definition "type" in
  let is_type t := py_eq param_type (VStr t) in
  let* _ :=
    if is_type "string" && negb (isinstance_str v) then
      Raise (ValueError ("Parameter '" ++ name ++ "' must be a string"))
    else if is_type "integer" && negb (isinstance_int v) then
      Raise (ValueError ("Parameter '" ++ name ++ "' must be an integer"))
    else if is_type "boolean" && negb (isinstance_bool v) then
      Raise (ValueError ("Parameter '" ++ name ++ "' must be a boolean"))
    else if is_type "array" && negb (isinstance_list v) then
      Raise (ValueError ("Parameter '" ++ name ++ "' must be an array"))
    else if is_type "object" && negb (isinstance_dict v) then
      Raise (ValueError ("Parameter '" ++ name ++ "' must be an object"))
    else Ok tt in
  let* has_enum := in_op (VStr "enum") definition in
  let* _ :=
    if has_enum then
      let* en := getitem definition "enum" in
      let* mem := in_op v en in
      if mem then Ok tt
      else Raise (ValueError ("Parameter '" ++ name ++ "' must be one of " ++ py_str en))
    else Ok tt in
  let* has_pattern := if is_type "string" then in_op (VStr "pattern") definition else Ok false in
  let* _ :=
    if has_pattern then
      let* pat := getitem definition "pattern" in
      let* m := re_match pat (VStr (py_str v)) in
      if m then Ok tt
      else Raise (ValueError ("Parameter '" ++ name ++ "' doesn't match pattern " ++ py_str pat))
    else Ok tt in
  if is_type "integer" || is_type "number" then
    let* has_min := in_op (VStr "min") definition in
    let* below := if has_min then let* mn := getitem definition "min" in py_lt v mn else Ok false in
    let* mn := if below then getitem definition "min" else Ok VNone in
    if below then Raise (ValueError ("Parameter '" ++ name ++ "' must be >= " ++ py_str mn)) else
    let* has_max := in_op (VStr "max") definition in
    let* above := if has_max then let* mx := getitem definition "max" in py_lt mx v else Ok false in
    let* mx := if above then getitem definition "max" else Ok VNone in
    if above then Raise (ValueError ("Parameter '" ++ name ++ "' must be <= " ++ py_str mx)) else
    Ok tt
  else Ok tt.

(** [_validate_parameter] with the matcher of the regular-expression
    fragment above. *)
Definition validate_parameter : string -> value -> value -> res unit :=
  validate_parameter_with re_match.

(** The loop of [_prepare_parameters] over [template_params.items()]. *)
Fixpoint prepare_loop (provided : dict) (params : dict) (final : dict) : res dict :=
  match params with
  | [] => Ok final
  | (param_name, param_def) :: rest =>
      let* vo :=
        match dict_get param_name provided with
        | Some v => Ok (Some v)
        | None =>
            let* has_default := in_op (VStr "default") param_def in
            if has_default then
              let* d := getitem param_def "default" in Ok (Some d)
            else
              let* req := get_method param_def "required" (VBool false) in
              if py_truthy req then
                Raise (ValueError ("Required parameter '" ++ param_name ++ "' not provided"))
              else Ok None
        end in
      match vo with
      | None => prepare_loop provided rest final
      | Some v =>
          let* _ := validate_parameter param_name v param_def in
          prepare_loop provided rest (dict_set param_name v final)
      end
  end.

(** [_prepare_parameters]. *)
Definition prepare_parameters (metadata : dict) (provided : dict) : res dict :=
  let* template_params := get_method (VDict metadata) "parameters" (VDict []) in
  let* params := items_method template_params in
  prepare_loop provided params [].

(** ** The Jinja fragment

    The environment is built with Jinja's default [Undefined] (no
    [StrictUndefined]).  The fragment covers text, comments [{# #}] and
    output tags [{{ e }}] whose expression is a dotted name, an integer
    literal, the [random] filter applied to one of these, or a sum of such
    terms with [+].  Block tags [{% %}], other filters, calls and other
    literals are outside the fragment, and so are attribute names that
    are attributes of the modelled Python objects ([items], [upper],
    [__class__], ...): the model's parser finds no template for them, as
    for a syntax error, where Jinja compiles them.  Within the fragment,
    attribute access follows [Environment.getattr]: [getattr(obj, a)]
    fails, so a dict's key [a] is read, and the subscript of any other
    object fails too, giving an undefined value. *)

Inductive expr : Type :=
| EName (n : string) (attrs : list string)
| EInt (z : Z)
| EFilter (e : expr) (f : string)
| EAdd (a b : expr).

Inductive node : Type :=
| NText (s : string)
| NOut (e : expr).

Inductive token : Type := TIdent (s : string) | TInt (z : Z) | TDot | TPlus | TPipe.

Definition is_ident_start (c : ascii) : bool := is_alpha c || (c =? "_")%char.

Fixpoint take_while (p : ascii -> bool) (l : list ascii) : list ascii * list ascii :=
  match l with
  | c :: r => if p c then let '(x, y) := take_while p r in (c :: x, y) else ([], l)
  | [] => ([], [])
  end.

Definition digits_value (l : list ascii) : Z :=
  fold_left (fun acc c => (10 * acc + Z.of_nat (nat_of_ascii c - 48))%Z) l 0%Z.

Fixpoint tokenize (fuel : nat) (l : list ascii) : option (list token) :=
  match fuel with
  | O => None
  | S f =>
      match l with
      | [] => Some []
      | c :: r =>
          if is_space c then tokenize f r
          else if (c =? ".")%char then option_map (cons TDot) (tokenize f r)
          else if (c =? "+")%char then option_map (cons TPlus) (tokenize f r)
          else if (c =? "|")%char then option_map (cons TPipe) (tokenize f r)
          else if is_ident_start c then
            let '(w, r') := take_while is_word l in
            option_map (cons (TIdent (string_of_list_ascii w))) (tokenize f r')
          else if is_digit c then
            let '(w, r') := take_while is_digit l in
            option_map (cons (TInt (digits_value w))) (tokenize f r')
          else None
      end
  end.

(** [name ('.' name)*] *)
Fixpoint parse_attrs (ts : list token) : list string * list token :=
  match ts with
  | TDot :: TIdent a :: r => let '(xs, r') := parse_attrs r in (a :: xs, r')
  | _ => ([], ts)
  end.

(** The attribute names of Python's [dict], [list], [str], [int], [bool]
    and [NoneType] objects: the public ones, and every name starting with
    [_] (the dunder attributes). *)
Definition py_attribute_names : list string :=
  ["clear"; "copy"; "fromkeys"; "get"; "items"; "keys"; "pop"; "popitem"; "setdefault";
   "update"; "values";
   "append"; "count"; "extend"; "index"; "insert"; "remove"; "reverse"; "sort";
   "capitalize"; "casefold"; "center"; "encode"; "endswith"; "expandtabs"; "find";
   "format"; "format_map"; "isalnum"; "isalpha"; "isascii"; "isdecimal"; "isdigit";
   "isidentifier"; "islower"; "isnumeric"; "isprintable"; "isspace"; "istitle"; "isupper";
   "join"; "ljust"; "lower"; "lstrip"; "maketrans"; "partition"; "removeprefix";
   "removesuffix"; "replace"; "rfind"; "rindex"; "rjust"; "rpartition"; "rsplit"; "rstrip";
   "split"; "splitlines"; "startswith"; "strip"; "swapcase"; "title"; "translate"; "upper";
   "zfill";
   "as_integer_ratio"; "bit_count"; "bit_length"; "conjugate"; "denominator"; "from_bytes";
   "imag"; "is_integer"; "numerator"; "real"; "to_bytes"].

Definition is_py_attribute (a : string) : bool :=
  match a with
  | String c _ => (c =? "_")%char || existsb (String.eqb a) py_attribute_names
  | EmptyString => false
  end.

(** A dotted name whose attributes are none of [py_attribute_names]. *)
Definition parse_primary (ts : list token) : option (expr * list token) :=
  match ts with
  | TIdent n :: r =>
      let '(attrs, r') := parse_attrs r in
      if existsb is_py_attribute attrs then None else Some (EName n attrs, r')
  | TInt z :: r => Some (EInt z, r)
  | _ => None
  end.

(** [('|' name)*] after a primary; [random] is the one filter of the
    fragment, and a dotted filter name is a different filter. *)
Fixpoint parse_filters (e : expr) (ts : list token) : option (expr * list token) :=
  match ts with
  | TPipe :: TIdent f :: r =>
      match r with
      | TDot :: _ => None
      | _ => if String.eqb f "random" then parse_filters (EFilter e f) r else None
      end
  | TPipe :: _ => None
  | _ => Some (e, ts)
  end.

Definition parse_unary (ts : list token) : option (expr * list token) :=
  match parse_primary ts with
  | Some (e, r) => parse_filters e r
  | None => None
  end.

(** [unary ('+' unary)*], left associative. *)
Fixpoint parse_sum (fuel : nat) (acc : expr) (ts : list token) : option expr :=
  match ts with
  | [] => Some acc
  | TPlus :: r =>
      match fuel with
      | O => None
      | S f =>
          match parse_unary r with
          | Some (e, r') => parse_sum f (EAdd acc e) r'
          | None => None
          end
      end
  | _ => None
  end.

Definition parse_expr (body : list ascii) : option expr :=
  match tokenize (S (length body)) body with
  | Some ts =>
      match parse_unary ts with
      | Some (e, r) => parse_sum (length r) e r
      | None => None
      end
  | None => None
  end.

(** Splits at the first occurrence of the two-character delimiter. *)
Fixpoint split_at2 (c1 c2 : ascii) (l : list ascii) : option (list ascii * list ascii) :=
  match l with
  | [] => None
  | a :: r =>
      match r with
      | b :: r' =>
          if (a =? c1)%char && (b =? c2)%char then Some ([], r')
          else match split_at2 c1 c2 r with
               | Some (x, y) => Some (a :: x, y)
               | None => None
               end
      | [] => None
      end
  end.

Definition flush (text : list ascii) (ns : list node) : list node :=
  match text with
  | [] => ns
  | _ => NText (string_of_list_ascii (rev text)) :: ns
  end.

Fixpoint scan (fuel : nat) (l : list ascii) (text : list ascii) : option (list node) :=
  match fuel with
  | O => None
  | S f =>
      match l with
      | [] => Some (flush text [])
      | c :: r =>
          let opener := match r with d :: r' => if (c =? "{")%char then Some (d, r') else None
                                     | [] => None end in
          match opener with
          | Some (d, r') =>
              if (d =? "{")%char then
                match split_at2 "}" "}" r' with
                | Some (body, rest) =>
                    match parse_expr body, scan f rest [] with
                    | Some e, Some ns => Some (flush text (NOut e :: ns))
                    | _, _ => None
                    end
                | None => None
                end
              else if (d =? "#")%char then
                match split_at2 "#" "}" r' with
                | Some (_, rest) =>
                    match scan f rest [] with Some ns => Some (flush text ns) | None => None end
                | None => None
                end
              else if (d =? "%")%char then None
              else scan f r (c :: text)
          | None => scan f r (c :: text)
          end
      end
  end.

(** [Environment.get_template]: load and compile the source.  A source the
    fragment does not parse raises a [TemplateError]; its message
    ["TemplateSyntaxError"] stands for the message of Jinja's
    [TemplateSyntaxError], which the model does not compute. *)
Definition jinja_compile (src : string) : res (list node) :=
  let l := list_ascii_of_string src in
  match scan (S (length l)) l [] with
  | Some ns => Ok ns
  | None => Raise (TemplateError "TemplateSyntaxError")
  end.

(** A Jinja value: a Python value, or an [Undefined] with the message
    its [UndefinedError] would carry. *)
Inductive jval : Type := JDef (v : value) | JUndef (msg : string).

Definition undefined_error (msg : string) : exn := TemplateError msg.

(** [object_type_repr]. *)
Definition object_type_repr (v : value) : string :=
  match v with VNone => "None" | _ => type_name v ++ " object" end.

(** [Environment.getattr] along a dotted name; an [Undefined] raises on
    attribute access. *)
Fixpoint get_attrs (x : jval) (attrs : list string) : res jval :=
  match attrs with
  | [] => Ok x
  | a :: r =>
      match x with
      | JUndef m => Raise (undefined_error m)
      | JDef v =>
          let missing := JUndef ("'" ++ object_type_repr v ++ "' has no attribute '" ++ a ++ "'") in
          match v with
          | VDict d => get_attrs (match dict_get a d with Some w => JDef w | None => missing end) r
          | _ => get_attrs missing r
          end
      end
  end.

(** Python [a + b]. *)
Definition py_add (a b : value) : res value :=
  match as_int a, as_int b with
  | Some x, Some y => Ok (VInt (x + y))
  | _, _ =>
      match a, b with
      | VStr x, VStr y => Ok (VStr (x ++ y))
      | VList x, VList y => Ok (VList (x ++ y))
      | _, _ => Raise (TypeError ("unsupported operand type(s) for +: '" ++ type_name a
                                  ++ "' and '" ++ type_name b ++ "'"))
      end
  end.

Definition empty_choice : jval := JUndef "No random item, sequence was empty.".

(** The [random] filter, [random.choice(seq)], as the [k]-th draw of the
    rendering: an empty sequence (an [Undefined] has length 0) gives an
    [Undefined]; a dict is indexed by the drawn integer.  The result and the
    number of draws made so far. *)
Definition do_random (rng : nat -> nat -> nat) (x : jval) (k : nat) : res (jval * nat) :=
  match x with
  | JUndef _ => Ok (empty_choice, k)
  | JDef v =>
      let pick n := Nat.modulo (rng k n) n in
      match v with
      | VStr s =>
          let n := String.length s in
          if Nat.eqb n 0 then Ok (empty_choice, k)
          else Ok (JDef (VStr (String (match String.get (pick n) s with Some c => c
                                                                      | None => " "%char end)
                                      EmptyString)), S k)
      | VList l =>
          let n := List.length l in
          if Nat.eqb n 0 then Ok (empty_choice, k)
          else Ok (JDef (nth (pick n) l VNone), S k)
      | VDict d =>
          let n := List.length d in
          if Nat.eqb n 0 then Ok (empty_choice, k)
          else Raise (KeyError (z_str (Z.of_nat (pick n))))
      | _ => Raise (TypeError ("object of type '" ++ type_name v ++ "' has no len()"))
      end
  end.

(** Evaluation with [k] draws made so far; the number of draws after. *)
Fixpoint eval_expr (rng : nat -> nat -> nat) (ctx : dict) (e : expr) (k : nat) : res (jval * nat) :=
  match e with
  | EName n attrs =>
      let* x := get_attrs (match dict_get n ctx with
                           | Some v => JDef v
                           | None => JUndef ("'" ++ n ++ "' is undefined")
                           end) attrs in
      Ok (x, k)
  | EInt z => Ok (JDef (VInt z), k)
  | EFilter a _ =>
      let* xk := eval_expr rng ctx a k in
      do_random rng (fst xk) (snd xk)
  | EAdd a b =>
      let* xk := eval_expr rng ctx a k in
      let* yk := eval_expr rng ctx b (snd xk) in
      match fst xk, fst yk with
      | JUndef m, _ | _, JUndef m => Raise (undefined_error m)
      | JDef u, JDef w => let* v := py_add u w in Ok (JDef v, snd yk)
      end
  end.

Fixpoint render_nodes (rng : nat -> nat -> nat) (ns : list node) (ctx : dict) (k : nat) : res string :=
  match ns with
  | [] => Ok EmptyString
  | NText s :: r => let* t := render_nodes rng r ctx k in Ok (s ++ t)
  | NOut e :: r =>
      let* xk := eval_expr rng ctx e k in
      let* t := render_nodes rng r ctx (snd xk) in
      Ok (match fst xk with JDef v => py_str v | JUndef _ => EmptyString end ++ t)
  end.

(** [Template.render] with the context as keyword arguments, the random
    module in state [rng]: an undefined value prints as the empty string. *)
Definition jinja_render (rng : nat -> nat -> nat) (ns : list node) (ctx : dict) : res string :=
  render_nodes rng ns ctx 0.

(** ** Effects: a state monad over [res]

    The state survives an exception, as Python's mutations do. *)

Definition M (S A : Type) : Type := S -> res A * S.

Definition ret {S A} (a : A) : M S A := fun s => (Ok a, s).

Definition mbind {S A B} (m : M S A) (k : A -> M S B) : M S B :=
  fun s => match m s with
           | (Ok a, s') => k a s'
           | (Raise e, s') => (Raise e, s')
           end.

Definition lift {S A} (r : res A) : M S A := fun s => (r, s).

Definition modify {S} (f : S -> S) : M S unit := fun s => (Ok tt, f s).

(** [try: m except <class selected by catch> as e: h e]. *)
Definition try_except {S A} (m : M S A) (catch : exn -> option (M S A)) : M S A :=
  fun s => match m s with
           | (Raise e, s') => match catch e with Some h => h s' | None => (Raise e, s') end
           | r => r
           end.

Notation "'do' x <- c ;; k" := (mbind c (fun x => k))
  (at level 61, x name, c at next level, right associativity).

(** What generation and validation do besides computing: attempts to load
    and render a template file, and file writes. *)
Inductive event : Type :=
| Rendered (template_name : string)
| Wrote (path : string) (content : string).

Definition push (ev : event) (t : list event) : list event := (t ++ [ev])%list.

Definition log {S} (upd : event -> S -> S) (ev : event) : M S unit := modify (upd ev).

(** [generated_files[k] = content]. *)
Fixpoint out_set (k c : string) (d : list (string * string)) : list (string * string) :=
  match d with
  | [] => [(k, c)]
  | (k', c') :: r => if String.eqb k k' then (k', c) :: r else (k', c') :: out_set k c r
  end.

(** The loop header [if isinstance(file_patterns, str): file_patterns = [file_patterns]]. *)
Definition file_patterns (fp : value) : res (list value) :=
  match fp with
  | VStr _ => Ok [fp]
  | _ => py_iter fp
  end.

(** [template_dir / pattern] needs a string. *)
Definition as_path (p : value) : res string :=
  match p with
  | VStr s => Ok s
  | _ => Raise (TypeError ("unsupported operand type(s) for /: 'PosixPath' and '" ++ type_name p ++ "'"))
  end.

Definition catch_template_error {S A} (h : string -> M S A) (e : exn) : option (M S A) :=
  match e with TemplateError m => Some (h m) | _ => None end.

(** The name under which [FileSystemLoader] finds a file of a template. *)
Definition source_name (template_path pattern : string) : string :=
  template_path ++ "/" ++ pattern.

Definition reserved_keys : list string :=
  ["template_name"; "template_version"; "generated_at"; "generated_by"].

(** [final_params.update({...})] with the four system parameters. *)
Definition add_system_params (final : dict) (name version : value) (now : string) : dict :=
  dict_set "generated_by" (VStr "container-template-engine")
    (dict_set "generated_at" (VStr now)
      (dict_set "template_version" version
        (dict_set "template_name" name final))).

Section Engine.

(** The compiled-template type of the Jinja environment, [get_template]'s
    compile step and [Template.render]. *)
Variable tmpl : Type.
Variable compile : string -> res tmpl.
Variable render : tmpl -> dict -> res string.

(** *** [generate_template] *)

Section Generate.
Variables (st : store) (template_path output_dir : string) (final_params : dict) (dry_run : bool).

Definition gen_file (pattern : value) (generated : list (string * string))
  : M (list event) (list (string * string)) :=
  do p <- lift (as_path pattern) ;;
  match assoc (source_name template_path p) (sources st) with
  | None => ret generated
  | Some src =>
      try_except
        (do _ <- log push (Rendered (source_name template_path p)) ;;
         do template <- lift (compile src) ;;
         do content <- lift (render template final_params) ;;
         let output_file := output_dir ++ "/" ++ p in
         do _ <- (if dry_run then ret tt
               else log push (Wrote output_file content)) ;;
         ret (out_set output_file content generated))
        (catch_template_error (fun m =>
           lift (Raise (TemplateError ("Error rendering " ++ p ++ ": " ++ m)))))
  end.

Fixpoint gen_patterns (pats : list value) (generated : list (string * string))
  : M (list event) (list (string * string)) :=
  match pats with
  | [] => ret generated
  | pattern :: rest => do g <- gen_file pattern generated ;; gen_patterns rest g
  end.

Fixpoint gen_groups (groups : dict) (generated : list (string * string))
  : M (list event) (list (string * string)) :=
  match groups with
  | [] => ret generated
  | (file_type, fp) :: rest =>
      do pats <- lift (file_patterns fp) ;;
      do g <- gen_patterns pats generated ;;
      gen_groups rest g
  end.

End Generate.

(** [generate_template]; [now] is [datetime.now().isoformat()] and
    [parameters] is [parameters or {}]. *)
Definition generate_template (depth : nat) (st : store) (template_path output_dir : string)
    (parameters : dict) (now : string) (dry_run : bool)
  : M (list event) (list (string * string)) :=
  do metadata <- lift (resolve_inheritance depth st template_path) ;;
  do final_params <- lift (prepare_parameters metadata parameters) ;;
  do name <- lift (getitem (VDict metadata) "name") ;;
  do version <- lift (getitem (VDict metadata) "version") ;;
  let final_params := add_system_params final_params name version now in
  do files <- lift (get_method (VDict metadata) "files" (VDict [])) ;;
  do groups <- lift (items_method files) ;;
  gen_groups st template_path output_dir final_params dry_run groups [].

(** *** [validate_template]

    The state is the [results] dict of the source (its four keys) together
    with the trace of template files loaded for rendering. *)

Record vstate : Type := {
  valid : bool;
  errors : list string;
  warnings : list string;
  metadata : option dict;
  trace : list event
}.

Definition add_error (msg : string) : M vstate unit :=
  modify (fun r => {| valid := false; errors := (errors r ++ [msg])%list;
                      warnings := warnings r; metadata := metadata r; trace := trace r |}).

Definition set_metadata (md : dict) : M vstate unit :=
  modify (fun r => {| valid := valid r; errors := errors r; warnings := warnings r;
                      metadata := Some md; trace := trace r |}).

Definition push_trace (ev : event) (r : vstate) : vstate :=
  {| valid := valid r; errors := errors r; warnings := warnings r;
     metadata := metadata r; trace := push ev (trace r) |}.

Fixpoint for_each {S A} (f : A -> M S unit) (l : list A) : M S unit :=
  match l with
  | [] => ret tt
  | x :: r => do _ <- f x ;; for_each f r
  end.

(** [for file_type, file_patterns in groups: ... for pattern in file_patterns: f pattern] *)
Definition for_patterns {S} (f : value -> M S unit) (groups : dict) : M S unit :=
  for_each (fun kv => do pats <- lift (file_patterns (snd kv)) ;; for_each f pats) groups.

(** [default_params], built inside the [try] of each file. *)
Fixpoint default_params_loop (params : dict) (acc : dict) : res dict :=
  match params with
  | [] => Ok acc
  | (param_name, param_def) :: rest =>
      let* has_default := in_op (VStr "default") param_def in
      if has_default then
        let* d := getitem param_def "default" in
        default_params_loop rest (dict_set param_name d acc)
      else default_params_loop rest acc
  end.

Definition default_params (md : dict) : res dict :=
  let* ps := get_method (VDict md) "parameters" (VDict []) in
  let* items := items_method ps in
  default_params_loop items [].

Section Validate.
Variables (st : store) (template_path : string).

Definition check_file (pattern : value) : M vstate unit :=
  do p <- lift (as_path pattern) ;;
  match assoc (source_name template_path p) (sources st) with
  | None => add_error ("Required file missing: " ++ p)
  | Some _ => ret tt
  end.

Definition render_check (md : dict) (pattern : value) : M vstate unit :=
  do p <- lift (as_path pattern) ;;
  match assoc (source_name template_path p) (sources st) with
  | None => ret tt
  | Some src =>
      try_except
        (do _ <- log push_trace (Rendered (source_name template_path p)) ;;
         do template <- lift (compile src) ;;
         do dp <- lift (default_params md) ;;
         do _ <- lift (render template dp) ;;
         ret tt)
        (catch_template_error (fun m =>
           add_error ("Template syntax error in " ++ p ++ ": " ++ m)))
  end.

(** The body of the outer [try]. *)
Definition validate_body (depth : nat) : M vstate unit :=
  do md <- lift (resolve_inheritance depth st template_path) ;;
  do _ <- set_metadata md ;;
  do files <- lift (get_method (VDict md) "files" (VDict [])) ;;
  do groups <- lift (items_method files) ;;
  do _ <- for_patterns check_file groups ;;
  do files' <- lift (get_method (VDict md) "files" (VDict [])) ;;
  do groups' <- lift (items_method files') ;;
  for_patterns (render_check md) groups'.

End Validate.

Definition initial_results : vstate :=
  {| valid := true; errors := []; warnings := []; metadata := None; trace := [] |}.

(** [validate_template]: every class in [exn] is an [Exception], so the
    outer handler catches all of them. *)
Definition validate_template (depth : nat) (st : store) (template_path : string) : vstate :=
  snd (try_except (validate_body st template_path depth)
         (fun e => Some (add_error ("Template validation failed: " ++ exn_str e)))
         initial_results).

End Engine.

(** ** The engine with the Jinja fragment *)

Definition generate (depth : nat) (st : store) (template_path output_dir : string)
    (parameters : dict) (now : string) (dry_run : bool) :=
  generate_template (list node) jinja_compile (jinja_render (rng st)) depth st template_path
    output_dir parameters now dry_run [].

Definition validate (depth : nat) (st : store) (template_path : string) : vstate :=
  validate_template (list node) jinja_compile (jinja_render (rng st)) depth st template_path.

(** The default recursion limit of CPython. *)
Definition recursion_limit : nat := 1000.

(** ** Notions used in the statements *)

(** The value of one key after [_deep_merge]. *)
Definition merge_field (b o : option value) : option value :=
  match o with
  | None => b
  | Some (VDict od) =>
      match b with
      | Some (VDict bd) => Some (VDict (deep_merge bd od))
      | _ => o
      end
  | Some _ => o
  end.

(** The parent a template names, when its metadata loads. *)
Definition parent_of (st : store) (p : string) : option string :=
  match load_template_metadata st p with
  | Ok md => match dict_get "inherits" md with Some (VStr q) => Some q | _ => None end
  | Raise _ => None
  end.

(** The spec of parameter [n] in a metadata dict. *)
Definition param_spec (md : dict) (n : string) : option value :=
  match dict_get "parameters" md with
  | Some (VDict ps) => dict_get n ps
  | _ => None
  end.

(** The message [_prepare_parameters] raises for a missing parameter. *)
Definition missing_msg (n : string) : string :=
  "Required parameter '" ++ n ++ "' not provided".

Definition is_missing_error (e : exn) : bool :=
  match e with
  | ValueError m => String.prefix "Required parameter '" m
  | _ => false
  end.

(** ** Sample templates *)

(** The documents of well-formed [template.yaml] files. *)
Definition yaml_files (l : list (string * value)) : list (string * yaml_file) :=
  map (fun kv => (fst kv, Parsed (snd kv))) l.

(** A state of the random module; the sample templates draw nothing from
    it unless stated otherwise. *)
Definition rng_zero : nat -> nat -> nat := fun _ _ => 0.

Definition std_fields (name category : string) : dict :=
  [("name", VStr name); ("version", VStr "1.0.0"); ("description", VStr "sample");
   ("category", VStr category)].

(** A template that names itself as its parent. *)
Definition st_cycle : store := {|
  metas := yaml_files [("loop", VDict (app (std_fields "loop" "base") [("inherits", VStr "loop")]))];
  sources := [];
  rng := rng_zero
|}.

Definition port_fields : dict :=
  [("type", VStr "integer"); ("description", VStr "Listening port");
   ("default", VInt 3000); ("required", VBool true);
   ("enum", VList [VInt 80; VInt 3000; VInt 8080]);
   ("min", VInt 1); ("max", VInt 65535)].

Definition port_spec : value := VDict port_fields.

(** A child's spec for [port] with a new default. *)
Definition port_override : dict :=
  [("type", VStr "integer"); ("description", VStr "Listening port"); ("default", VInt 8080)].

(** [base] declares [port]; [app] overrides only its [default]; [app2]
    restates [type] and [description] next to the new [default]. *)
Definition st_inherit : store := {|
  metas := yaml_files [("base", VDict (app (std_fields "base" "base") [("parameters", VDict [("port", port_spec)])]));
            ("app", VDict (app (std_fields "app" "app")
               [("inherits", VStr "base");
                ("parameters", VDict [("port", VDict [("default", VInt 8080)])])]));
            ("app2", VDict (app (std_fields "app2" "app")
               [("inherits", VStr "base");
                ("parameters", VDict [("port", VDict port_override)])]))];
  sources := [];
  rng := rng_zero
|}.

(** Two required parameters without defaults. *)
Definition required_spec : value :=
  VDict [("type", VStr "string"); ("description", VStr "needed"); ("required", VBool true)].

Definition md_required : dict :=
  app (std_fields "req" "app") [("parameters", VDict [("alpha", required_spec); ("beta", required_spec)])].

(** An integer parameter without further constraints. *)
Definition int_spec : value :=
  VDict [("type", VStr "integer"); ("description", VStr "Listening port")].

Definition md_int : dict :=
  app (std_fields "svc" "app") [("parameters", VDict [("port", int_spec)])].

(** A string parameter with a pattern. *)
Definition slug_spec (pattern : string) : value :=
  VDict [("type", VStr "string"); ("description", VStr "slug"); ("pattern", VStr pattern)].

(** A template declaring a parameter named like an injected key. *)
Definition md_reserved : dict :=
  app (std_fields "svc" "app")
    [("parameters", VDict [("template_name", VDict [("type", VStr "string");
                                                   ("description", VStr "own name");
                                                   ("default", VStr "mine")])]);
     ("files", VDict [("dockerfile", VStr "Dockerfile")])].

Definition st_reserved : store := {|
  metas := yaml_files [("svc", VDict md_reserved)];
  sources := [("svc/Dockerfile", "LABEL name={{ template_name }}")];
  rng := rng_zero
|}.

Definition is_template_error (e : exn) : bool :=
  match e with TemplateError _ => true | _ => false end.

(** How a generation run ends in a [TemplateError m] from a file: the
    file [p] exists, its compile or its render with [fp] raised
    [TemplateError m0], [m] is the wrapped message, and loading [p] is the
    last event, coming after the events [pre]. *)
Definition file_failed {tmpl : Type} (compile : string -> res tmpl)
    (render : tmpl -> dict -> res string) (st : store) (tp : string) (fp : dict)
    (t t' : list event) (m : string) : Prop :=
  exists p src m0 pre,
    m = "Error rendering " ++ p ++ ": " ++ m0 /\
    assoc (source_name tp p) (sources st) = Some src /\
    (compile src = Raise (TemplateError m0) \/
     exists tpl, compile src = Ok tpl /\ render tpl fp = Raise (TemplateError m0)) /\
    t' = (t ++ pre ++ [Rendered (source_name tp p)])%list.

(** Declared file [p] is missing, or compiles and renders with [fp]. *)
Definition renders_ok {tmpl : Type} (compile : string -> res tmpl)
    (render : tmpl -> dict -> res string) (st : store) (tp : string) (fp : dict) (p : string) : Prop :=
  match assoc (source_name tp p) (sources st) with
  | None => True
  | Some src => exists t c, compile src = Ok t /\ render t fp = Ok c
  end.

(** An event of the generation of one of the declared files [ps]. *)
Definition event_of (tp od : string) (ps : list string) (ev : event) : Prop :=
  exists q, In q ps /\ (ev = Rendered (source_name tp q) \/ exists c, ev = Wrote (od ++ "/" ++ q) c).

(** A template whose second file uses a variable nobody defines, and whose
    third file has a syntax error. *)
Definition st_render : store := {|
  metas := yaml_files [("web", VDict (app (std_fields "web" "app")
              [("parameters", VDict [("port", VDict [("type", VStr "integer");
                                                    ("description", VStr "Listening port");
                                                    ("default", VInt 3000)])]);
               ("files", VDict [("dockerfile", VStr "Dockerfile");
                                ("config", VList [VStr "app.conf"; VStr "broken.conf";
                                                  VStr "late.conf"])])]))];
  sources := [("web/Dockerfile", "EXPOSE {{ port }}");
              ("web/app.conf", "log={{ log_level }}");
              ("web/broken.conf", "x={{ port +");
              ("web/late.conf", "y={{ port }}")];
  rng := rng_zero
|}.

(** A template with a file stamped with [generated_at] and a file that is
    not. *)
Definition st_stamp : store := {|
  metas := yaml_files [("web", VDict (app (std_fields "web" "app")
              [("parameters", VDict [("port", VDict [("type", VStr "integer");
                                                    ("description", VStr "Listening port");
                                                    ("default", VInt 3000)])]);
               ("files", VDict [("dockerfile", VStr "Dockerfile");
                                ("config", VList [VStr "stamp.txt"])])]))];
  sources := [("web/Dockerfile", "EXPOSE {{ port }}");
              ("web/stamp.txt", "built {{ generated_at }} by {{ generated_by }}")];
  rng := rng_zero
|}.

(** Another state of the random module. *)
Definition rng_one : nat -> nat -> nat := fun _ _ => 1.

(** A template whose file picks a letter of its parameter at random, with
    the random module in state [r]. *)
Definition st_dice (r : nat -> nat -> nat) : store := {|
  metas := yaml_files [("dice", VDict (app (std_fields "dice" "app")
              [("parameters", VDict [("letters", VDict [("type", VStr "string");
                                                       ("description", VStr "Letters");
                                                       ("default", VStr "ab")])]);
               ("files", VDict [("dockerfile", VStr "Dockerfile")])]))];
  sources := [("dice/Dockerfile", "LABEL pick={{ letters | random }}")];
  rng := r
|}.

(** Two results that agree: the same exception, or two values related by [R]. *)
Definition res_rel {A B} (R : A -> B -> Prop) (r1 : res A) (r2 : res B) : Prop :=
  match r1, r2 with
  | Ok a, Ok b => R a b
  | Raise e1, Raise e2 => e1 = e2
  | _, _ => False
  end.

(** Values that only differ as non-empty strings: what two timestamps are. *)
Inductive vsim : value -> value -> Prop :=
| vsim_refl (v : value) : vsim v v
| vsim_str (s1 s2 : string) : s1 <> EmptyString -> s2 <> EmptyString -> vsim (VStr s1) (VStr s2).

Definition jsim (x y : jval) : Prop :=
  match x, y with
  | JDef v, JDef w => vsim v w
  | JUndef h, JUndef h' => h = h'
  | _, _ => False
  end.

(** Two evaluations that agree: values alike and the same number of draws. *)
Definition eval_sim (a b : jval * nat) : Prop := jsim (fst a) (fst b) /\ snd a = snd b.

Definition opt_sim (o1 o2 : option value) : Prop :=
  match o1, o2 with
  | Some v, Some w => vsim v w
  | None, None => True
  | _, _ => False
  end.

(** Two render contexts with the same keys, whose values differ as
    non-empty strings at most. *)
Definition ctx_sim (d1 d2 : dict) : Prop := forall k, opt_sim (dict_get k d1) (dict_get k d2).

(** Two render contexts that agree everywhere except at key [n]. *)
Definition ctx_eq_except (n : string) (d1 d2 : dict) : Prop :=
  forall k, k <> n -> dict_get k d1 = dict_get k d2.

(** Two contexts of one generation at two timestamps. *)
Definition stamp_variants (d1 d2 : dict) : Prop :=
  ctx_sim d1 d2 /\ ctx_eq_except "generated_at" d1 d2.

Section Stamps.
Context {tmpl : Type} (compile : string -> res tmpl) (render : tmpl -> dict -> res string).

(** A compiled template whose output does not depend on the timestamp. *)
Definition stamp_free (t : tmpl) : Prop :=
  forall d1 d2, stamp_variants d1 d2 -> render t d1 = render t d2.

(** A compiled template that succeeds, or raises the same exception,
    whatever the timestamp. *)
Definition stamp_safe (t : tmpl) : Prop :=
  forall d1 d2, stamp_variants d1 d2 -> res_rel (fun _ _ => True) (render t d1) (render t d2).

(** Output file [k] is rendered from a source whose output depends on the
    timestamp. *)
Definition stamped (st : store) (tp od k : string) : Prop :=
  exists p src t,
    k = od ++ "/" ++ p /\
    assoc (source_name tp p) (sources st) = Some src /\
    compile src = Ok t /\
    ~ stamp_free t.

(** Two [generated_files] dicts with the same keys in the same order, whose
    contents are equal except for files rendered from sources whose output
    depends on the timestamp. *)
Definition out_agree (st : store) (tp od : string) (g1 g2 : list (string * string)) : Prop :=
  map fst g1 = map fst g2 /\
  forall k c1 c2, assoc k g1 = Some c1 -> assoc k g2 = Some c2 -> c1 = c2 \/ stamped st tp od k.

End Stamps.

(** An event with the written content left out. *)
Definition erase (ev : event) : event :=
  match ev with
  | Rendered n => Rendered n
  | Wrote p _ => Wrote p EmptyString
  end.

(** Two runs of a stateful step that agree: related results and the same
    events up to written contents. *)
Definition step_rel {A B} (R : A -> B -> Prop) (o1 : res A * list event) (o2 : res B * list event)
  : Prop :=
  res_rel R (fst o1) (fst o2) /\ map erase (snd o1) = map erase (snd o2).

(** The declared file patterns of [files.items()], flattened in order,
    when every entry is a string or a list of strings. *)
Fixpoint paths_of (l : list value) : res (list string) :=
  match l with
  | [] => Ok []
  | v :: r => let* p := as_path v in let* ps := paths_of r in Ok (p :: ps)
  end.

Fixpoint patterns_of (groups : dict) : res (list string) :=
  match groups with
  | [] => Ok []
  | (_, fp) :: rest =>
      let* vs := file_patterns fp in
      let* ps := paths_of vs in
      let* qs := patterns_of rest in
      Ok (ps ++ qs)%list
  end.

(** One missing-file error per declared pattern without a source. *)
Definition missing_errors (st : store) (tp : string) (pats : list string) : list string :=
  map (fun p => "Required file missing: " ++ p)
      (filter (fun p => match assoc (source_name tp p) (sources st) with
                        | None => true | Some _ => false end) pats).

Record render_outcome : Type := {
  r_errors : list string;
  r_loaded : list event;
  r_stop : option exn
}.

(** The rendering pass over the patterns, described file by file: a file
    without a source is skipped; a file that compiles and renders with
    [dp] adds nothing; a [TemplateError] adds one error and the pass goes
    on; any other exception stops the pass. *)
Fixpoint render_phase {tmpl : Type} (compile : string -> res tmpl)
    (render : tmpl -> dict -> res string) (st : store) (tp : string) (dp : dict)
    (pats : list string) : render_outcome :=
  match pats with
  | [] => {| r_errors := []; r_loaded := []; r_stop := None |}
  | p :: rest =>
      match assoc (source_name tp p) (sources st) with
      | None => render_phase compile render st tp dp rest
      | Some src =>
          let ev := Rendered (source_name tp p) in
          let o := render_phase compile render st tp dp rest in
          match res_bind (compile src) (fun t => render t dp) with
          | Ok _ => {| r_errors := r_errors o; r_loaded := ev :: r_loaded o; r_stop := r_stop o |}
          | Raise (TemplateError m) =>
              {| r_errors := ("Template syntax error in " ++ p ++ ": " ++ m) :: r_errors o;
                 r_loaded := ev :: r_loaded o; r_stop := r_stop o |}
          | Raise e => {| r_errors := []; r_loaded := [ev]; r_stop := Some e |}
          end
      end
  end.

(** A template with one declared file missing ([gone.conf]) and a file
    whose rendering raises a [TypeError] ([a.conf] adds an int to a str). *)
Definition st_abort : store := {|
  metas := yaml_files [("svc", VDict (app (std_fields "svc" "app")
              [("parameters", VDict [("port", VDict [("type", VStr "integer");
                                                    ("description", VStr "Listening port");
                                                    ("default", VInt 3000)]);
                                     ("name", VDict [("type", VStr "string");
                                                    ("description", VStr "Service name");
                                                    ("default", VStr "api")])]);
               ("files", VDict [("dockerfile", VStr "Dockerfile");
                                ("config", VList [VStr "a.conf"; VStr "b.conf";
                                                  VStr "c.conf"; VStr "gone.conf"])])]))];
  sources := [("svc/Dockerfile", "EXPOSE {{ port }}");
              ("svc/a.conf", "x={{ settings.host }}");
              ("svc/b.conf", "id={{ port + name }}");
              ("svc/c.conf", "y={{ port }}")];
  rng := rng_zero
|}.

(** The [results] dict is consistent: [valid] is true exactly when no
    error has been recorded. *)
Definition results_ok (r : vstate) : Prop := valid r = true <-> errors r = [].

(** A step of validation keeps [results_ok]. *)
Definition keeps_ok {A} (m : M vstate A) : Prop :=
  forall s, results_ok s -> results_ok (snd (m s)).

(** Raising only exceptions of a given kind, step by step through [let*]. *)
Definition raises_only {A} (P : exn -> Prop) (r : res A) : Prop :=
  forall e, r = Raise e -> P e.

(** Every [template.yaml] of the store parses to a mapping without a
    repeated key, as [yaml.safe_load] returns a Python [dict]. *)
Definition metas_wf (st : store) : Prop :=
  forall p d, assoc p (metas st) = Some (Parsed (VDict d)) -> NoDup (map fst d).

(** ** [list_templates]

    [rglob("template.yaml")] visits the template directories of the store,
    in the order of [metas].  The warnings the loop prints are returned
    beside the result.  [sorted] with the key [(category, name)] compares
    tuples as Python does: the first components decide unless they are
    equal ([==]), then the second ones.  For a strict order Python's
    [sorted] is the stable sort, computed here by insertion; a comparison
    that raises makes [sorted] raise. *)

(** The entry dict appended for one template, or [None] when the category
    filter drops it. *)
Definition list_entry (st : store) (category : option string) (template_path : string)
    : res (option dict) :=
  let* metadata := load_template_metadata st template_path in
  let* keep :=
    match category with
    | None => Ok true
    | Some c => let* mc := get_method (VDict metadata) "category" VNone in Ok (py_eq mc (VStr c))
    end in
  if keep then
    let* name := getitem (VDict metadata) "name" in
    let* version := getitem (VDict metadata) "version" in
    let* description := getitem (VDict metadata) "description" in
    let* cat := getitem (VDict metadata) "category" in
    let* tags := get_method (VDict metadata) "tags" (VList []) in
    Ok (Some [("path", VStr template_path); ("name", name); ("version", version);
              ("description", description); ("category", cat); ("tags", tags)])
  else Ok None.

Definition load_warning (template_path : string) (e : exn) : string :=
  "Warning: Failed to load template " ++ template_path ++ ": " ++ exn_str e.

(** The loop over the template directories: the collected entries and the
    printed warnings, each in visiting order. *)
Fixpoint list_loop (st : store) (category : option string) (paths : list string)
    : list dict * list string :=
  match paths with
  | [] => ([], [])
  | p :: ps =>
      let '(ts, ws) := list_loop st category ps in
      match list_entry st category p with
      | Ok (Some e) => (e :: ts, ws)
      | Ok None => (ts, ws)
      | Raise e => (ts, load_warning p e :: ws)
      end
  end.

(** [x < y] on the keys [(x["category"], x["name"])]. *)
Definition entry_lt (x y : dict) : res bool :=
  let* cx := getitem (VDict x) "category" in
  let* nx := getitem (VDict x) "name" in
  let* cy := getitem (VDict y) "category" in
  let* ny := getitem (VDict y) "name" in
  if py_eq cx cy then
    if py_eq nx ny then Ok false else py_lt nx ny
  else py_lt cx cy.

Fixpoint insert_entry (x : dict) (l : list dict) : res (list dict) :=
  match l with
  | [] => Ok [x]
  | y :: r =>
      let* lt := entry_lt x y in
      if lt then Ok (x :: y :: r)
      else let* r' := insert_entry x r in Ok (y :: r')
  end.

Fixpoint sort_entries (acc l : list dict) : res (list dict) :=
  match l with
  | [] => Ok acc
  | x :: r => let* acc' := insert_entry x acc in sort_entries acc' r
  end.

(** [list_templates(category)]: the printed warnings and the result. *)
Definition list_templates (st : store) (category : option string) : list string * res (list dict) :=
  let '(templates, warnings) := list_loop st category (map fst (metas st)) in
  (warnings, sort_entries [] templates).

(** ** [test_template]

    [subprocess.run] is an oracle: it receives the invocation's number (the
    value of [tests_run] when it is called, which is distinct for every
    call), the command, the working directory and the timeout, and returns
    a completed process or the exception it raises. *)

Inductive run_outcome : Type :=
| Completed (returncode : Z) (stderr : string)
| TimedOut (msg : string)
| RunError (msg : string).

(** [str.isspace] on ASCII: [\t \n \v \f \r], [\x1c]-[\x1f] and space. *)
Definition split_space (a : ascii) : bool :=
  let n := nat_of_ascii a in
  (Nat.leb 9 n && Nat.leb n 13) || (Nat.leb 28 n && Nat.leb n 32).

(** [s.split()]: the maximal runs of non-space characters. *)
Fixpoint split_ws (s : string) (cur : list ascii) : list string :=
  match s with
  | EmptyString =>
      match cur with [] => [] | _ => [string_of_list_ascii (rev cur)] end
  | String a s' =>
      if split_space a then
        match cur with
        | [] => split_ws s' []
        | _ => string_of_list_ascii (rev cur) :: split_ws s' []
        end
      else split_ws s' (a :: cur)
  end.

Definition split_method (v : value) : res (list string) :=
  match v with
  | VStr s => Ok (split_ws s [])
  | _ => Raise (AttributeError ("'" ++ type_name v ++ "' object has no attribute 'split'"))
  end.

(** [s.endswith(t)]. *)
Definition ends_with (t s : string) : bool :=
  Nat.leb (String.length t) (String.length s) &&
  String.eqb (substring (String.length s - String.length t) (String.length t) s) t.

(** The [results] dict of [test_template]; [test_warnings] is the optional
    ["warnings"] key. *)
Record tresults : Type := {
  success : bool;
  tests_run : nat;
  tests_passed : nat;
  test_errors : list string;
  output : list string;
  test_warnings : option (list string)
}.

Definition initial_tresults : tresults :=
  {| success := true; tests_run := 0; tests_passed := 0; test_errors := []; output := [];
     test_warnings := None |}.

(** [results["tests_run"] += 1]. *)
Definition count_test (r : tresults) : tresults :=
  {| success := success r; tests_run := S (tests_run r); tests_passed := tests_passed r;
     test_errors := test_errors r; output := output r; test_warnings := test_warnings r |}.

(** [results["tests_passed"] += 1; results["output"].append(msg)]. *)
Definition test_passed (msg : string) (r : tresults) : tresults :=
  {| success := success r; tests_run := tests_run r; tests_passed := S (tests_passed r);
     test_errors := test_errors r; output := (output r ++ [msg])%list;
     test_warnings := test_warnings r |}.

(** [results["errors"].append(msg); results["success"] = False]. *)
Definition test_failed (msg : string) (r : tresults) : tresults :=
  {| success := false; tests_run := tests_run r; tests_passed := tests_passed r;
     test_errors := (test_errors r ++ [msg])%list; output := output r;
     test_warnings := test_warnings r |}.

Section Testing.
Variable tmpl : Type.
Variable compile : string -> res tmpl.
Variable render : tmpl -> dict -> res string.
Variable run : nat -> list string -> option string -> Z -> run_outcome.

(** The Docker build test, run from inside the temporary directory. *)
Definition docker_test (metadata : dict) (temp_dir dockerfile_path : string) (r : tresults)
  : tresults :=
  let r := count_test r in
  match getitem (VDict metadata) "name" with
  | Raise e => test_failed ("Docker build error: " ++ exn_str e) r
  | Ok name =>
      match run (tests_run r)
              ["docker"; "build"; "-t"; "test-" ++ py_str name; "-f"; dockerfile_path; temp_dir]
              None 300 with
      | Completed rc err =>
          if Z.eqb rc 0 then test_passed "Docker build: PASSED" r
          else test_failed ("Docker build failed: " ++ err) r
      | TimedOut _ => test_failed "Docker build timeout" r
      | RunError m => test_failed ("Docker build error: " ++ m) r
      end
  end.

(** One of the [test_commands]. *)
Definition command_test (temp_dir : string) (r : tresults) (test_cmd : value) : tresults :=
  let r := count_test r in
  let name := "Test '" ++ py_str test_cmd ++ "'" in
  match split_method test_cmd with
  | Raise e => test_failed (name ++ " error: " ++ exn_str e) r
  | Ok cmd =>
      match run (tests_run r) cmd (Some temp_dir) 60 with
      | Completed rc err =>
          if Z.eqb rc 0 then test_passed (name ++ ": PASSED") r
          else test_failed (name ++ " failed: " ++ err) r
      | TimedOut m | RunError m => test_failed (name ++ " error: " ++ m) r
      end
  end.

(** The first generated path ending in [Dockerfile]. *)
Definition find_dockerfile (generated : list (string * string)) : option string :=
  option_map fst (find (fun kv => ends_with "Dockerfile" (fst kv)) generated).

Definition testing_failed (e : exn) (r : tresults) : tresults :=
  test_failed ("Template testing failed: " ++ exn_str e) r.

(** [test_template]: the results and what generation did in the
    temporary directory [temp_dir]; [now] is the generation time.  Every
    class in [exn] is an [Exception], so the outer handler catches all. *)
Definition test_template (depth : nat) (st : store) (template_path : string)
    (test_params : dict) (now temp_dir : string) : tresults * list event :=
  let r := initial_tresults in
  match resolve_inheritance depth st template_path with
  | Raise e => (testing_failed e r, [])
  | Ok metadata =>
      match get_method (VDict metadata) "testing" (VDict []) with
      | Raise e => (testing_failed e r, [])
      | Ok testing_config =>
          if negb (py_truthy testing_config) then
            ({| success := success r; tests_run := tests_run r; tests_passed := tests_passed r;
                test_errors := test_errors r; output := output r;
                test_warnings := Some ["No testing configuration found"] |}, [])
          else
            match generate_template tmpl compile render depth st template_path temp_dir
                    test_params now false [] with
            | (Raise e, ev) => (testing_failed e r, ev)
            | (Ok generated, ev) =>
                let r :=
                  match find_dockerfile generated with
                  | Some path =>
                      if py_truthy (VStr path) then docker_test metadata temp_dir path r else r
                  | None => r
                  end in
                match get_method testing_config "test_commands" (VList []) with
                | Raise e => (testing_failed e r, ev)
                | Ok cmds =>
                    match py_iter cmds with
                    | Raise e => (testing_failed e r, ev)
                    | Ok l => (fold_left (command_test temp_dir) l r, ev)
                    end
                end
            end
      end
  end.

End Testing.

(** The counters of a [test_template] result agree with its lists. *)
Definition tally_ok (r : tresults) : Prop :=
  tests_passed r <= tests_run r /\ length (output r) = tests_passed r /\
  (success r = true <-> test_errors r = []) /\
  tests_run r <= tests_passed r + length (test_errors r).

(** A template with a Dockerfile and two test commands. *)
Definition st_testing : store := {|
  metas := yaml_files [("web", VDict (app (std_fields "web" "app")
     [("files", VDict [("dockerfile", VStr "Dockerfile")]);
      ("testing", VDict [("test_commands", VList [VStr "pytest -q"; VStr "make check"])])]))];
  sources := [("web/Dockerfile", "FROM node")];
  rng := rng_zero
|}.

(** A process oracle under which only the third invocation fails. *)
Definition run_fails_third (n : nat) (cmd : list string) (cwd : option string) (t : Z) : run_outcome :=
  if Nat.eqb n 3 then Completed 2 "boom" else Completed 0 EmptyString.

(** ** The [generate] command of [main]

    The [--params] file is given by its parsed content, a JSON object;
    [--param] arguments are given in command-line order. *)

(** [s.split(sep, 1)] when [sep] occurs: the text before its first
    occurrence and the text after it. *)
Fixpoint split_once (sep : ascii) (s : string) : option (string * string) :=
  match s with
  | EmptyString => None
  | String a s' =>
      if Ascii.eqb a sep then Some (EmptyString, s')
      else match split_once sep s' with
           | Some (k, v) => Some (String a k, v)
           | None => None
           end
  end.

(** [key, value = param.split("=", 1)]: a one-element list does not
    unpack into two names. *)
Definition parse_param (param : string) : res (string * string) :=
  match split_once "=" param with
  | Some kv => Ok kv
  | None => Raise (ValueError "not enough values to unpack (expected 2, got 1)")
  end.

(** [for param in args.param: ...; params[key] = value]. *)
Fixpoint cli_params (args : list string) (params : dict) : res dict :=
  match args with
  | [] => Ok params
  | param :: rest =>
      let* kv := parse_param param in
      cli_params rest (dict_set (fst kv) (VStr (snd kv)) params)
  end.

(** [d.update(u)] with a dict. *)
Definition dict_update (d u : dict) : dict :=
  fold_left (fun acc kv => dict_set (fst kv) (snd kv) acc) u d.

(** [params] as [main] builds it before calling [generate_template].
    [params_file] is [None] without [--params]; otherwise it is what
    [with open(args.params) as f: params.update(json.load(f))] makes of the
    file: the mapping the update receives, or the exception raised while
    opening ([FileNotFoundError], ...), decoding ([JSONDecodeError], a
    [ValueError]) or updating with something that is no mapping
    ([TypeError], [ValueError]). *)
Definition main_params (params_file : option (res dict)) (param_args : list string) : res dict :=
  let* params := match params_file with
                 | Some loaded => let* j := loaded in Ok (dict_update [] j)
                 | None => Ok []
                 end in
  cli_params param_args params.

(** How [main] ends: normally or with [sys.exit(code)] after the printed
    lines, or with an exception no handler catches. *)
Inductive main_outcome : Type :=
| Exit (code : Z) (lines : list string)
| Uncaught (e : exn).

Definition nl : string := String (ascii_of_nat 10) EmptyString.

(** [main] for [generate template output [--params f] [--param k=v]... [--dry-run]]:
    its outcome and the writes of generation. *)
Definition main_generate (st : store) (params_file : option (res dict)) (param_args : list string)
    (template output : string) (now : string) (dry_run : bool) : main_outcome * list event :=
  match main_params params_file param_args with
  | Raise e => (Uncaught e, [])
  | Ok params =>
      match generate recursion_limit st template output params now dry_run with
      | (Raise e, ev) => (Exit 1 ["Error: " ++ exn_str e], ev)
      | (Ok generated_files, ev) =>
          if dry_run then
            (Exit 0 ("Generated files (dry run):" ::
                     flat_map (fun fc => [nl ++ "=== " ++ fst fc ++ " ==="; snd fc]) generated_files),
             ev)
          else
            (Exit 0 (("Generated " ++ z_str (Z.of_nat (length generated_files)) ++ " files in " ++ output)
                     :: map (fun fc => "  " ++ fst fc) generated_files),
             ev)
      end
  end.

(** An entry whose sort key is a pair of strings. *)
Definition key_str (e : dict) : Prop :=
  exists c n, dict_get "category" e = Some (VStr c) /\ dict_get "name" e = Some (VStr n).

(** [b] is not strictly before [a] under the key [(category, name)]. *)
Definition entry_le (a b : dict) : Prop := entry_lt b a = Ok false.

(** [e] is the entry [list_templates] builds for the template at [p] with
    metadata [md], and the template passes the category filter. *)
Definition entry_shape (c : option string) (p : string) (md e : dict) : Prop :=
  exists n ver ds cat,
    dict_get "name" md = Some n /\ dict_get "version" md = Some ver /\
    dict_get "description" md = Some ds /\ dict_get "category" md = Some cat /\
    (forall c0, c = Some c0 -> cat = VStr c0) /\
    e = [("path", VStr p); ("name", n); ("version", ver); ("description", ds); ("category", cat);
         ("tags", match dict_get "tags" md with Some t => t | None => VList [] end)].

(** A catalogue of four templates; [bad] lacks the required fields. *)
Definition st_catalog : store := {|
  metas := yaml_files [("web", VDict (std_fields "web" "app")); ("db", VDict (std_fields "db" "database"));
            ("bad", VDict [("name", VStr "bad")]); ("api", VDict (std_fields "api" "app"))];
  sources := [];
  rng := rng_zero
|}.

(** Parameter definitions with an [enum] and with a range. *)
Definition port_enum_spec : dict :=
  [("type", VStr "integer"); ("enum", VList [VInt 80; VInt 443])].

Definition port_range_spec : dict :=
  [("type", VStr "integer"); ("min", VInt 1); ("max", VInt 65535)].

(** [l = []] as a boolean. *)
Definition nil_b {A} (l : list A) : bool := match l with [] => true | _ => false end.

(** * Properties *)

(** ** The schema errors and [template_schema_ok] *)

Lemma nil_b_app {A} (a b : list A) : nil_b (a ++ b)%list = nil_b a && nil_b b.
Proof. destruct a; reflexivity. Qed.

Lemma nil_b_flat_map {A B} (f : A -> list B) (l : list A) :
  nil_b (flat_map f l) = forallb (fun x => nil_b (f x)) l.
Proof. induction l as [|x r IH]; cbn; [reflexivity|]. rewrite nil_b_app, IH; reflexivity. Qed.

Lemma forallb_ext' {A} (f g : A -> bool) (l : list A) :
  (forall x, f x = g x) -> forallb f l = forallb g l.
Proof. intros H; induction l; cbn; [reflexivity|]; rewrite H, IHl; reflexivity. Qed.

Lemma nil_b_type_errs ty chk depth v : nil_b (type_errs ty chk depth v) = chk v.
Proof. unfold type_errs; destruct (chk v); reflexivity. Qed.

Lemma nil_b_str_enum_errs c depth v : nil_b (str_enum_errs c depth v) = str_enum c v.
Proof. unfold str_enum_errs; destruct v; cbn; try reflexivity; destruct (existsb _ _); reflexivity. Qed.

Lemma nil_b_str_array_errs depth v : nil_b (str_array_errs depth v) = str_array v.
Proof.
  unfold str_array_errs; destruct v; try reflexivity; cbn.
  rewrite nil_b_flat_map; apply forallb_ext'; intros x; apply nil_b_type_errs.
Qed.

Lemma nil_b_any_errs depth v : nil_b (any_errs depth v) = (fun _ => true) v.
Proof. reflexivity. Qed.

Lemma nil_b_props_cons k chk g r depth d :
  (forall dp v, nil_b (chk dp v) = g v) ->
  nil_b (props_errs ((k, chk) :: r) depth d) = opt_prop d k g && nil_b (props_errs r depth d).
Proof.
  intros H; cbn [props_errs]; rewrite nil_b_app; unfold opt_prop.
  destruct (dict_get k d); [rewrite H|]; reflexivity.
Qed.

Lemma nil_b_object_errs req props depth v :
  nil_b (object_errs req props depth v) =
  match v with
  | VDict d => forallb (fun k => dict_mem k d) req && nil_b (props_errs props depth d)
  | _ => false
  end.
Proof.
  unfold object_errs; destruct v; try reflexivity.
  cbn [is_object type_errs app]; rewrite nil_b_app, nil_b_flat_map; f_equal.
  apply forallb_ext'; intros k; destruct (dict_mem k d); reflexivity.
Qed.

Lemma opt_prop_true d k : opt_prop d k (fun _ => true) = true.
Proof. unfold opt_prop; destruct (dict_get k d); reflexivity. Qed.

Ltac nil_b_leaf :=
  intros; first [ apply nil_b_type_errs | apply nil_b_str_enum_errs
                | apply nil_b_str_array_errs | apply nil_b_any_errs ].

Ltac nil_b_object :=
  intros ? v; rewrite nil_b_object_errs;
  destruct v as [| | | | |d]; try reflexivity; unfold object_with; f_equal;
  repeat (erewrite nil_b_props_cons by nil_b_leaf);
  cbn [props_errs nil_b]; rewrite ?opt_prop_true, ?andb_true_l, ?andb_true_r, <- ?andb_assoc; reflexivity.

Lemma nil_b_param_spec_errs : forall depth v, nil_b (param_spec_errs depth v) = param_spec_ok v.
Proof. unfold param_spec_errs, param_spec_ok; nil_b_object. Qed.

Lemma nil_b_parameters_errs : forall depth v, nil_b (parameters_errs depth v) = parameters_ok v.
Proof.
  intros depth v; unfold parameters_errs, parameters_ok, object_with.
  destruct v as [| | | | |d]; try reflexivity; cbn [is_object type_errs app forallb andb].
  rewrite nil_b_flat_map; apply forallb_ext'; intros [k w]; cbn [fst snd].
  destruct (is_param_name k); [apply nil_b_param_spec_errs|reflexivity].
Qed.

Lemma nil_b_files_errs : forall depth v, nil_b (object_errs ["dockerfile"]
                 [("dockerfile", type_errs "string" is_str);
                  ("compose", type_errs "string" is_str);
                  ("config", str_array_errs);
                  ("scripts", str_array_errs);
                  ("docs", str_array_errs)] depth v) = files_ok v.
Proof. unfold files_ok; nil_b_object. Qed.

Lemma nil_b_dependencies_errs : forall depth v, nil_b (object_errs []
                        [("build", str_array_errs);
                         ("runtime", str_array_errs);
                         ("test", str_array_errs)] depth v) = dependencies_ok v.
Proof. unfold dependencies_ok; nil_b_object. Qed.

Lemma nil_b_testing_errs : forall depth v, nil_b (object_errs []
                   [("build_args", type_errs "object" is_object);
                    ("env_vars", type_errs "object" is_object);
                    ("health_check", type_errs "string" is_str);
                    ("test_commands", str_array_errs);
                    ("integration_tests", str_array_errs)] depth v) = testing_ok v.
Proof. unfold testing_ok; nil_b_object. Qed.

Lemma nil_b_registry_errs : forall depth v, nil_b (object_errs []
                    [("namespace", type_errs "string" is_str);
                     ("repository", type_errs "string" is_str);
                     ("tags", str_array_errs)] depth v) = registry_ok v.
Proof. unfold registry_ok; nil_b_object. Qed.

Lemma template_errs_nil (v : value) : nil_b (template_errs 0 v) = template_schema_ok v.
Proof.
  revert v; change 0 with 0; generalize 0.
  unfold template_errs, template_schema_ok.
  intros ? v; rewrite nil_b_object_errs;
  destruct v as [| | | | |d]; try reflexivity; unfold object_with; f_equal;
  repeat (erewrite nil_b_props_cons by (intros; first
    [ apply nil_b_type_errs | apply nil_b_str_enum_errs | apply nil_b_str_array_errs
    | apply nil_b_parameters_errs | apply nil_b_files_errs | apply nil_b_dependencies_errs
    | apply nil_b_testing_errs | apply nil_b_registry_errs ]));
  cbn [props_errs nil_b]; rewrite ?andb_true_r, <- ?andb_assoc; reflexivity.
Qed.

(** The schema check that decides and the error list that words the
    message agree: [validate] raises exactly when some error exists. *)
Lemma template_schema_ok_iff (v : value) : template_schema_ok v = true <-> template_errs 0 v = [].
Proof.
  rewrite <- template_errs_nil; destruct (template_errs 0 v); cbn; split; congruence.
Qed.


(** ** Dict lemmas *)

Lemma dict_get_set (k k' : string) (v : value) (d : dict) :
  dict_get k (dict_set k' v d) = if String.eqb k k' then Some v else dict_get k d.
Proof.
  induction d as [|[k0 v0] r IH]; cbn.
  - destruct (String.eqb k k'); reflexivity.
  - destruct (String.eqb k' k0) eqn:E1; cbn.
    + apply String.eqb_eq in E1; subst k0.
      destruct (String.eqb k k'); reflexivity.
    + destruct (String.eqb k k0) eqn:E2.
      * apply String.eqb_eq in E2; subst k0.
        destruct (String.eqb k k') eqn:E3; [|reflexivity].
        apply String.eqb_eq in E3; subst k'.
        rewrite String.eqb_refl in E1; discriminate.
      * exact IH.
Qed.

Lemma dict_get_pop_neq (k k' : string) (d : dict) :
  k <> k' -> dict_get k (dict_pop k' d) = dict_get k d.
Proof.
  intros Hne; induction d as [|[k0 v0] r IH]; cbn; [reflexivity|].
  destruct (String.eqb k' k0) eqn:E1; cbn.
  - apply String.eqb_eq in E1; subst k0.
    destruct (String.eqb k k') eqn:E2; [apply String.eqb_eq in E2; congruence|reflexivity].
  - destruct (String.eqb k k0); [reflexivity|exact IH].
Qed.

Lemma dict_get_In (k : string) (v : value) (d : dict) :
  dict_get k d = Some v -> In k (map fst d).
Proof.
  induction d as [|[k0 v0] r IH]; cbn; [discriminate|].
  destruct (String.eqb k k0) eqn:E; intros H.
  - apply String.eqb_eq in E; left; congruence.
  - right; auto.
Qed.

Lemma dict_get_notin (k : string) (d : dict) :
  ~ In k (map fst d) -> dict_get k d = None.
Proof.
  intros H; destruct (dict_get k d) eqn:E; [|reflexivity].
  exfalso; apply H; eapply dict_get_In; eauto.
Qed.

(** ** [_deep_merge] key by key *)

Lemma deep_merge_nil (r : dict) : deep_merge r [] = r.
Proof. reflexivity. Qed.

Lemma deep_merge_cons (r : dict) (key : string) (v : value) (rest : dict) :
  deep_merge r ((key, v) :: rest) =
  deep_merge (match dict_get key r, v with
              | Some (VDict rd), VDict vd => dict_set key (VDict (deep_merge rd vd)) r
              | _, _ => dict_set key v r
              end) rest.
Proof. unfold deep_merge at 1; cbn [deep_merge_into]; destruct (dict_get key r) as [[]|], v; reflexivity. Qed.

Lemma deep_merge_get (o r : dict) (k : string) :
  NoDup (map fst o) ->
  dict_get k (deep_merge r o) = merge_field (dict_get k r) (dict_get k o).
Proof.
  revert r; induction o as [|[k0 v0] rest IH]; intros r Hnd.
  - reflexivity.
  - inversion Hnd as [|? ? Hnotin Hnd']; subst.
    rewrite deep_merge_cons, IH by exact Hnd'.
    cbn [dict_get].
    destruct (String.eqb k k0) eqn:E.
    + apply String.eqb_eq in E; subst k0.
      rewrite (dict_get_notin k rest Hnotin); cbn [merge_field].
      destruct (dict_get k r) as [[]|] eqn:Er, v0;
        rewrite dict_get_set, String.eqb_refl; reflexivity.
    + assert (Hs : forall w, dict_get k (dict_set k0 w r) = dict_get k r)
        by (intros w; rewrite dict_get_set, E; reflexivity).
      destruct (dict_get k0 r) as [[]|], v0; rewrite Hs; reflexivity.
Qed.

(** ** Inheritance resolution *)

Lemma resolve_inheritance_child (depth : nat) (st : store) (child parent : string) (cmd : dict) :
  load_template_metadata st child = Ok cmd ->
  dict_get "inherits" cmd = Some (VStr parent) ->
  resolve_inheritance (S depth) st child =
  let* pmd := resolve_inheritance depth st parent in
  Ok (dict_pop "inherits" (deep_merge pmd cmd)).
Proof. intros Hl Hi; cbn [resolve_inheritance]; rewrite Hl; cbn; rewrite Hi; reflexivity. Qed.

(** ** C1: cyclic parent chains *)

(** C1 (amended).  [resolve_inheritance] has no cycle check: every template
    whose parent chain never ends (each template of the chain loads and
    names a parent that is again on the chain, as on a cycle) makes it
    recurse until the recursion limit is exhausted and raise
    [RecursionError], whatever the limit; no dedicated cycle error is
    raised. *)
Theorem resolve_cyclic_chain_recursion_error (st : store) (chain : string -> Prop)
  (Hchain : forall p, chain p -> exists q, parent_of st p = Some q /\ chain q) :
  forall (depth : nat) (p : string), chain p ->
  resolve_inheritance depth st p = Raise RecursionError.
Proof.
  induction depth as [|depth IH]; intros p Hp; [reflexivity|].
  destruct (Hchain p Hp) as (q & Hq & Hcq).
  unfold parent_of in Hq.
  destruct (load_template_metadata st p) as [md|e] eqn:Hl; [|discriminate].
  destruct (dict_get "inherits" md) as [[]|] eqn:Hi; try discriminate.
  injection Hq as <-.
  rewrite (resolve_inheritance_child depth st p s md Hl Hi), IH by exact Hcq.
  reflexivity.
Qed.

Lemma resolve_cyclic_chain_recursion_error_witness :
  resolve_inheritance recursion_limit st_cycle "loop" = Raise RecursionError.
Proof.
  apply (resolve_cyclic_chain_recursion_error st_cycle (fun p => p = "loop")); [|reflexivity].
  intros p ->; exists "loop"; split; reflexivity.
Defined.

(** C1 counterexample: a self-inheriting template ends in [RecursionError]
    at CPython's default limit, not in an [InheritanceCycleError]. *)
Lemma resolve_cycle_counterexample :
  resolve_inheritance recursion_limit st_cycle "loop" = Raise RecursionError.
Proof. vm_compute. reflexivity. Qed.

(** ** C2: merged parameter specs *)

(** C2 counterexample: a child whose spec for [port] gives only [default]
    is rejected by the loader's schema (a parameter spec needs [type] and
    [description]), so no merged spec exists. *)
Lemma child_default_only_counterexample :
  resolve_inheritance recursion_limit st_inherit "app"
  = Raise (ValidationError "Invalid template metadata in app: 'type' is a required property").
Proof. vm_compute. reflexivity. Qed.

Lemma dict_get_In_pair (k : string) (v : value) (d : dict) :
  dict_get k d = Some v -> In (k, v) d.
Proof.
  induction d as [|[k0 v0] r IH]; cbn; [discriminate|].
  destruct (String.eqb k k0) eqn:E; intros H.
  - apply String.eqb_eq in E; left; congruence.
  - right; auto.
Qed.

(** A metadata dict with an identifier-named parameter whose spec lacks
    [type] or [description] fails the schema. *)
Lemma template_schema_ok_missing_param_field (cmd cps cs : dict) (n : string) :
  dict_get "parameters" cmd = Some (VDict cps) ->
  dict_get n cps = Some (VDict cs) ->
  is_param_name n = true ->
  dict_mem "type" cs = false \/ dict_mem "description" cs = false ->
  template_schema_ok (VDict cmd) = false.
Proof.
  intros Hp Hn Hname Hmiss.
  unfold template_schema_ok, object_with.
  destruct (forallb (fun k => dict_mem k cmd) ["name"; "version"; "description"; "category"]);
    [cbn [andb]|reflexivity].
  assert (Hpo : parameters_ok (VDict cps) = false).
  { unfold parameters_ok, object_with; cbn [forallb andb].
    match goal with |- forallb ?f cps = false => destruct (forallb f cps) eqn:Ef end;
      [exfalso|reflexivity].
    apply forallb_forall with (x := (n, VDict cs)) in Ef; [|apply dict_get_In_pair; exact Hn].
    revert Ef; cbn [fst snd]; rewrite Hname; unfold param_spec_ok, object_with; cbn [forallb].
    destruct Hmiss as [-> | ->]; [discriminate|].
    destruct (dict_mem "type" cs); discriminate. }
  unfold opt_prop at 9; rewrite Hp, Hpo.
  rewrite !andb_false_r, !andb_false_l; reflexivity.
Qed.

Lemma resolve_merges_param_spec_merge (depth : nat) (st : store) (child parent : string)
    (cmd pmd : dict) (n : string) (ps cs : dict) :
  load_template_metadata st child = Ok cmd ->
  dict_get "inherits" cmd = Some (VStr parent) ->
  resolve_inheritance depth st parent = Ok pmd ->
  param_spec pmd n = Some (VDict ps) ->
  param_spec cmd n = Some (VDict cs) ->
  NoDup (map fst cmd) ->
  (forall cps, dict_get "parameters" cmd = Some (VDict cps) -> NoDup (map fst cps)) ->
  NoDup (map fst cs) ->
  exists md, resolve_inheritance (S depth) st child = Ok md /\
    param_spec md n = Some (VDict (deep_merge ps cs)) /\
    forall k, dict_get k (deep_merge ps cs) = merge_field (dict_get k ps) (dict_get k cs).
Proof.
  intros Hl Hi Hr Hp Hc Hnd Hndp Hnds.
  rewrite (resolve_inheritance_child depth st child parent cmd Hl Hi), Hr; cbn [res_bind].
  eexists; split; [reflexivity|].
  split; [|intros k; apply deep_merge_get; exact Hnds].
  unfold param_spec in *.
  rewrite dict_get_pop_neq by discriminate.
  rewrite deep_merge_get by exact Hnd.
  destruct (dict_get "parameters" pmd) as [[]|]; try discriminate.
  destruct (dict_get "parameters" cmd) as [[]|] eqn:Ecp; try discriminate.
  cbn [merge_field].
  rewrite deep_merge_get by (apply Hndp; reflexivity).
  rewrite Hp, Hc; reflexivity.
Qed.

(** C2 (amended).  (a) A child template whose spec for an
    identifier-named parameter lacks [type] or [description] (for example
    one that only overrides [default]) does not load: the loader raises
    [ValidationError("Invalid template metadata in <child>: <jsonschema
    message>")], so resolving the child raises it too and no merged spec
    exists.  (b) When a child template that names a parent loads and the
    parent resolves, the resolved spec of a parameter both declare is the
    parent's spec deep-merged with the child's: a field the child leaves
    out keeps the parent's value, a field the child sets takes the child's
    value, merged key by key when both values are dicts and replaced
    wholesale otherwise (scalars and lists).  The dicts involved have
    distinct keys, as every dict loaded from YAML. *)
Theorem resolve_merges_param_spec :
  (forall (st : store) (child : string) (cmd cps : dict) (n : string) (cs : dict),
     assoc child (metas st) = Some (Parsed (VDict cmd)) ->
     dict_get "parameters" cmd = Some (VDict cps) ->
     dict_get n cps = Some (VDict cs) ->
     is_param_name n = true ->
     dict_mem "type" cs = false \/ dict_mem "description" cs = false ->
     load_template_metadata st child
       = Raise (ValidationError ("Invalid template metadata in " ++ child ++ ": "
                                 ++ schema_message (VDict cmd))) /\
     forall depth, resolve_inheritance (S depth) st child
       = Raise (ValidationError ("Invalid template metadata in " ++ child ++ ": "
                                 ++ schema_message (VDict cmd)))) /\
  (forall (depth : nat) (st : store) (child parent : string) (cmd pmd : dict) (n : string)
          (ps cs : dict),
     load_template_metadata st child = Ok cmd ->
     dict_get "inherits" cmd = Some (VStr parent) ->
     resolve_inheritance depth st parent = Ok pmd ->
     param_spec pmd n = Some (VDict ps) ->
     param_spec cmd n = Some (VDict cs) ->
     NoDup (map fst cmd) ->
     (forall cps, dict_get "parameters" cmd = Some (VDict cps) -> NoDup (map fst cps)) ->
     NoDup (map fst cs) ->
     exists md, resolve_inheritance (S depth) st child = Ok md /\
       param_spec md n = Some (VDict (deep_merge ps cs)) /\
       forall k, dict_get k (deep_merge ps cs) = merge_field (dict_get k ps) (dict_get k cs)).
Proof.
  split; [|exact resolve_merges_param_spec_merge].
  intros st child cmd cps n cs Hm Hp Hn Hname Hmiss.
  assert (Hl : load_template_metadata st child
               = Raise (ValidationError ("Invalid template metadata in " ++ child ++ ": "
                                         ++ schema_message (VDict cmd)))).
  { unfold load_template_metadata; rewrite Hm.
    rewrite (template_schema_ok_missing_param_field cmd cps cs n Hp Hn Hname Hmiss); reflexivity. }
  split; [exact Hl|].
  intros depth; cbn [resolve_inheritance]; rewrite Hl; reflexivity.
Qed.

Lemma resolve_merges_param_spec_witness :
  load_template_metadata st_inherit "app"
    = Raise (ValidationError ("Invalid template metadata in app: 'type' is a required property")) /\
  exists md, resolve_inheritance (S recursion_limit) st_inherit "app2" = Ok md /\
    param_spec md "port" = Some (VDict (deep_merge port_fields port_override)) /\
    forall k, dict_get k (deep_merge port_fields port_override)
              = merge_field (dict_get k port_fields) (dict_get k port_override).
Proof.
  destruct resolve_merges_param_spec as [HA HB]; split.
  - destruct (HA st_inherit "app"
                (app (std_fields "app" "app")
                   [("inherits", VStr "base"); ("parameters", VDict [("port", VDict [("default", VInt 8080)])])])
                [("port", VDict [("default", VInt 8080)])] "port" [("default", VInt 8080)]
                ltac:(vm_compute; reflexivity) ltac:(vm_compute; reflexivity)
                ltac:(vm_compute; reflexivity) ltac:(vm_compute; reflexivity)
                (or_introl eq_refl)) as [H _].
    rewrite H; vm_compute; reflexivity.
  - apply (HB recursion_limit st_inherit "app2" "base"
             (app (std_fields "app2" "app")
                [("inherits", VStr "base"); ("parameters", VDict [("port", VDict port_override)])])
             (app (std_fields "base" "base") [("parameters", VDict [("port", port_spec)])]));
      try (vm_compute; reflexivity).
    + cbn; repeat constructor; cbn; intuition discriminate.
    + intros cps H; vm_compute in H; injection H as <-.
      repeat constructor; cbn; intuition discriminate.
    + cbn; repeat constructor; cbn; intuition discriminate.
Defined.

(** ** C3: required parameters *)

Lemma string_app_inv_l (s a b : string) : s ++ a = s ++ b -> a = b.
Proof. induction s as [|c s IH]; cbn; [auto|]; intros H; injection H; auto. Qed.

Lemma list_ascii_of_string_app (a b : string) :
  list_ascii_of_string (a ++ b) = (list_ascii_of_string a ++ list_ascii_of_string b)%list.
Proof. induction a as [|c a IH]; cbn; [reflexivity|]; rewrite IH; reflexivity. Qed.

Lemma string_app_inv_r (t a b : string) : a ++ t = b ++ t -> a = b.
Proof.
  intros H; apply (f_equal list_ascii_of_string) in H.
  rewrite !list_ascii_of_string_app in H; apply app_inv_tail in H.
  rewrite <- (string_of_list_ascii_of_string a), <- (string_of_list_ascii_of_string b), H.
  reflexivity.
Qed.

Lemma missing_msg_inj (m n : string) : missing_msg m = missing_msg n -> m = n.
Proof.
  unfold missing_msg; intros H.
  apply string_app_inv_l in H; apply string_app_inv_r in H; exact H.
Qed.

Lemma prefix_app (s t : string) : String.prefix s (s ++ t) = true.
Proof.
  induction s as [|c s IH]; cbn; [destruct t; reflexivity|].
  destruct (ascii_dec c c); [exact IH|contradiction].
Qed.

Lemma missing_msg_is_missing (n : string) : is_missing_error (ValueError (missing_msg n)) = true.
Proof. apply prefix_app. Qed.

(** Case analysis on every [let*] and [if] in the hypotheses. *)
Ltac res_cases :=
  repeat match goal with
  | H : Ok _ = Raise _ |- _ => discriminate H
  | H : Raise _ = Ok _ |- _ => discriminate H
  | H : context [res_bind ?r _] |- _ => let E := fresh "E" in destruct r eqn:E; cbn [res_bind] in H
  | H : context [if ?b then _ else _] |- _ => let E := fresh "E" in destruct b eqn:E
  end.

Lemma ro_ok {A} (P : exn -> Prop) (a : A) : raises_only P (Ok a).
Proof. intros e H; discriminate. Qed.

Lemma ro_raise {A} (P : exn -> Prop) (e : exn) : P e -> raises_only (A:=A) P (Raise e).
Proof. intros He e' H; injection H as <-; exact He. Qed.

Lemma ro_bind {A B} (P : exn -> Prop) (r : res A) (k : A -> res B) :
  raises_only P r -> (forall a, raises_only P (k a)) -> raises_only P (res_bind r k).
Proof. intros Hr Hk e; destruct r as [a|e0]; cbn [res_bind]; [apply (Hk a)|intros H; injection H as <-; apply (Hr e0 eq_refl)]. Qed.

Section RaisesOnly.
Variable P : exn -> Prop.
Hypothesis HV : forall x, P (ValueError ("Parameter '" ++ x)).
Hypothesis HT : forall m, P (TypeError m).
Hypothesis HK : forall k, P (KeyError k).
Hypothesis HR : forall m, P (ReError m).

Lemma getitem_ro (c : value) (k : string) : raises_only P (getitem c k).
Proof. intros e; destruct c; cbn; try destruct (dict_get k d); intros H; first [discriminate H | injection H as <-; auto]. Qed.

Lemma in_op_ro (x c : value) : raises_only P (in_op x c).
Proof. intros e; destruct c; cbn; try destruct x; cbn; intros H; first [discriminate H | injection H as <-; auto]. Qed.

Lemma py_lt_ro (a b : value) : raises_only P (py_lt a b).
Proof.
  intros e; unfold py_lt; destruct (as_int a), (as_int b); try destruct a, b;
    intros H; first [discriminate H | injection H as <-; auto].
Qed.

Lemma re_match_ro (p s : value) : raises_only P (re_match p s).
Proof. intros e; unfold re_match; destruct p, s; try destruct (re_parse _); intros H; first [discriminate H | injection H as <-; auto]. Qed.

Ltac ro_steps :=
  repeat match goal with
  | |- raises_only _ (res_bind _ _) => apply ro_bind; [|intros ?]
  | |- raises_only _ (if ?b then _ else _) => destruct b
  | |- raises_only _ (Ok _) => apply ro_ok
  | |- raises_only _ (Raise _) => apply ro_raise; auto
  | |- raises_only _ (getitem _ _) => apply getitem_ro
  | |- raises_only _ (in_op _ _) => apply in_op_ro
  | |- raises_only _ (py_lt _ _) => apply py_lt_ro
  | |- raises_only _ (re_match _ _) => apply re_match_ro
  end.

Lemma validate_parameter_ro (name : string) (v def : value) :
  raises_only P (validate_parameter name v def).
Proof. unfold validate_parameter, validate_parameter_with; cbv beta zeta; ro_steps. Qed.

End RaisesOnly.

Lemma getitem_not_missing (c : value) (k : string) (e : exn) :
  getitem c k = Raise e -> is_missing_error e = false.
Proof.
  destruct c; cbn; try (intros H; injection H as <-; reflexivity).
  destruct (dict_get k d); intros H; [discriminate|injection H as <-; reflexivity].
Qed.

Lemma in_op_not_missing (x c : value) (e : exn) :
  in_op x c = Raise e -> is_missing_error e = false.
Proof.
  destruct c; cbn; try (intros H; injection H as <-; reflexivity);
    destruct x; cbn; try discriminate; intros H; injection H as <-; reflexivity.
Qed.

Lemma get_method_not_missing (c : value) (k : string) (dflt : value) (e : exn) :
  get_method c k dflt = Raise e -> is_missing_error e = false.
Proof.
  destruct c; cbn; try (intros H; injection H as <-; reflexivity).
  destruct (dict_get k d); discriminate.
Qed.

Lemma py_lt_not_missing (a b : value) (e : exn) :
  py_lt a b = Raise e -> is_missing_error e = false.
Proof.
  unfold py_lt; destruct (as_int a), (as_int b); try discriminate;
    destruct a, b; try discriminate; intros H; injection H as <-; reflexivity.
Qed.

Lemma re_match_not_missing (p s : value) (e : exn) :
  re_match p s = Raise e -> is_missing_error e = false.
Proof.
  unfold re_match; destruct p, s; try (intros H; injection H as <-; reflexivity).
  destruct (re_parse s0); [discriminate|intros H; injection H as <-; reflexivity].
Qed.

Lemma validate_parameter_not_missing (name : string) (v def : value) (e : exn) :
  validate_parameter name v def = Raise e -> is_missing_error e = false.
Proof.
  apply (validate_parameter_ro (fun e => is_missing_error e = false)); intros; reflexivity.
Qed.

Lemma prepare_loop_app (provided pre rest final : dict) :
  prepare_loop provided (pre ++ rest)%list final =
  match prepare_loop provided pre final with
  | Ok f => prepare_loop provided rest f
  | Raise e => Raise e
  end.
Proof.
  revert final; induction pre as [|[n d] pre IH]; intros final; [reflexivity|].
  cbn [app prepare_loop].
  match goal with
  | |- res_bind ?r _ = _ => destruct r as [[v|]|e]; cbn [res_bind]
  end; [|apply IH|reflexivity].
  destruct (validate_parameter n v d); cbn [res_bind]; [apply IH|reflexivity].
Qed.

Lemma prepare_parameters_loop (md provided params : dict) :
  dict_get "parameters" md = Some (VDict params) ->
  prepare_parameters md provided = prepare_loop provided params [].
Proof. intros H; unfold prepare_parameters; cbn; rewrite H; reflexivity. Qed.

(** Every missing-parameter error comes from a listed parameter that was
    not supplied and has no default. *)
Lemma prepare_loop_missing_origin (provided params final : dict) (e : exn) :
  prepare_loop provided params final = Raise e -> is_missing_error e = true ->
  exists n d, e = ValueError (missing_msg n) /\ In (n, d) params /\
    dict_get n provided = None /\ in_op (VStr "default") d = Ok false.
Proof.
  revert final; induction params as [|[n d] rest IH]; intros final H Hm;
    cbn [prepare_loop] in H; [discriminate|].
  assert (Hrest : forall f, prepare_loop provided rest f = Raise e ->
            exists n' d', e = ValueError (missing_msg n') /\ In (n', d') ((n, d) :: rest) /\
              dict_get n' provided = None /\ in_op (VStr "default") d' = Ok false)
    by (intros f Hf; destruct (IH f Hf Hm) as (n' & d' & ? & ? & ? & ?);
        exists n', d'; repeat split; auto; right; auto).
  assert (Hval : forall v f, res_bind (validate_parameter n v d) (fun _ => prepare_loop provided rest f) = Raise e ->
            exists n' d', e = ValueError (missing_msg n') /\ In (n', d') ((n, d) :: rest) /\
              dict_get n' provided = None /\ in_op (VStr "default") d' = Ok false).
  { intros v f Hv; destruct (validate_parameter n v d) eqn:Ev; cbn [res_bind] in Hv; [eauto|].
    injection Hv as <-; rewrite (validate_parameter_not_missing _ _ _ _ Ev) in Hm; discriminate. }
  destruct (dict_get n provided) eqn:Ep; cbn [res_bind] in H; [eauto|].
  destruct (in_op (VStr "default") d) as [[]|e'] eqn:Ei; cbn [res_bind] in H.
  - destruct (getitem d "default") eqn:Eg; cbn [res_bind] in H; [eauto|].
    injection H as <-; rewrite (getitem_not_missing _ _ _ Eg) in Hm; discriminate.
  - destruct (get_method d "required" (VBool false)) eqn:Eg; cbn [res_bind] in H.
    + destruct (py_truthy a); [|eauto].
      injection H as <-; exists n, d; repeat split; auto; left; reflexivity.
    + injection H as <-; rewrite (get_method_not_missing _ _ _ _ Eg) in Hm; discriminate.
  - injection H as <-; rewrite (in_op_not_missing _ _ _ Ei) in Hm; discriminate.
Qed.

Lemma NoDup_keys_unique (params : dict) (n : string) (d1 d2 : value) :
  NoDup (map fst params) -> In (n, d1) params -> In (n, d2) params -> d1 = d2.
Proof.
  induction params as [|[k v] r IH]; cbn; [contradiction|].
  intros Hnd H1 H2; inversion Hnd as [|? ? Hnotin Hnd']; subst.
  destruct H1 as [H1|H1], H2 as [H2|H2].
  - congruence.
  - injection H1 as <- <-; exfalso; apply Hnotin; apply (in_map fst) in H2; exact H2.
  - injection H2 as <- <-; exfalso; apply Hnotin; apply (in_map fst) in H1; exact H1.
  - eauto.
Qed.

(** C3 (amended).  Parameters are processed in declaration order and the
    first failure is raised.  If a declared parameter is marked required,
    has no default and is not supplied, [_prepare_parameters] fails; when
    every parameter declared before it goes through (supplied or defaulted
    with a valid value, or optional and absent), the exception is the
    [ValueError] "Required parameter '<name>' not provided" naming it.  A
    parameter that is supplied or has a default never causes that error. *)
Theorem prepare_parameters_required (md provided params : dict) :
  dict_get "parameters" md = Some (VDict params) ->
  (forall pre n d post r,
     params = (pre ++ (n, VDict d) :: post)%list ->
     dict_get n provided = None -> dict_get "default" d = None ->
     dict_get "required" d = Some r -> py_truthy r = true ->
     is_ok (prepare_parameters md provided) = false /\
     (forall f, prepare_loop provided pre [] = Ok f ->
        prepare_parameters md provided = Raise (ValueError (missing_msg n)))) /\
  (forall m dm,
     NoDup (map fst params) -> In (m, VDict dm) params ->
     dict_get m provided <> None \/ dict_get "default" dm <> None ->
     prepare_parameters md provided <> Raise (ValueError (missing_msg m))).
Proof.
  intros Hp; rewrite (prepare_parameters_loop md provided params Hp); split.
  - intros pre n d post r -> Hn Hd Hr Ht.
    assert (Hmiss : forall f, prepare_loop provided ((n, VDict d) :: post) f
                              = Raise (ValueError (missing_msg n))).
    { intros f; cbn [prepare_loop]; rewrite Hn; cbn; unfold dict_mem; rewrite Hd; cbn.
      rewrite Hr; cbn; rewrite Ht; reflexivity. }
    rewrite prepare_loop_app; split.
    + destruct (prepare_loop provided pre []); [rewrite Hmiss|]; reflexivity.
    + intros f Hf; rewrite Hf; apply Hmiss.
  - intros m dm Hnd Hin Hsup Hraise.
    destruct (prepare_loop_missing_origin provided params [] _ Hraise (missing_msg_is_missing m))
      as (n & d & He & Hin' & Hprov & Hdef).
    assert (n = m) by (apply missing_msg_inj; congruence); subst n.
    rewrite (NoDup_keys_unique params m d (VDict dm) Hnd Hin' Hin) in Hdef.
    cbn in Hdef; unfold dict_mem in Hdef.
    destruct Hsup as [Hs|Hs]; [contradiction|].
    destruct (dict_get "default" dm); [discriminate|contradiction].
Qed.

Lemma prepare_parameters_required_witness :
  (forall pre n d post r,
     [("alpha", required_spec); ("beta", required_spec)] = (pre ++ (n, VDict d) :: post)%list ->
     dict_get n [] = None -> dict_get "default" d = None ->
     dict_get "required" d = Some r -> py_truthy r = true ->
     is_ok (prepare_parameters md_required []) = false /\
     (forall f, prepare_loop [] pre [] = Ok f ->
        prepare_parameters md_required [] = Raise (ValueError (missing_msg n)))) /\
  (forall m dm,
     NoDup (map fst [("alpha", required_spec); ("beta", required_spec)]) ->
     In (m, VDict dm) [("alpha", required_spec); ("beta", required_spec)] ->
     dict_get m [] <> None \/ dict_get "default" dm <> None ->
     prepare_parameters md_required [] <> Raise (ValueError (missing_msg m))).
Proof. apply (prepare_parameters_required md_required [] _). reflexivity. Defined.

(** C3 counterexample: [beta] is required, has no default and is omitted,
    but the error names [alpha], declared before it; the class is
    [ValueError]. *)
Lemma required_error_names_first_counterexample :
  prepare_parameters md_required [] = Raise (ValueError "Required parameter 'alpha' not provided").
Proof. vm_compute. reflexivity. Qed.

(** ** C4: type checks *)

(** C4 (code defect): [isinstance(True, int)] holds in Python, so an
    integer-typed parameter accepts a boolean, here through
    [_prepare_parameters]. *)
Theorem integer_param_accepts_bool :
  validate_parameter "port" (VBool true) int_spec = Ok tt /\
  prepare_parameters md_int [("port", VBool true)] = Ok [("port", VBool true)].
Proof. split; vm_compute; reflexivity. Qed.

(** ** C5: patterns *)

(** C5 (amended).  For a string-typed parameter with a declared pattern,
    whatever the regular-expression matcher [re_match] (Python's
    [re.match]): a string value is accepted only if [re.match] finds a
    match of the pattern starting at the beginning of the value, and the
    match need not reach the end.  With no enum declared, the value is
    accepted exactly then; when no match is found a [ValueError] naming the
    parameter and the pattern is raised, and when the pattern is invalid
    the [re.error] of [re.match] propagates. *)
Theorem validate_string_pattern (re_match : value -> value -> res bool)
    (name s pat : string) (d : dict) :
  dict_get "type" d = Some (VStr "string") ->
  dict_get "pattern" d = Some (VStr pat) ->
  (validate_parameter_with re_match name (VStr s) (VDict d) = Ok tt ->
   re_match (VStr pat) (VStr s) = Ok true) /\
  (dict_get "enum" d = None ->
   validate_parameter_with re_match name (VStr s) (VDict d) =
   match re_match (VStr pat) (VStr s) with
   | Ok true => Ok tt
   | Ok false => Raise (ValueError ("Parameter '" ++ name ++ "' doesn't match pattern " ++ pat))
   | Raise e => Raise e
   end).
Proof.
  intros Ht Hp.
  assert (Hpat : in_op (VStr "pattern") (VDict d) = Ok true)
    by (cbn; unfold dict_mem; rewrite Hp; reflexivity).
  assert (Hgp : getitem (VDict d) "pattern" = Ok (VStr pat)) by (cbn; rewrite Hp; reflexivity).
  unfold validate_parameter_with.
  replace (getitem (VDict d) "type") with (Ok (A := value) (VStr "string")) by (cbn; rewrite Ht; reflexivity).
  cbn [res_bind py_eq String.eqb isinstance_str negb andb orb Ascii.eqb Bool.eqb].
  replace (in_op (VStr "enum") (VDict d)) with (Ok (A := bool) (dict_mem "enum" d)) by reflexivity.
  rewrite Hpat, Hgp; cbn [res_bind py_str].
  split.
  - intros H; res_cases; congruence.
  - intros He; unfold dict_mem; rewrite He; cbn [res_bind].
    destruct (re_match (VStr pat) (VStr s)) as [[]|]; reflexivity.
Qed.

Lemma validate_string_pattern_witness :
  (validate_parameter "slug" (VStr "abc") (slug_spec "^[a-z]+$") = Ok tt ->
   re_match (VStr "^[a-z]+$") (VStr "abc") = Ok true) /\
  (dict_get "enum" [("type", VStr "string"); ("description", VStr "slug"); ("pattern", VStr "^[a-z]+$")] = None ->
   validate_parameter "slug" (VStr "ABC") (slug_spec "^[a-z]+$") =
   match re_match (VStr "^[a-z]+$") (VStr "ABC") with
   | Ok true => Ok tt
   | Ok false => Raise (ValueError ("Parameter 'slug' doesn't match pattern " ++ "^[a-z]+$"))
   | Raise e => Raise e
   end).
Proof.
  split.
  - apply (validate_string_pattern re_match "slug" "abc" "^[a-z]+$"); reflexivity.
  - apply (validate_string_pattern re_match "slug" "ABC" "^[a-z]+$"); reflexivity.
Defined.

(** C5 counterexample: [re.match] only anchors the start.  The pattern
    [[a-z]+] accepts ["abc1"], and [^[a-z]+$] accepts ["abc"] followed by a
    newline, neither of which matches in full. *)
Lemma pattern_prefix_counterexample :
  validate_parameter "slug" (VStr "abc1") (slug_spec "[a-z]+") = Ok tt /\
  validate_parameter "slug" (VStr ("abc" ++ String newline EmptyString)) (slug_spec "^[a-z]+$") = Ok tt.
Proof. split; vm_compute; reflexivity. Qed.

(** ** C6: injected keys *)

Lemma generate_template_context (tmpl : Type) (compile : string -> res tmpl)
    (render : tmpl -> dict -> res string) (depth : nat) (st : store)
    (template_path output_dir : string) (parameters : dict) (now : string) (dry_run : bool)
    (md f : dict) (name version : value) :
  resolve_inheritance depth st template_path = Ok md ->
  prepare_parameters md parameters = Ok f ->
  getitem (VDict md) "name" = Ok name ->
  getitem (VDict md) "version" = Ok version ->
  forall t,
  generate_template tmpl compile render depth st template_path output_dir parameters now dry_run t =
  (do files <- lift (get_method (VDict md) "files" (VDict [])) ;;
   do groups <- lift (items_method files) ;;
   gen_groups tmpl compile render st template_path output_dir
     (add_system_params f name version now) dry_run groups []) t.
Proof.
  intros Hr Hp Hn Hv t; unfold generate_template.
  cbn [mbind lift]; rewrite Hr; cbn [mbind lift]; rewrite Hp; cbn [mbind lift];
    rewrite Hn; cbn [mbind lift]; rewrite Hv; reflexivity.
Qed.

(** C6 (amended).  Parameter validation has no check against the injected
    names: once [_prepare_parameters] succeeds, generation renders every
    file against its result updated with [template_name], [template_version],
    [generated_at] and [generated_by], so the injected values silently
    replace any declared parameter of the same name, and every other
    parameter keeps its value. *)
Theorem generate_overwrites_reserved (tmpl : Type) (compile : string -> res tmpl)
    (render : tmpl -> dict -> res string) (depth : nat) (st : store)
    (template_path output_dir : string) (parameters : dict) (now : string) (dry_run : bool)
    (md f : dict) (name version : value) :
  resolve_inheritance depth st template_path = Ok md ->
  prepare_parameters md parameters = Ok f ->
  getitem (VDict md) "name" = Ok name ->
  getitem (VDict md) "version" = Ok version ->
  exists ctx, forall t,
    generate_template tmpl compile render depth st template_path output_dir parameters now dry_run t =
    (do files <- lift (get_method (VDict md) "files" (VDict [])) ;;
     do groups <- lift (items_method files) ;;
     gen_groups tmpl compile render st template_path output_dir ctx dry_run groups []) t /\
    dict_get "template_name" ctx = Some name /\
    dict_get "template_version" ctx = Some version /\
    dict_get "generated_at" ctx = Some (VStr now) /\
    dict_get "generated_by" ctx = Some (VStr "container-template-engine") /\
    (forall k, ~ In k reserved_keys -> dict_get k ctx = dict_get k f).
Proof.
  intros Hr Hp Hn Hv.
  exists (add_system_params f name version now); split;
    [apply generate_template_context; assumption|].
  unfold add_system_params; rewrite !dict_get_set; cbn.
  repeat split; try reflexivity.
  intros k Hk.
  destruct (String.eqb k "generated_by") eqn:E1;
    [apply String.eqb_eq in E1; subst; exfalso; apply Hk; cbn; tauto|].
  destruct (String.eqb k "generated_at") eqn:E2;
    [apply String.eqb_eq in E2; subst; exfalso; apply Hk; cbn; tauto|].
  destruct (String.eqb k "template_version") eqn:E3;
    [apply String.eqb_eq in E3; subst; exfalso; apply Hk; cbn; tauto|].
  destruct (String.eqb k "template_name") eqn:E4;
    [apply String.eqb_eq in E4; subst; exfalso; apply Hk; cbn; tauto|].
  rewrite !dict_get_set, E1, E2, E3, E4; reflexivity.
Qed.

Lemma generate_overwrites_reserved_witness :
  exists ctx, forall t,
    generate_template (list node) jinja_compile (jinja_render (rng st_reserved)) recursion_limit st_reserved
      "svc" "out" [] "2026-10-18T12:00:00" true t =
    (do files <- lift (get_method (VDict md_reserved) "files" (VDict [])) ;;
     do groups <- lift (items_method files) ;;
     gen_groups (list node) jinja_compile (jinja_render (rng st_reserved)) st_reserved "svc" "out" ctx true groups []) t /\
    dict_get "template_name" ctx = Some (VStr "svc") /\
    dict_get "template_version" ctx = Some (VStr "1.0.0") /\
    dict_get "generated_at" ctx = Some (VStr "2026-10-18T12:00:00") /\
    dict_get "generated_by" ctx = Some (VStr "container-template-engine") /\
    (forall k, ~ In k reserved_keys -> dict_get k ctx = dict_get k [("template_name", VStr "mine")]).
Proof.
  apply (generate_overwrites_reserved (list node) jinja_compile (jinja_render (rng st_reserved)) recursion_limit
           st_reserved "svc" "out" [] "2026-10-18T12:00:00" true md_reserved
           [("template_name", VStr "mine")] (VStr "svc") (VStr "1.0.0"));
    vm_compute; reflexivity.
Defined.

(** C6 counterexample: a parameter named [template_name] passes
    [_prepare_parameters] with its default ["mine"], and the rendered file
    shows the injected template name instead. *)
Lemma reserved_name_counterexample :
  prepare_parameters md_reserved [] = Ok [("template_name", VStr "mine")] /\
  fst (generate recursion_limit st_reserved "svc" "out" [] "2026-10-18T12:00:00" true)
  = Ok [("out/Dockerfile", "LABEL name=svc")].
Proof. split; vm_compute; reflexivity. Qed.

(** ** C7: render failures during generation *)

Ltac no_tpl_simple :=
  match goal with
  | H : Raise _ = Raise _ |- _ => injection H as <-; reflexivity
  | H : Ok _ = Raise _ |- _ => discriminate H
  end.

Lemma getitem_no_tpl (c : value) (k : string) (e : exn) :
  getitem c k = Raise e -> is_template_error e = false.
Proof. destruct c; cbn; intros H; try no_tpl_simple; destruct (dict_get k d); no_tpl_simple. Qed.

Lemma in_op_no_tpl (x c : value) (e : exn) :
  in_op x c = Raise e -> is_template_error e = false.
Proof. destruct c; cbn; intros H; try no_tpl_simple; destruct x; cbn in H; no_tpl_simple. Qed.

Lemma get_method_no_tpl (c : value) (k : string) (dflt : value) (e : exn) :
  get_method c k dflt = Raise e -> is_template_error e = false.
Proof. destruct c; cbn; intros H; try no_tpl_simple; destruct (dict_get k d); no_tpl_simple. Qed.

Lemma items_method_no_tpl (c : value) (e : exn) :
  items_method c = Raise e -> is_template_error e = false.
Proof. destruct c; cbn; intros H; no_tpl_simple. Qed.

Lemma py_lt_no_tpl (a b : value) (e : exn) :
  py_lt a b = Raise e -> is_template_error e = false.
Proof.
  unfold py_lt; destruct (as_int a), (as_int b); intros H; try no_tpl_simple;
    destruct a, b; no_tpl_simple.
Qed.

Lemma re_match_no_tpl (p s : value) (e : exn) :
  re_match p s = Raise e -> is_template_error e = false.
Proof. unfold re_match; destruct p, s; intros H; try no_tpl_simple; destruct (re_parse s0); no_tpl_simple. Qed.

Lemma validate_parameter_no_tpl (name : string) (v def : value) (e : exn) :
  validate_parameter name v def = Raise e -> is_template_error e = false.
Proof.
  apply (validate_parameter_ro (fun e => is_template_error e = false)); intros; reflexivity.
Qed.

Lemma prepare_loop_no_tpl (provided params final : dict) (e : exn) :
  prepare_loop provided params final = Raise e -> is_template_error e = false.
Proof.
  revert final; induction params as [|[n d] rest IH]; intros final H;
    cbn [prepare_loop] in H; [discriminate|].
  assert (Hval : forall v f, res_bind (validate_parameter n v d)
                   (fun _ => prepare_loop provided rest f) = Raise e ->
                 is_template_error e = false).
  { intros v f Hv; destruct (validate_parameter n v d) eqn:Ev; cbn [res_bind] in Hv; [eauto|].
    injection Hv as <-; eapply validate_parameter_no_tpl; eassumption. }
  destruct (dict_get n provided) eqn:Ep; cbn [res_bind] in H; [eauto|].
  destruct (in_op (VStr "default") d) as [[]|e'] eqn:Ei; cbn [res_bind] in H.
  - destruct (getitem d "default") eqn:Eg; cbn [res_bind] in H; [eauto|].
    injection H as <-; eapply getitem_no_tpl; eassumption.
  - destruct (get_method d "required" (VBool false)) eqn:Eg; cbn [res_bind] in H.
    + destruct (py_truthy a); [injection H as <-; reflexivity|eauto].
    + injection H as <-; eapply get_method_no_tpl; eassumption.
  - injection H as <-; eapply in_op_no_tpl; eassumption.
Qed.

Lemma prepare_parameters_no_tpl (md provided : dict) (e : exn) :
  prepare_parameters md provided = Raise e -> is_template_error e = false.
Proof.
  unfold prepare_parameters; intros H; res_cases;
    first
    [ eapply prepare_loop_no_tpl; eassumption
    | injection H as <-; eapply get_method_no_tpl; eassumption
    | injection H as <-; eapply items_method_no_tpl; eassumption ].
Qed.

Lemma load_no_tpl (st : store) (p : string) (e : exn) :
  load_template_metadata st p = Raise e -> is_template_error e = false.
Proof.
  unfold load_template_metadata; intros H.
  destruct (assoc p (metas st)) as [[[]|]|]; try destruct (template_schema_ok _); no_tpl_simple.
Qed.

Lemma resolve_no_tpl (depth : nat) (st : store) (p : string) (e : exn) :
  resolve_inheritance depth st p = Raise e -> is_template_error e = false.
Proof.
  revert p; induction depth as [|depth IH]; intros p H; cbn [resolve_inheritance] in H;
    [no_tpl_simple|].
  destruct (load_template_metadata st p) eqn:El; cbn [res_bind] in H;
    [|injection H as <-; eapply load_no_tpl; eassumption].
  destruct (dict_get "inherits" a) as [[| | |par| |]|]; try no_tpl_simple.
  destruct (resolve_inheritance depth st par) eqn:Er; cbn [res_bind] in H; [discriminate|].
  injection H as <-; eapply IH; eassumption.
Qed.

Lemma file_patterns_no_tpl (fp : value) (e : exn) :
  file_patterns fp = Raise e -> is_template_error e = false.
Proof. destruct fp; cbn; intros H; no_tpl_simple. Qed.

Lemma as_path_no_tpl (v : value) (e : exn) :
  as_path v = Raise e -> is_template_error e = false.
Proof. destruct v; cbn; intros H; no_tpl_simple. Qed.

Lemma paths_of_map (vs : list value) (ps : list string) :
  paths_of vs = Ok ps -> vs = map VStr ps.
Proof.
  revert ps; induction vs as [|v r IH]; intros ps H; cbn in H.
  - injection H as <-; reflexivity.
  - destruct v; cbn in H; try discriminate.
    destruct (paths_of r) as [qs|e]; cbn in H; [|discriminate].
    injection H as <-; cbn; rewrite (IH qs eq_refl); reflexivity.
Qed.

Section GenerationTrace.
Variables (tmpl : Type) (compile : string -> res tmpl) (render : tmpl -> dict -> res string).
Variables (st : store) (tp od : string) (fp : dict) (dry : bool).

Lemma gen_file_trace (pattern : value) (g : list (string * string)) (t : list event) r t' :
  gen_file tmpl compile render st tp od fp dry pattern g t = (r, t') ->
  exists pre, t' = (t ++ pre)%list.
Proof.
  unfold gen_file, mbind, lift, ret, try_except, log, modify, catch_template_error, push.
  destruct (as_path pattern) as [p|e]; [|intros H; injection H as _ <-; exists []; rewrite app_nil_r; reflexivity].
  destruct (assoc (source_name tp p) (sources st)) as [src|];
    [|intros H; injection H as _ <-; exists []; rewrite app_nil_r; reflexivity].
  destruct (compile src) as [tpl|e]; [destruct (render tpl fp) as [c|e]; [destruct dry|]|];
    try destruct e; intros H; injection H as _ <-; eexists;
    rewrite <- ?app_assoc; reflexivity.
Qed.

Lemma gen_file_template_error (pattern : value) (g : list (string * string)) (t : list event) m t' :
  gen_file tmpl compile render st tp od fp dry pattern g t = (Raise (TemplateError m), t') ->
  file_failed compile render st tp fp t t' m.
Proof.
  unfold gen_file, mbind, lift, ret, try_except, log, modify, catch_template_error, push.
  destruct (as_path pattern) as [p|e] eqn:Ep;
    [|intros H; injection H as He _; subst e; apply as_path_no_tpl in Ep; discriminate].
  destruct (assoc (source_name tp p) (sources st)) as [src|] eqn:Es; [|discriminate].
  destruct (compile src) as [tpl|e] eqn:Ec.
  - destruct (render tpl fp) as [c|e] eqn:Er; [destruct dry; discriminate|].
    destruct e; try discriminate; intros H; injection H as <- <-.
    match goal with E : _ = Raise (TemplateError ?x) |- _ => exists p, src, x, [] end.
    repeat split; auto.
    right; exists tpl; auto.
  - destruct e; try discriminate; intros H; injection H as <- <-.
    match goal with E : _ = Raise (TemplateError ?x) |- _ => exists p, src, x, [] end.
    repeat split; auto.
Qed.

Lemma file_failed_app (t pre t' : list event) (m : string) :
  file_failed compile render st tp fp (t ++ pre) t' m -> file_failed compile render st tp fp t t' m.
Proof.
  intros (p & src & m0 & pre' & Hm & Hs & Hc & Ht).
  exists p, src, m0, (pre ++ pre')%list; repeat split; auto.
  rewrite Ht, <- !app_assoc; reflexivity.
Qed.

Lemma gen_patterns_template_error (pats : list value) (g : list (string * string))
    (t : list event) m t' :
  gen_patterns tmpl compile render st tp od fp dry pats g t = (Raise (TemplateError m), t') ->
  file_failed compile render st tp fp t t' m.
Proof.
  revert g t; induction pats as [|pat rest IH]; intros g t; cbn [gen_patterns];
    [unfold ret; discriminate|].
  unfold mbind at 1.
  destruct (gen_file tmpl compile render st tp od fp dry pat g t) as [[g'|e] t1] eqn:E.
  - intros H; destruct (gen_file_trace _ _ _ _ _ E) as [pre ->].
    apply (file_failed_app t pre); exact (IH _ _ H).
  - intros H; injection H as -> <-; exact (gen_file_template_error _ _ _ _ _ E).
Qed.

Lemma gen_patterns_trace (pats : list value) (g : list (string * string)) (t : list event) r t' :
  gen_patterns tmpl compile render st tp od fp dry pats g t = (r, t') ->
  exists pre, t' = (t ++ pre)%list.
Proof.
  revert g t; induction pats as [|pat rest IH]; intros g t; cbn [gen_patterns].
  - unfold ret; intros H; injection H as _ <-; exists []; rewrite app_nil_r; reflexivity.
  - unfold mbind at 1.
    destruct (gen_file tmpl compile render st tp od fp dry pat g t) as [[g'|e] t1] eqn:E;
      destruct (gen_file_trace _ _ _ _ _ E) as [pre ->].
    + intros H; destruct (IH _ _ H) as [pre' ->]; exists (pre ++ pre')%list;
        rewrite app_assoc; reflexivity.
    + intros H; injection H as _ <-; exists pre; reflexivity.
Qed.

Lemma gen_groups_template_error (groups : dict) (g : list (string * string))
    (t : list event) m t' :
  gen_groups tmpl compile render st tp od fp dry groups g t = (Raise (TemplateError m), t') ->
  file_failed compile render st tp fp t t' m.
Proof.
  revert g t; induction groups as [|[ft fpv] rest IH]; intros g t; cbn [gen_groups];
    [unfold ret; discriminate|].
  unfold mbind at 1, lift at 1.
  destruct (file_patterns fpv) as [pats|e] eqn:Ef.
  - unfold mbind at 1.
    destruct (gen_patterns tmpl compile render st tp od fp dry pats g t) as [[g'|e] t1] eqn:E.
    + intros H; destruct (gen_patterns_trace _ _ _ _ _ E) as [pre ->].
      apply (file_failed_app t pre); exact (IH _ _ H).
    + intros H; injection H as -> <-; exact (gen_patterns_template_error _ _ _ _ _ E).
  - intros H; injection H as -> _.
    apply file_patterns_no_tpl in Ef; discriminate.
Qed.

Lemma gen_patterns_app (pats1 pats2 : list value) (g : list (string * string)) (t : list event) :
  gen_patterns tmpl compile render st tp od fp dry (pats1 ++ pats2) g t =
  match gen_patterns tmpl compile render st tp od fp dry pats1 g t with
  | (Ok g', t') => gen_patterns tmpl compile render st tp od fp dry pats2 g' t'
  | (Raise e, t') => (Raise e, t')
  end.
Proof.
  revert g t; induction pats1 as [|pat rest IH]; intros g t; [reflexivity|].
  cbn [app gen_patterns]; unfold mbind.
  destruct (gen_file tmpl compile render st tp od fp dry pat g t) as [[g1|e] t1]; [apply IH|reflexivity].
Qed.

Lemma gen_groups_flat (groups : dict) (pats : list string) (g : list (string * string)) (t : list event) :
  patterns_of groups = Ok pats ->
  gen_groups tmpl compile render st tp od fp dry groups g t =
  gen_patterns tmpl compile render st tp od fp dry (map VStr pats) g t.
Proof.
  revert pats g t; induction groups as [|[ft fpv] rest IH]; intros pats g t H; cbn in H.
  - injection H as <-; reflexivity.
  - destruct (file_patterns fpv) as [vs|e] eqn:Ef; cbn [res_bind] in H; [|discriminate].
    destruct (paths_of vs) as [ps|e] eqn:Ep; cbn [res_bind] in H; [|discriminate].
    destruct (patterns_of rest) as [qs|e] eqn:Eq; cbn [res_bind] in H; [|discriminate].
    injection H as <-; cbn [gen_groups]; unfold mbind at 1, lift.
    rewrite Ef, map_app, gen_patterns_app, (paths_of_map _ _ Ep).
    unfold mbind.
    destruct (gen_patterns tmpl compile render st tp od fp dry (map VStr ps) g t) as [[g1|e] t1];
      [apply IH; reflexivity|reflexivity].
Qed.

Lemma gen_patterns_ok (pre : list string) (g : list (string * string)) (t : list event) :
  (forall q, In q pre -> renders_ok compile render st tp fp q) ->
  exists g' tpre,
    gen_patterns tmpl compile render st tp od fp dry (map VStr pre) g t = (Ok g', (t ++ tpre)%list) /\
    Forall (event_of tp od pre) tpre.
Proof.
  revert g t; induction pre as [|q rest IH]; intros g t Hok.
  - exists g, []; rewrite app_nil_r; split; [reflexivity|constructor].
  - cbn [map gen_patterns]; unfold mbind at 1.
    assert (Hq : renders_ok compile render st tp fp q) by (apply Hok; left; reflexivity).
    assert (Hf : exists g1 evs, gen_file tmpl compile render st tp od fp dry (VStr q) g t
                               = (Ok g1, (t ++ evs)%list) /\ Forall (event_of tp od (q :: rest)) evs).
    { unfold renders_ok in Hq; unfold gen_file, mbind, lift, ret, try_except, log, modify, push.
      cbn [as_path].
      destruct (assoc (source_name tp q) (sources st)) as [src|].
      - destruct Hq as (tpl & c & Hc & Hr); rewrite Hc, Hr.
        destruct dry.
        + eexists; exists [Rendered (source_name tp q)]; split; [reflexivity|].
          constructor; [|constructor]; exists q; split; [left; reflexivity|left; reflexivity].
        + eexists; exists [Rendered (source_name tp q); Wrote (od ++ "/" ++ q) c].
          split; [rewrite <- app_assoc; reflexivity|].
          constructor; [|constructor; [|constructor]]; exists q; (split; [left; reflexivity|]);
            [left; reflexivity|right; exists c; reflexivity].
      - exists g, []; rewrite app_nil_r; split; [reflexivity|constructor]. }
    destruct Hf as (g1 & evs & Hf & Hevs); rewrite Hf.
    destruct (IH g1 (t ++ evs)%list) as (g2 & tpre & Hr & Htpre);
      [intros q' Hq'; apply Hok; right; exact Hq'|].
    exists g2, (evs ++ tpre)%list; rewrite Hr, app_assoc; split; [reflexivity|].
    apply Forall_app; split; [exact Hevs|].
    eapply Forall_impl; [|exact Htpre].
    intros ev (q' & Hin & Hev); exists q'; split; [right; exact Hin|exact Hev].
Qed.

Lemma gen_file_fails (p src m0 : string) (g : list (string * string)) (t : list event) :
  assoc (source_name tp p) (sources st) = Some src ->
  (compile src = Raise (TemplateError m0) \/
   exists tpl, compile src = Ok tpl /\ render tpl fp = Raise (TemplateError m0)) ->
  gen_file tmpl compile render st tp od fp dry (VStr p) g t
  = (Raise (TemplateError ("Error rendering " ++ p ++ ": " ++ m0)),
     (t ++ [Rendered (source_name tp p)])%list).
Proof.
  intros Hs Hf; unfold gen_file, mbind, lift, ret, try_except, log, modify, push,
    catch_template_error; cbn [as_path]; rewrite Hs.
  destruct Hf as [Hc|(tpl & Hc & Hr)]; rewrite Hc; [|rewrite Hr]; reflexivity.
Qed.

End GenerationTrace.

(** When [generate_template] raises a [TemplateError], some declared file
    that exists failed to compile or render with the final parameters, and
    loading it was the last event. *)
Lemma generate_template_error_file_failed (tmpl : Type) (compile : string -> res tmpl)
    (render : tmpl -> dict -> res string) (depth : nat) (st : store)
    (template_path output_dir : string) (parameters : dict) (now : string) (dry_run : bool)
    (t t' : list event) (m : string) :
  generate_template tmpl compile render depth st template_path output_dir parameters now dry_run t
    = (Raise (TemplateError m), t') ->
  exists metadata final name version,
    resolve_inheritance depth st template_path = Ok metadata /\
    prepare_parameters metadata parameters = Ok final /\
    getitem (VDict metadata) "name" = Ok name /\
    getitem (VDict metadata) "version" = Ok version /\
    file_failed compile render st template_path (add_system_params final name version now) t t' m.
Proof.
  unfold generate_template, mbind at 1, lift at 1.
  destruct (resolve_inheritance depth st template_path) as [md|e] eqn:E1;
    [|intros H; injection H as -> _; apply resolve_no_tpl in E1; discriminate].
  unfold mbind at 1, lift at 1.
  destruct (prepare_parameters md parameters) as [final|e] eqn:E2;
    [|intros H; injection H as -> _; apply prepare_parameters_no_tpl in E2; discriminate].
  unfold mbind at 1, lift at 1.
  destruct (getitem (VDict md) "name") as [name|e] eqn:E3;
    [|intros H; injection H as -> _; apply getitem_no_tpl in E3; discriminate].
  unfold mbind at 1, lift at 1.
  destruct (getitem (VDict md) "version") as [version|e] eqn:E4;
    [|intros H; injection H as -> _; apply getitem_no_tpl in E4; discriminate].
  unfold mbind at 1, lift at 1.
  destruct (get_method (VDict md) "files" (VDict [])) as [files|e] eqn:E5;
    [|intros H; injection H as -> _; apply get_method_no_tpl in E5; discriminate].
  unfold mbind at 1, lift at 1.
  destruct (items_method files) as [groups|e] eqn:E6;
    [|intros H; injection H as -> _; apply items_method_no_tpl in E6; discriminate].
  intros H; exists md, final, name, version; repeat split; auto.
  exact (gen_groups_template_error _ _ _ _ _ _ _ _ _ _ _ _ _ H).
Qed.

(** Generation up to the file loop, when every step before it succeeds. *)
Lemma generate_template_files (tmpl : Type) (compile : string -> res tmpl)
    (render : tmpl -> dict -> res string) (depth : nat) (st : store)
    (tp od : string) (parameters : dict) (now : string) (dry_run : bool) (t : list event)
    (md final : dict) (name version files : value) (groups : dict) :
  resolve_inheritance depth st tp = Ok md ->
  prepare_parameters md parameters = Ok final ->
  getitem (VDict md) "name" = Ok name ->
  getitem (VDict md) "version" = Ok version ->
  get_method (VDict md) "files" (VDict []) = Ok files ->
  items_method files = Ok groups ->
  generate_template tmpl compile render depth st tp od parameters now dry_run t =
  gen_groups tmpl compile render st tp od (add_system_params final name version now) dry_run
    groups [] t.
Proof.
  intros E1 E2 E3 E4 E5 E6; unfold generate_template, mbind, lift.
  rewrite E1, E2, E3, E4, E5, E6; reflexivity.
Qed.

(** C7 (amended).  For any compile and render step (Jinja's among them):
    when the metadata resolves, the parameters are prepared and the
    declared patterns are strings, and the first declared file [p] that
    fails is an existing file whose compile or render raises a Jinja
    [TemplateError m0] (every file declared before it is missing or
    renders), [generate_template] raises the [TemplateError]
    ["Error rendering <p>: <m0>"]; the run's events are those of the
    files declared before [p], then the load of [p], and nothing after
    it.  Conversely every [TemplateError] it raises arises that way.  In
    the Jinja fragment an undefined plain variable is no failure: it
    renders as the empty string and rendering goes on. *)
Theorem generate_template_error_names_file :
  (forall (tmpl : Type) (compile : string -> res tmpl) (render : tmpl -> dict -> res string)
      (depth : nat) (st : store) (tp od : string) (parameters : dict) (now : string)
      (dry_run : bool) (t : list event) (md final : dict) (name version files : value)
      (groups : dict) (pre post : list string) (p src m0 : string),
    resolve_inheritance depth st tp = Ok md ->
    prepare_parameters md parameters = Ok final ->
    getitem (VDict md) "name" = Ok name ->
    getitem (VDict md) "version" = Ok version ->
    get_method (VDict md) "files" (VDict []) = Ok files ->
    items_method files = Ok groups ->
    patterns_of groups = Ok (pre ++ p :: post)%list ->
    (forall q, In q pre ->
       renders_ok compile render st tp (add_system_params final name version now) q) ->
    assoc (source_name tp p) (sources st) = Some src ->
    (compile src = Raise (TemplateError m0) \/
     exists tpl, compile src = Ok tpl /\
       render tpl (add_system_params final name version now) = Raise (TemplateError m0)) ->
    exists tpre,
      generate_template tmpl compile render depth st tp od parameters now dry_run t
      = (Raise (TemplateError ("Error rendering " ++ p ++ ": " ++ m0)),
         (t ++ tpre ++ [Rendered (source_name tp p)])%list) /\
      Forall (event_of tp od pre) tpre) /\
  (forall (tmpl : Type) (compile : string -> res tmpl) (render : tmpl -> dict -> res string)
      (depth : nat) (st : store) (tp od : string) (parameters : dict) (now : string)
      (dry_run : bool) (t t' : list event) (m : string),
    generate_template tmpl compile render depth st tp od parameters now dry_run t
      = (Raise (TemplateError m), t') ->
    exists md final name version,
      resolve_inheritance depth st tp = Ok md /\
      prepare_parameters md parameters = Ok final /\
      getitem (VDict md) "name" = Ok name /\
      getitem (VDict md) "version" = Ok version /\
      file_failed compile render st tp (add_system_params final name version now) t t' m) /\
  (forall (rng : nat -> nat -> nat) (n : string) (ns : list node) (ctx : dict),
    dict_get n ctx = None ->
    jinja_render rng (NOut (EName n []) :: ns) ctx = jinja_render rng ns ctx).
Proof.
  split; [|split].
  - intros tmpl compile render depth st tp od parameters now dry_run t md final name version
      files groups pre post p src m0 E1 E2 E3 E4 E5 E6 Hpats Hpre Hs Hf.
    rewrite (generate_template_files tmpl compile render depth st tp od parameters now dry_run t
               md final name version files groups E1 E2 E3 E4 E5 E6).
    rewrite (gen_groups_flat _ _ _ _ _ _ _ _ _ _ _ _ Hpats), map_app, gen_patterns_app.
    destruct (gen_patterns_ok tmpl compile render st tp od
                (add_system_params final name version now) dry_run pre [] t Hpre)
      as (g' & tpre & Hg & Htpre).
    rewrite Hg; exists tpre; split; [|exact Htpre].
    cbn [map gen_patterns]; unfold mbind at 1.
    rewrite (gen_file_fails tmpl compile render st tp od _ dry_run p src m0 g' (t ++ tpre)%list Hs Hf).
    rewrite <- app_assoc; reflexivity.
  - intros tmpl compile render depth st tp od parameters now dry_run t t' m H.
    exact (generate_template_error_file_failed tmpl compile render depth st tp od parameters now
             dry_run t t' m H).
  - intros rng n ns ctx Hn; unfold jinja_render; cbn [render_nodes eval_expr get_attrs].
    rewrite Hn; cbn.
    destruct (render_nodes rng ns ctx 0); reflexivity.
Qed.

Lemma generate_template_error_names_file_witness :
  (exists tpre,
     generate_template (list node) jinja_compile (jinja_render (rng st_render)) recursion_limit
       st_render "web" "out" [] "2026-01-01" false []
     = (Raise (TemplateError "Error rendering broken.conf: TemplateSyntaxError"),
        ([] ++ tpre ++ [Rendered (source_name "web" "broken.conf")])%list) /\
     Forall (event_of "web" "out" ["Dockerfile"; "app.conf"]) tpre) /\
  (exists md final name version,
     resolve_inheritance recursion_limit st_render "web" = Ok md /\
     prepare_parameters md [] = Ok final /\
     getitem (VDict md) "name" = Ok name /\
     getitem (VDict md) "version" = Ok version /\
     file_failed jinja_compile (jinja_render (rng st_render)) st_render "web"
       (add_system_params final name version "2026-01-01")
       [] [Rendered "web/Dockerfile"; Wrote "out/Dockerfile" "EXPOSE 3000";
           Rendered "web/app.conf"; Wrote "out/app.conf" "log=";
           Rendered "web/broken.conf"]
       "Error rendering broken.conf: TemplateSyntaxError") /\
  jinja_render rng_zero [NOut (EName "log_level" []); NText " done"] [("port", VInt 3000)]
  = jinja_render rng_zero [NText " done"] [("port", VInt 3000)].
Proof.
  destruct generate_template_error_names_file as [Hfwd [Hbwd Hundef]].
  split; [|split].
  - apply (Hfwd (list node) jinja_compile (jinja_render (rng st_render)) recursion_limit st_render
             "web" "out" [] "2026-01-01" false []
             (dict_pop "inherits" (app (std_fields "web" "app")
                [("parameters", VDict [("port", VDict [("type", VStr "integer");
                                                      ("description", VStr "Listening port");
                                                      ("default", VInt 3000)])]);
                 ("files", VDict [("dockerfile", VStr "Dockerfile");
                                  ("config", VList [VStr "app.conf"; VStr "broken.conf";
                                                    VStr "late.conf"])])]))
             [("port", VInt 3000)] (VStr "web") (VStr "1.0.0")
             (VDict [("dockerfile", VStr "Dockerfile");
                     ("config", VList [VStr "app.conf"; VStr "broken.conf"; VStr "late.conf"])])
             [("dockerfile", VStr "Dockerfile");
              ("config", VList [VStr "app.conf"; VStr "broken.conf"; VStr "late.conf"])]
             ["Dockerfile"; "app.conf"] ["late.conf"] "broken.conf" "x={{ port +"
             "TemplateSyntaxError");
      try (vm_compute; reflexivity).
    + intros q Hq; destruct Hq as [<-|[<-|[]]]; vm_compute; eauto.
    + left; vm_compute; reflexivity.
  - apply (Hbwd (list node) jinja_compile (jinja_render (rng st_render)) recursion_limit st_render
             "web" "out" [] "2026-01-01" false []).
    vm_compute; reflexivity.
  - apply Hundef; reflexivity.
Defined.

(** C7: an unresolved variable is no rendering failure: [app.conf] renders
    ["log={{ log_level }}"] to ["log="] and is written; the error raised
    later for [broken.conf] names the pattern only, not the template [web],
    and is a [TemplateError] (the code has no RenderError). *)
Lemma undefined_variable_renders_counterexample :
  generate recursion_limit st_render "web" "out" [] "2026-01-01" false
  = (Raise (TemplateError "Error rendering broken.conf: TemplateSyntaxError"),
     [Rendered "web/Dockerfile"; Wrote "out/Dockerfile" "EXPOSE 3000";
      Rendered "web/app.conf"; Wrote "out/app.conf" "log=";
      Rendered "web/broken.conf"]).
Proof. vm_compute; reflexivity. Qed.

(** ** C8: generation depends on the timestamp only where a file uses it *)

Lemma res_rel_refl {A} (R : A -> A -> Prop) (r : res A) :
  (forall a, R a a) -> res_rel R r r.
Proof. intros HR; destruct r; cbn; auto. Qed.

Lemma vsim_cases (v w : value) :
  vsim v w -> v = w \/ exists s1 s2, v = VStr s1 /\ w = VStr s2 /\
                                    s1 <> EmptyString /\ s2 <> EmptyString.
Proof. intros H; inversion H; subst; [left; reflexivity|right; eauto 6]. Qed.

Lemma jsim_refl (x : jval) : jsim x x.
Proof. destruct x; cbn; [constructor|reflexivity]. Qed.

Lemma append_nonempty_l (s t : string) : s <> EmptyString -> (s ++ t) <> EmptyString.
Proof. destruct s; cbn; [congruence|discriminate]. Qed.

Lemma append_nonempty_r (s t : string) : t <> EmptyString -> (s ++ t) <> EmptyString.
Proof. destruct s; cbn; [auto|discriminate]. Qed.

Lemma get_attrs_sim (x y : jval) (attrs : list string) :
  jsim x y -> res_rel jsim (get_attrs x attrs) (get_attrs y attrs).
Proof.
  intros Hxy; destruct attrs as [|a r]; [exact Hxy|].
  destruct x as [v|h], y as [w|h']; cbn in Hxy; try contradiction.
  - destruct (vsim_cases _ _ Hxy) as [<-|(s1 & s2 & -> & -> & _)].
    + apply res_rel_refl, jsim_refl.
    + cbn [get_attrs object_type_repr]; apply res_rel_refl, jsim_refl.
  - subst h'; apply res_rel_refl, jsim_refl.
Qed.

Lemma py_add_sim (u1 u2 w1 w2 : value) :
  vsim u1 u2 -> vsim w1 w2 -> res_rel vsim (py_add u1 w1) (py_add u2 w2).
Proof.
  intros Hu Hw.
  destruct (vsim_cases _ _ Hu) as [<-|(s1 & s2 & -> & -> & Hs1 & Hs2)];
    destruct (vsim_cases _ _ Hw) as [<-|(t1 & t2 & -> & -> & Ht1 & Ht2)].
  - apply res_rel_refl; constructor.
  - destruct u1; cbn; try reflexivity; try (destruct b; reflexivity).
    constructor; apply append_nonempty_r; assumption.
  - destruct w1; cbn; try reflexivity; try (destruct b; reflexivity).
    constructor; apply append_nonempty_l; assumption.
  - cbn; constructor; apply append_nonempty_l; assumption.
Qed.

Lemma string_length_nonempty (s : string) : s <> EmptyString -> Nat.eqb (String.length s) 0 = false.
Proof. destruct s; cbn; [congruence|reflexivity]. Qed.

Lemma do_random_sim (rng : nat -> nat -> nat) (x y : jval) (k : nat) :
  jsim x y -> res_rel eval_sim (do_random rng x k) (do_random rng y k).
Proof.
  intros Hxy; destruct x as [v|h], y as [w|h']; cbn in Hxy; try contradiction.
  - destruct (vsim_cases _ _ Hxy) as [<-|(s1 & s2 & -> & -> & Hs1 & Hs2)].
    + apply res_rel_refl; intros a; split; [apply jsim_refl|reflexivity].
    + unfold do_random; rewrite !string_length_nonempty by assumption.
      cbn; split; [constructor; discriminate|reflexivity].
  - subst h'; cbn; split; reflexivity.
Qed.

Lemma eval_expr_sim (rng : nat -> nat -> nat) (d1 d2 : dict) (e : expr) (k : nat) :
  ctx_sim d1 d2 -> res_rel eval_sim (eval_expr rng d1 e k) (eval_expr rng d2 e k).
Proof.
  intros Hd; revert k; induction e as [n attrs|z|a IHa f|a IHa b IHb]; intros k; cbn [eval_expr].
  - remember (match dict_get n d1 with Some v => JDef v
               | None => JUndef ("'" ++ n ++ "' is undefined") end) as x1 eqn:E1.
    remember (match dict_get n d2 with Some v => JDef v
               | None => JUndef ("'" ++ n ++ "' is undefined") end) as x2 eqn:E2.
    assert (Hx : jsim x1 x2).
    { subst x1 x2; specialize (Hd n); destruct (dict_get n d1), (dict_get n d2);
        cbn in *; auto; contradiction. }
    pose proof (get_attrs_sim _ _ attrs Hx) as Hg.
    destruct (get_attrs x1 attrs), (get_attrs x2 attrs); cbn in Hg |- *; try contradiction; auto.
    split; [exact Hg|reflexivity].
  - cbn; split; [constructor|reflexivity].
  - specialize (IHa k).
    destruct (eval_expr rng d1 a k) as [[x1 k1]|e1], (eval_expr rng d2 a k) as [[x2 k2]|e2];
      cbn in IHa |- *; try contradiction; [|exact IHa].
    destruct IHa as [Hx Hk]; cbn in Hx, Hk; subst k2; apply do_random_sim; exact Hx.
  - specialize (IHa k).
    destruct (eval_expr rng d1 a k) as [[x1 k1]|e1], (eval_expr rng d2 a k) as [[x2 k2]|e2];
      cbn in IHa |- *; try contradiction; [|exact IHa].
    destruct IHa as [Hx Hk]; cbn in Hx, Hk; subst k2; specialize (IHb k1).
    destruct (eval_expr rng d1 b k1) as [[y1 j1]|f1], (eval_expr rng d2 b k1) as [[y2 j2]|f2];
      cbn in IHb |- *; try contradiction; [|exact IHb].
    destruct IHb as [Hy Hj]; cbn in Hy, Hj; subst j2.
    destruct x1 as [u1|h1], x2 as [u2|h2]; cbn in Hx; try contradiction.
    + destruct y1 as [w1|g1], y2 as [w2|g2]; cbn in Hy; try contradiction.
      * pose proof (py_add_sim _ _ _ _ Hx Hy) as Hp.
        destruct (py_add u1 w1), (py_add u2 w2); cbn in Hp |- *; try contradiction;
          [split; [exact Hp|reflexivity]|exact Hp].
      * subst; reflexivity.
    + subst; reflexivity.
Qed.

Lemma render_nodes_sim (rng : nat -> nat -> nat) (d1 d2 : dict) (ns : list node) (k : nat) :
  ctx_sim d1 d2 ->
  res_rel (fun _ _ => True) (render_nodes rng ns d1 k) (render_nodes rng ns d2 k).
Proof.
  intros Hd; revert k; induction ns as [|[s|e] r IH]; intros k; cbn [render_nodes]; [exact I| |].
  - specialize (IH k); destruct (render_nodes rng r d1 k), (render_nodes rng r d2 k);
      cbn in IH |- *; auto.
  - pose proof (eval_expr_sim rng _ _ e k Hd) as He.
    destruct (eval_expr rng d1 e k) as [[x1 k1]|e1], (eval_expr rng d2 e k) as [[x2 k2]|e2];
      cbn in He |- *; try contradiction; [|exact He].
    destruct He as [_ Hk]; cbn in Hk; subst k2; specialize (IH k1).
    destruct (render_nodes rng r d1 k1), (render_nodes rng r d2 k1); cbn in IH |- *; auto.
Qed.

(** Every template of the Jinja fragment succeeds or fails alike whatever
    the (non-empty) timestamp, the random state being the same. *)
Lemma jinja_stamp_safe (rng : nat -> nat -> nat) (ns : list node) :
  stamp_safe (jinja_render rng) ns.
Proof. intros d1 d2 [Hs _]; apply render_nodes_sim; exact Hs. Qed.

Lemma add_system_params_sim (final : dict) (name version : value) (now1 now2 : string) :
  now1 <> EmptyString -> now2 <> EmptyString ->
  ctx_sim (add_system_params final name version now1) (add_system_params final name version now2).
Proof.
  intros H1 H2 k; unfold add_system_params; rewrite !dict_get_set.
  destruct (String.eqb k "generated_by"); [constructor|].
  destruct (String.eqb k "generated_at"); [constructor; assumption|].
  destruct (String.eqb k "template_version"); [constructor|].
  destruct (String.eqb k "template_name"); [constructor|].
  destruct (dict_get k final); cbn; auto; constructor.
Qed.

Lemma add_system_params_eq_except (final : dict) (name version : value) (now1 now2 : string) :
  ctx_eq_except "generated_at"
    (add_system_params final name version now1) (add_system_params final name version now2).
Proof.
  intros k Hk; unfold add_system_params; rewrite !dict_get_set.
  destruct (String.eqb_spec k "generated_at"); [contradiction|reflexivity].
Qed.

Lemma assoc_out_set (k k' c : string) (g : list (string * string)) :
  assoc k' (out_set k c g) = if String.eqb k' k then Some c else assoc k' g.
Proof.
  induction g as [|[k0 c0] r IH]; cbn.
  - reflexivity.
  - destruct (String.eqb_spec k k0) as [<-|Hne]; cbn.
    + destruct (String.eqb k' k); reflexivity.
    + rewrite IH. destruct (String.eqb_spec k' k0) as [->|]; [|reflexivity].
      destruct (String.eqb_spec k0 k); [congruence|reflexivity].
Qed.

Lemma keys_out_set (k c1 c2 : string) (g1 g2 : list (string * string)) :
  map fst g1 = map fst g2 -> map fst (out_set k c1 g1) = map fst (out_set k c2 g2).
Proof.
  revert g2; induction g1 as [|[k1 a1] r1 IH]; intros [|[k2 a2] r2] H; cbn in H |- *;
    try discriminate; [reflexivity|].
  injection H as <- Hr; destruct (String.eqb k k1); cbn; [congruence|].
  rewrite (IH r2 Hr); reflexivity.
Qed.

Section TimestampRuns.
Variables (tmpl : Type) (compile : string -> res tmpl) (render : tmpl -> dict -> res string).
Variables (st : store) (tp od : string) (fp1 fp2 : dict) (dry : bool).
Hypothesis Hvar : stamp_variants fp1 fp2.
Hypothesis Hsafe : forall p src t,
  assoc (source_name tp p) (sources st) = Some src -> compile src = Ok t -> stamp_safe render t.

Lemma out_agree_set (k c1 c2 : string) (g1 g2 : list (string * string)) :
  out_agree compile render st tp od g1 g2 -> c1 = c2 \/ stamped compile render st tp od k ->
  out_agree compile render st tp od (out_set k c1 g1) (out_set k c2 g2).
Proof.
  intros [Hk Hc] Hnew; split; [apply keys_out_set, Hk|].
  intros k' a1 a2; rewrite !assoc_out_set.
  destruct (String.eqb_spec k' k) as [->|]; [intros H1 H2; congruence|apply Hc].
Qed.

Lemma gen_file_rel (pattern : value) (g1 g2 : list (string * string)) (t1 t2 : list event) :
  out_agree compile render st tp od g1 g2 -> map erase t1 = map erase t2 ->
  step_rel (out_agree compile render st tp od)
    (gen_file tmpl compile render st tp od fp1 dry pattern g1 t1)
    (gen_file tmpl compile render st tp od fp2 dry pattern g2 t2).
Proof.
  intros Hg Ht.
  unfold gen_file, mbind, lift, ret, try_except, log, modify, catch_template_error, push, step_rel.
  destruct (as_path pattern) as [p|e]; [|cbn; auto].
  destruct (assoc (source_name tp p) (sources st)) as [src|] eqn:Es; [|cbn; auto].
  assert (Ht' : map erase (t1 ++ [Rendered (source_name tp p)])%list
                = map erase (t2 ++ [Rendered (source_name tp p)])%list)
    by (rewrite !map_app, Ht; reflexivity).
  destruct (compile src) as [tpl|e] eqn:Ec.
  - pose proof (Hsafe p src tpl Es Ec fp1 fp2 Hvar) as Hr.
    destruct (render tpl fp1) as [c1|e1] eqn:E1, (render tpl fp2) as [c2|e2] eqn:E2;
      cbn in Hr; try contradiction.
    + assert (Hc : c1 = c2 \/ stamped compile render st tp od (od ++ "/" ++ p)).
      { destruct (string_dec c1 c2) as [Heq|Hne]; [left; exact Heq|right].
        exists p, src, tpl; repeat split; auto.
        intros Hfree; apply Hne; specialize (Hfree fp1 fp2 Hvar); congruence. }
      destruct dry; cbn; (split; [apply out_agree_set; assumption|]);
        [exact Ht'|rewrite !map_app, Ht; reflexivity].
    + subst e2; destruct e1; cbn; auto.
  - destruct e; cbn; auto.
Qed.

Lemma gen_patterns_rel (pats : list value) (g1 g2 : list (string * string)) (t1 t2 : list event) :
  out_agree compile render st tp od g1 g2 -> map erase t1 = map erase t2 ->
  step_rel (out_agree compile render st tp od)
    (gen_patterns tmpl compile render st tp od fp1 dry pats g1 t1)
    (gen_patterns tmpl compile render st tp od fp2 dry pats g2 t2).
Proof.
  revert g1 g2 t1 t2; induction pats as [|pat rest IH]; intros g1 g2 t1 t2 Hg Ht;
    cbn [gen_patterns]; [unfold ret, step_rel; cbn; auto|].
  unfold mbind.
  pose proof (gen_file_rel pat g1 g2 t1 t2 Hg Ht) as [Hr Ht'].
  destruct (gen_file _ _ _ st tp od fp1 dry pat g1 t1) as [[a1|e1] u1],
           (gen_file _ _ _ st tp od fp2 dry pat g2 t2) as [[a2|e2] u2];
    cbn in Hr, Ht'; try contradiction.
  - apply IH; assumption.
  - subst; split; [reflexivity|exact Ht'].
Qed.

Lemma gen_groups_rel (groups : dict) (g1 g2 : list (string * string)) (t1 t2 : list event) :
  out_agree compile render st tp od g1 g2 -> map erase t1 = map erase t2 ->
  step_rel (out_agree compile render st tp od)
    (gen_groups tmpl compile render st tp od fp1 dry groups g1 t1)
    (gen_groups tmpl compile render st tp od fp2 dry groups g2 t2).
Proof.
  revert g1 g2 t1 t2; induction groups as [|[ft fpv] rest IH]; intros g1 g2 t1 t2 Hg Ht;
    cbn [gen_groups]; [unfold ret, step_rel; cbn; auto|].
  unfold mbind, lift.
  destruct (file_patterns fpv) as [pats|e]; [|unfold step_rel; cbn; auto].
  pose proof (gen_patterns_rel pats g1 g2 t1 t2 Hg Ht) as [Hr Ht'].
  destruct (gen_patterns _ _ _ st tp od fp1 dry pats g1 t1) as [[a1|e1] u1],
           (gen_patterns _ _ _ st tp od fp2 dry pats g2 t2) as [[a2|e2] u2];
    cbn in Hr, Ht'; try contradiction.
  - apply IH; assumption.
  - subst; split; [reflexivity|exact Ht'].
Qed.

End TimestampRuns.




(** ** C9: what validation collects *)

Lemma for_each_app {S A} (f : A -> M S unit) (l1 l2 : list A) (s : S) :
  for_each f (l1 ++ l2)%list s =
  match for_each f l1 s with
  | (Ok _, s1) => for_each f l2 s1
  | (Raise e, s1) => (Raise e, s1)
  end.
Proof.
  revert s; induction l1 as [|x r IH]; intros s; [reflexivity|].
  cbn [app for_each]; unfold mbind.
  destruct (f x s) as [[[]|e] s1]; [apply IH|reflexivity].
Qed.

Lemma for_patterns_flat {S} (f : value -> M S unit) (groups : dict) (pats : list string) (s : S) :
  patterns_of groups = Ok pats -> for_patterns f groups s = for_each f (map VStr pats) s.
Proof.
  unfold for_patterns; revert pats s; induction groups as [|[ft fp] rest IH]; intros pats s H;
    cbn in H.
  - injection H as <-; reflexivity.
  - destruct (file_patterns fp) as [vs|e] eqn:Ef; cbn [res_bind] in H; [|discriminate].
    destruct (paths_of vs) as [ps|e] eqn:Ep; cbn [res_bind] in H; [|discriminate].
    destruct (patterns_of rest) as [qs|e] eqn:Eq; cbn [res_bind] in H; [|discriminate].
    injection H as <-; rewrite map_app, for_each_app.
    cbn [for_each snd]; unfold mbind, lift; rewrite Ef, (paths_of_map _ _ Ep).
    destruct (for_each f (map VStr ps) s) as [[[]|e] s1]; [apply IH; reflexivity|reflexivity].
Qed.

Lemma check_phase (st : store) (tp : string) (ps : list string) (s : vstate) :
  exists s',
    for_each (check_file st tp) (map VStr ps) s = (Ok tt, s') /\
    errors s' = (errors s ++ missing_errors st tp ps)%list /\
    trace s' = trace s /\ metadata s' = metadata s.
Proof.
  revert s; induction ps as [|p r IH]; intros s.
  - exists s; cbn; rewrite app_nil_r; auto.
  - cbn [map for_each]; unfold mbind at 1.
    destruct (check_file st tp (VStr p) s) as [r1 s1] eqn:E.
    unfold check_file, mbind, lift in E; cbn [as_path] in E.
    unfold missing_errors; cbn [filter].
    destruct (assoc (source_name tp p) (sources st)).
    + unfold ret in E; injection E as <- <-; apply IH.
    + unfold add_error, modify in E; injection E as <- <-.
      match goal with |- exists _, for_each _ _ ?s1 = _ /\ _ =>
        destruct (IH s1) as (s' & H1 & H2 & H3 & H4) end.
      exists s'; rewrite H1; cbn in H2, H3, H4 |- *; rewrite H2, <- app_assoc; auto.
Qed.

Lemma render_phase_run {tmpl : Type} (compile : string -> res tmpl)
    (render : tmpl -> dict -> res string) (st : store) (tp : string) (md dp : dict)
    (ps : list string) (s : vstate) :
  default_params md = Ok dp ->
  exists s',
    for_each (render_check tmpl compile render st tp md) (map VStr ps) s =
      (match r_stop (render_phase compile render st tp dp ps) with
       | None => Ok tt | Some e => Raise e end, s') /\
    errors s' = (errors s ++ r_errors (render_phase compile render st tp dp ps))%list /\
    trace s' = (trace s ++ r_loaded (render_phase compile render st tp dp ps))%list /\
    metadata s' = metadata s.
Proof.
  intros Hdp; revert s; induction ps as [|p r IH]; intros s.
  - exists s; cbn; rewrite !app_nil_r; auto.
  - cbn [map for_each render_phase]; unfold mbind at 1.
    destruct (render_check tmpl compile render st tp md (VStr p) s) as [r1 s1] eqn:E.
    unfold render_check, mbind, lift in E; cbn [as_path] in E.
    destruct (assoc (source_name tp p) (sources st)) as [src|];
      [|unfold ret in E; injection E as <- <-; apply IH].
    unfold try_except, log, modify, mbind, lift, ret, catch_template_error in E; rewrite Hdp in E.
    set (s0 := push_trace (Rendered (source_name tp p)) s) in E.
    assert (Ht0 : trace s0 = (trace s ++ [Rendered (source_name tp p)])%list) by reflexivity.
    assert (Hm0 : metadata s0 = metadata s) by reflexivity.
    assert (He0 : errors s0 = errors s) by reflexivity.
    destruct (compile src) as [tpl|e]; cbn [res_bind];
      [destruct (render tpl dp) as [c|e]|].
    + injection E as <- <-.
      destruct (IH s0) as (s' & H1 & H2 & H3 & H4).
      exists s'; rewrite H1; cbn; rewrite H2, H3, H4, Ht0, He0, <- app_assoc; auto.
    + destruct e; unfold add_error, modify in E; injection E as <- <-;
        try (exists s0; cbn; rewrite ?app_nil_r; auto; fail).
      match goal with |- exists _, for_each _ _ ?s2 = _ /\ _ =>
        destruct (IH s2) as (s' & H1 & H2 & H3 & H4) end.
      exists s'; rewrite H1; cbn in H2, H3, H4 |- *; rewrite H2, H3, H4; unfold push;
        rewrite <- !app_assoc; auto.
    + destruct e; unfold add_error, modify in E; injection E as <- <-;
        try (exists s0; cbn; rewrite ?app_nil_r; auto; fail).
      match goal with |- exists _, for_each _ _ ?s2 = _ /\ _ =>
        destruct (IH s2) as (s' & H1 & H2 & H3 & H4) end.
      exists s'; rewrite H1; cbn in H2, H3, H4 |- *; rewrite H2, H3, H4; unfold push;
        rewrite <- !app_assoc; auto.
Qed.

(** C9 (amended).  When the template resolves and its [files] entry lists
    string patterns, [validate_template] first records one
    ["Required file missing: <pattern>"] error for each declared pattern
    without a source, in declaration order, and goes on.  It then loads and
    renders the declared files that exist, in order, with the declared
    defaults ([dp]): a Jinja [TemplateError] adds one
    ["Template syntax error in <pattern>: ..."] error and the next file is
    tried, but any other exception ends validation at that file with one
    ["Template validation failed: ..."] error, and later files are not
    loaded. *)
Theorem validate_template_collects (tmpl : Type) (compile : string -> res tmpl)
    (render : tmpl -> dict -> res string) (depth : nat) (st : store) (tp : string)
    (md files : dict) (pats : list string) (dp : dict) :
  resolve_inheritance depth st tp = Ok md ->
  get_method (VDict md) "files" (VDict []) = Ok (VDict files) ->
  patterns_of files = Ok pats ->
  default_params md = Ok dp ->
  errors (validate_template tmpl compile render depth st tp) =
    (missing_errors st tp pats ++ r_errors (render_phase compile render st tp dp pats) ++
     match r_stop (render_phase compile render st tp dp pats) with
     | Some e => [("Template validation failed: " ++ exn_str e)%string]
     | None => []
     end)%list /\
  trace (validate_template tmpl compile render depth st tp) =
    r_loaded (render_phase compile render st tp dp pats).
Proof.
  intros Hr Hf Hp Hd.
  unfold validate_template, try_except, validate_body, mbind, lift, set_metadata, modify.
  rewrite Hr; cbv beta iota; rewrite Hf; cbn [items_method]; cbv beta iota.
  rewrite !(for_patterns_flat _ _ _ _ Hp).
  match goal with |- context [for_each (check_file st tp) (map VStr pats) ?s0] =>
    destruct (check_phase st tp pats s0) as (s1 & C1 & C2 & C3 & C4) end.
  rewrite C1; cbv beta iota.
  destruct (render_phase_run compile render st tp md dp pats s1 Hd) as (s2 & R1 & R2 & R3 & R4).
  rewrite !(for_patterns_flat _ _ _ _ Hp), R1.
  destruct (r_stop (render_phase compile render st tp dp pats)) as [e|]; cbn.
  - rewrite R2, C2, R3, C3; cbn; rewrite <- app_assoc; auto.
  - rewrite R2, C2, R3, C3; cbn; rewrite app_nil_r; auto.
Qed.

Lemma validate_template_collects_witness :
  errors (validate recursion_limit st_render "web") =
    ["Template syntax error in broken.conf: TemplateSyntaxError"] /\
  trace (validate recursion_limit st_render "web") =
    [Rendered "web/Dockerfile"; Rendered "web/app.conf";
     Rendered "web/broken.conf"; Rendered "web/late.conf"].
Proof.
  unfold validate.
  edestruct (validate_template_collects (list node) jinja_compile (jinja_render (rng st_render))
               recursion_limit st_render "web") as [H1 H2];
    [reflexivity|reflexivity|reflexivity|reflexivity|].
  split; [rewrite H1|rewrite H2]; vm_compute; reflexivity.
Defined.

(** C9: with exactly one declared file missing ([gone.conf]), the
    [TypeError] of [b.conf] ends validation: [c.conf] is never loaded or
    rendered, and the render errors found so far are followed by a single
    ["Template validation failed"] error. *)
Lemma validation_stops_counterexample :
  errors (validate recursion_limit st_abort "svc") =
    ["Required file missing: gone.conf";
     "Template syntax error in a.conf: 'settings' is undefined";
     "Template validation failed: unsupported operand type(s) for +: 'int' and 'str'"] /\
  trace (validate recursion_limit st_abort "svc") =
    [Rendered "svc/Dockerfile"; Rendered "svc/a.conf"; Rendered "svc/b.conf"].
Proof. split; vm_compute; reflexivity. Qed.

(** ** C10: validation always returns a consistent result *)

Lemma keeps_ok_ret {A} (a : A) : keeps_ok (ret a).
Proof. intros s H; exact H. Qed.

Lemma keeps_ok_lift {A} (r : res A) : keeps_ok (lift r).
Proof. intros s H; exact H. Qed.

Lemma keeps_ok_bind {A B} (m : M vstate A) (k : A -> M vstate B) :
  keeps_ok m -> (forall a, keeps_ok (k a)) -> keeps_ok (mbind m k).
Proof.
  intros Hm Hk s Hs; unfold mbind.
  specialize (Hm s Hs); destruct (m s) as [[a|e] s1]; [apply Hk|]; exact Hm.
Qed.

Lemma keeps_ok_try {A} (m : M vstate A) (catch : exn -> option (M vstate A)) :
  keeps_ok m -> (forall e h, catch e = Some h -> keeps_ok h) -> keeps_ok (try_except m catch).
Proof.
  intros Hm Hc s Hs; unfold try_except.
  specialize (Hm s Hs); destruct (m s) as [[a|e] s1]; [exact Hm|].
  destruct (catch e) as [h|] eqn:E; [apply (Hc e h E)|]; exact Hm.
Qed.

Lemma keeps_ok_add_error (msg : string) : keeps_ok (add_error msg).
Proof.
  intros s _; unfold results_ok; cbn; split; [discriminate|].
  intros H; destruct (errors s); discriminate.
Qed.

Lemma keeps_ok_set_metadata (md : dict) : keeps_ok (set_metadata md).
Proof. intros s H; exact H. Qed.

Lemma keeps_ok_log_trace (ev : event) : keeps_ok (log push_trace ev).
Proof. intros s H; exact H. Qed.

Lemma keeps_ok_for_each {A} (f : A -> M vstate unit) (l : list A) :
  (forall x, keeps_ok (f x)) -> keeps_ok (for_each f l).
Proof.
  intros Hf; induction l as [|x r IH]; cbn [for_each];
    [apply keeps_ok_ret|apply keeps_ok_bind; auto].
Qed.

Lemma keeps_ok_for_patterns (f : value -> M vstate unit) (groups : dict) :
  (forall x, keeps_ok (f x)) -> keeps_ok (for_patterns f groups).
Proof.
  intros Hf; apply keeps_ok_for_each; intros kv.
  apply keeps_ok_bind; [apply keeps_ok_lift|intros pats; apply keeps_ok_for_each, Hf].
Qed.

Create HintDb keeps_ok.
#[local] Hint Resolve keeps_ok_ret keeps_ok_lift keeps_ok_add_error keeps_ok_set_metadata
  keeps_ok_log_trace : keeps_ok.

Lemma keeps_ok_check_file (st : store) (tp : string) (pattern : value) :
  keeps_ok (check_file st tp pattern).
Proof.
  unfold check_file; apply keeps_ok_bind; [apply keeps_ok_lift|intros p].
  destruct (assoc (source_name tp p) (sources st)); auto with keeps_ok.
Qed.

Lemma keeps_ok_render_check {tmpl : Type} (compile : string -> res tmpl)
    (render : tmpl -> dict -> res string) (st : store) (tp : string) (md : dict) (pattern : value) :
  keeps_ok (render_check tmpl compile render st tp md pattern).
Proof.
  unfold render_check; apply keeps_ok_bind; [apply keeps_ok_lift|intros p].
  destruct (assoc (source_name tp p) (sources st)); [|auto with keeps_ok].
  apply keeps_ok_try.
  - repeat (apply keeps_ok_bind; [auto with keeps_ok|intros ?]); auto with keeps_ok.
  - intros e h; destruct e; cbn; try discriminate; intros H; injection H as <-; auto with keeps_ok.
Qed.

Lemma keeps_ok_validate_body {tmpl : Type} (compile : string -> res tmpl)
    (render : tmpl -> dict -> res string) (st : store) (tp : string) (depth : nat) :
  keeps_ok (validate_body tmpl compile render st tp depth).
Proof.
  unfold validate_body.
  apply keeps_ok_bind; [apply keeps_ok_lift|intros md].
  apply keeps_ok_bind; [apply keeps_ok_set_metadata|intros _].
  apply keeps_ok_bind; [apply keeps_ok_lift|intros files].
  apply keeps_ok_bind; [apply keeps_ok_lift|intros groups].
  apply keeps_ok_bind; [apply keeps_ok_for_patterns; intros x; apply keeps_ok_check_file|intros _].
  apply keeps_ok_bind; [apply keeps_ok_lift|intros files'].
  apply keeps_ok_bind; [apply keeps_ok_lift|intros groups'].
  apply keeps_ok_for_patterns; intros x; apply keeps_ok_render_check.
Qed.

(** C10.  [validate_template] catches every exception of its body: the
    body run from the initial results ends either normally, or in an
    exception [e] that becomes one more error
    ["Template validation failed: <e>"] with [valid] false, and the
    returned results are always consistent ([valid] is true exactly when
    [errors] is empty). *)
Theorem validate_template_never_raises (tmpl : Type) (compile : string -> res tmpl)
    (render : tmpl -> dict -> res string) (depth : nat) (st : store) (tp : string) :
  fst (try_except (validate_body tmpl compile render st tp depth)
         (fun e => Some (add_error ("Template validation failed: " ++ exn_str e)))
         initial_results) = Ok tt /\
  results_ok (validate_template tmpl compile render depth st tp) /\
  (validate_body tmpl compile render st tp depth initial_results = (Ok tt,
     validate_template tmpl compile render depth st tp) \/
   exists e s,
     validate_body tmpl compile render st tp depth initial_results = (Raise e, s) /\
     errors (validate_template tmpl compile render depth st tp) =
       (errors s ++ [("Template validation failed: " ++ exn_str e)%string])%list /\
     valid (validate_template tmpl compile render depth st tp) = false).
Proof.
  assert (H0 : results_ok initial_results) by (split; reflexivity).
  pose proof (keeps_ok_validate_body compile render st tp depth initial_results H0) as Hk.
  unfold validate_template, try_except.
  destruct (validate_body tmpl compile render st tp depth initial_results) as [[[]|e] s] eqn:E.
  - split; [reflexivity|split; [exact Hk|left; reflexivity]].
  - split; [reflexivity|split].
    + apply keeps_ok_add_error; exact Hk.
    + right; exists e, s; split; [reflexivity|split; reflexivity].
Qed.

(** * Further properties of the engine *)

(** ** [_deep_merge] and [resolve_inheritance] *)

Lemma dict_mem_set (k k' : string) (v : value) (d : dict) :
  dict_mem k (dict_set k' v d) = String.eqb k k' || dict_mem k d.
Proof. unfold dict_mem; rewrite dict_get_set; destruct (String.eqb k k'); reflexivity. Qed.

Lemma dict_mem_In (k : string) (d : dict) : dict_mem k d = true <-> In k (map fst d).
Proof.
  unfold dict_mem; split.
  - destruct (dict_get k d) eqn:E; [intros _; eapply dict_get_In; eauto|discriminate].
  - intros H; destruct (dict_get k d) eqn:E; [reflexivity|].
    induction d as [|[k0 v0] r IH]; cbn in *; [contradiction|].
    destruct (String.eqb_spec k k0); [discriminate|].
    destruct H as [H|H]; [congruence|auto].
Qed.

Lemma keys_dict_set (k : string) (v : value) (d : dict) :
  map fst (dict_set k v d) = if dict_mem k d then map fst d else (map fst d ++ [k])%list.
Proof.
  unfold dict_mem; induction d as [|[k0 v0] r IH]; cbn; [reflexivity|].
  destruct (String.eqb_spec k k0) as [->|Hne]; cbn; [reflexivity|].
  rewrite IH; destruct (dict_get k r); reflexivity.
Qed.

Lemma keys_deep_merge (b o : dict) :
  NoDup (map fst o) ->
  map fst (deep_merge b o) =
  (map fst b ++ filter (fun k => negb (dict_mem k b)) (map fst o))%list.
Proof.
  revert b; induction o as [|[k v] rest IH]; intros b Hnd.
  - cbn; rewrite app_nil_r; reflexivity.
  - inversion Hnd as [|? ? Hnotin Hnd']; subst.
    rewrite deep_merge_cons.
    set (b' := match dict_get k b, v with
               | Some (VDict rd), VDict vd => dict_set k (VDict (deep_merge rd vd)) b
               | _, _ => dict_set k v b
               end).
    assert (Hk : map fst b' = map fst (dict_set k v b)).
    { unfold b'; destruct (dict_get k b) as [[]|], v; rewrite ?keys_dict_set; try reflexivity;
        unfold dict_mem; rewrite ?keys_dict_set; reflexivity. }
    assert (Hm : forall k', dict_mem k' b' = String.eqb k' k || dict_mem k' b).
    { intros k'; unfold b'; destruct (dict_get k b) as [[]|], v; apply dict_mem_set. }
    rewrite IH by exact Hnd'; rewrite Hk, keys_dict_set.
    assert (Hf : filter (fun k0 => negb (dict_mem k0 b')) (map fst rest)
                 = filter (fun k0 => negb (dict_mem k0 b)) (map fst rest)).
    { apply filter_ext_in; intros k' Hin; rewrite Hm.
      destruct (String.eqb_spec k' k) as [->|]; [contradiction|reflexivity]. }
    rewrite Hf; cbn [map filter fst].
    destruct (dict_mem k b); cbn; [reflexivity|rewrite <- app_assoc; reflexivity].
Qed.

Lemma nodup_deep_merge (b o : dict) :
  NoDup (map fst b) -> NoDup (map fst o) -> NoDup (map fst (deep_merge b o)).
Proof.
  intros Hb Ho; rewrite keys_deep_merge by exact Ho.
  apply NoDup_app; [exact Hb|apply NoDup_filter, Ho|].
  intros a Ha Hin; apply filter_In in Hin as [_ Hn].
  apply dict_mem_In in Ha; rewrite Ha in Hn; discriminate.
Qed.

Lemma dict_get_pop_nodup (k : string) (d : dict) :
  NoDup (map fst d) -> dict_get k (dict_pop k d) = None.
Proof.
  induction d as [|[k0 v0] r IH]; intros Hnd; cbn; [reflexivity|].
  inversion Hnd as [|? ? Hnotin Hnd']; subst.
  destruct (String.eqb_spec k k0) as [->|Hne].
  - apply dict_get_notin; exact Hnotin.
  - cbn; destruct (String.eqb_spec k k0); [contradiction|auto].
Qed.

Lemma nodup_dict_pop (k : string) (d : dict) :
  NoDup (map fst d) -> NoDup (map fst (dict_pop k d)).
Proof.
  induction d as [|[k0 v0] r IH]; intros Hnd; cbn; [constructor|].
  inversion Hnd as [|? ? Hnotin Hnd']; subst.
  destruct (String.eqb k k0); [exact Hnd'|].
  cbn; constructor; [|auto].
  intros Hin; apply Hnotin; clear -Hin.
  induction r as [|[k1 v1] r IH]; cbn in *; [contradiction|].
  destruct (String.eqb k k1); cbn in *; [auto|tauto].
Qed.

Lemma load_wf (st : store) (p : string) (d : dict) :
  metas_wf st -> load_template_metadata st p = Ok d -> NoDup (map fst d).
Proof.
  intros Hwf; unfold load_template_metadata; intros H.
  destruct (assoc p (metas st)) as [[v|m]|] eqn:E; try discriminate H.
  destruct v as [| | | | |d0]; try discriminate H.
  destruct (template_schema_ok (VDict d0)); [|discriminate H].
  injection H as <-; exact (Hwf _ _ E).
Qed.

(** [resolve_inheritance] removes [inherits]: the resolved metadata of a
    template never has an [inherits] key, and has no repeated key. *)
Theorem resolve_inheritance_no_inherits (depth : nat) (st : store) (p : string) (md : dict) :
  metas_wf st ->
  resolve_inheritance depth st p = Ok md ->
  dict_get "inherits" md = None /\ NoDup (map fst md).
Proof.
  intros Hwf; revert p md; induction depth as [|n IH]; intros p md H; cbn in H; [discriminate|].
  destruct (load_template_metadata st p) as [d|e] eqn:El; cbn [res_bind] in H; [|discriminate].
  pose proof (load_wf st p d Hwf El) as Hd.
  destruct (dict_get "inherits" d) as [[| | |q| |]|] eqn:Ei; try discriminate.
  - destruct (resolve_inheritance n st q) as [pmd|e] eqn:Er; cbn [res_bind] in H; [|discriminate].
    injection H as <-.
    destruct (IH q pmd Er) as [_ Hp].
    pose proof (nodup_deep_merge pmd d Hp Hd) as Hm.
    split; [apply dict_get_pop_nodup, Hm|apply nodup_dict_pop, Hm].
  - injection H as <-; auto.
Qed.

Lemma resolve_inheritance_no_inherits_witness :
  metas_wf st_inherit /\
  exists md, resolve_inheritance recursion_limit st_inherit "app2" = Ok md /\
             dict_get "inherits" md = None.
Proof.
  assert (Hwf : metas_wf st_inherit).
  { intros p d H; cbn in H.
    repeat (destruct (String.eqb p _) in H; [injection H as <-; repeat constructor; cbn; intuition discriminate|]).
    discriminate. }
  split; [exact Hwf|].
  eexists; split; [vm_compute; reflexivity|].
  exact (proj1 (resolve_inheritance_no_inherits recursion_limit st_inherit "app2" _ Hwf
                  ltac:(vm_compute; reflexivity))).
Defined.

(** A template's own fields that are not mappings always win over inherited
    ones: whenever the template resolves, every such field (other than
    [inherits]) keeps the template's own value, at any depth of the chain. *)
Theorem resolve_keeps_own_scalar_fields (depth : nat) (st : store) (p : string) (d md : dict)
    (k : string) (v : value) :
  metas_wf st ->
  load_template_metadata st p = Ok d ->
  resolve_inheritance depth st p = Ok md ->
  k <> "inherits" -> dict_get k d = Some v -> is_object v = false ->
  dict_get k md = Some v.
Proof.
  intros Hwf Hl Hr Hk Hv Ho.
  destruct depth as [|n]; cbn in Hr; [discriminate|].
  rewrite Hl in Hr; cbn [res_bind] in Hr.
  destruct (dict_get "inherits" d) as [[| | |q| |]|]; try discriminate.
  - destruct (resolve_inheritance n st q) as [pmd|e]; cbn [res_bind] in Hr; [|discriminate].
    injection Hr as <-.
    rewrite dict_get_pop_neq by exact Hk.
    rewrite deep_merge_get by exact (load_wf st p d Hwf Hl).
    rewrite Hv; destruct v; try discriminate Ho; reflexivity.
  - injection Hr as <-; exact Hv.
Qed.

Lemma resolve_keeps_own_scalar_fields_witness :
  exists d md,
    metas_wf st_inherit /\
    load_template_metadata st_inherit "app2" = Ok d /\
    resolve_inheritance recursion_limit st_inherit "app2" = Ok md /\
    dict_get "name" md = Some (VStr "app2").
Proof.
  assert (Hwf : metas_wf st_inherit).
  { intros p d H; cbn in H.
    repeat (destruct (String.eqb p _) in H; [injection H as <-; repeat constructor; cbn; intuition discriminate|]).
    discriminate. }
  do 2 eexists; split; [exact Hwf|].
  split; [vm_compute; reflexivity|].
  split; [vm_compute; reflexivity|].
  apply (resolve_keeps_own_scalar_fields recursion_limit st_inherit "app2" _ _ "name" (VStr "app2")
           Hwf ltac:(vm_compute; reflexivity) ltac:(vm_compute; reflexivity));
    [discriminate|reflexivity|reflexivity].
Defined.

(** [_deep_merge] keeps the keys of [base] in their order and appends the
    keys of [override] that [base] lacks, in [override]'s order. *)
Theorem deep_merge_key_order (base override : dict) :
  NoDup (map fst override) ->
  map fst (deep_merge base override) =
  (map fst base ++ filter (fun k => negb (dict_mem k base)) (map fst override))%list.
Proof. apply keys_deep_merge. Qed.

Lemma deep_merge_key_order_witness :
  map fst (deep_merge [("a", VInt 1); ("b", VNone)] [("c", VNone); ("a", VInt 2)]) = ["a"; "b"; "c"].
Proof.
  rewrite (deep_merge_key_order [("a", VInt 1); ("b", VNone)] [("c", VNone); ("a", VInt 2)]).
  - reflexivity.
  - repeat constructor; cbn; intuition discriminate.
Defined.

(** ** Parameter preparation *)

Lemma getitem_dict_mem (pdef v : value) (k : string) :
  getitem pdef k = Ok v -> in_op (VStr k) pdef = Ok true.
Proof.
  destruct pdef as [| | | | |d]; cbn; try discriminate.
  unfold dict_mem; destruct (dict_get k d); [reflexivity|discriminate].
Qed.

Lemma prepare_loop_sound (prov ps fin0 fin : dict) (k : string) (v : value) :
  prepare_loop prov ps fin0 = Ok fin ->
  dict_get k fin = Some v ->
  dict_get k fin0 = Some v \/
  exists pdef, In (k, pdef) ps /\
    (dict_get k prov = Some v \/ (dict_get k prov = None /\ getitem pdef "default" = Ok v)) /\
    validate_parameter k v pdef = Ok tt.
Proof.
  revert fin0; induction ps as [|[n pdef] rest IH]; intros fin0 H Hk.
  - cbn in H; injection H as <-; left; exact Hk.
  - cbn [prepare_loop] in H.
    assert (Hset : forall v0, validate_parameter n v0 pdef = Ok tt ->
              (dict_get n prov = Some v0 \/
               (dict_get n prov = None /\ getitem pdef "default" = Ok v0)) ->
              prepare_loop prov rest (dict_set n v0 fin0) = Ok fin ->
              dict_get k fin0 = Some v \/
              exists pdef', In (k, pdef') ((n, pdef) :: rest) /\
                (dict_get k prov = Some v \/
                 (dict_get k prov = None /\ getitem pdef' "default" = Ok v)) /\
                validate_parameter k v pdef' = Ok tt).
    { intros v0 Hv0 Hc Hr.
      destruct (IH _ Hr Hk) as [H1|[pd [Hin Hpd]]].
      - rewrite dict_get_set in H1.
        destruct (String.eqb_spec k n) as [->|Hne]; [|left; exact H1].
        injection H1 as <-; right; exists pdef; split; [left; reflexivity|auto].
      - right; exists pd; split; [right; exact Hin|exact Hpd]. }
    destruct (dict_get n prov) as [v0|] eqn:Ep; cbn [res_bind] in H.
    + destruct (validate_parameter n v0 pdef) as [[]|e] eqn:Ev; cbn [res_bind] in H;
        [|discriminate].
      apply (Hset v0 Ev (or_introl eq_refl) H).
    + destruct (in_op (VStr "default") pdef) as [[]|e]; cbn [res_bind] in H; [| |discriminate].
      * destruct (getitem pdef "default") as [d|e] eqn:Ed; cbn [res_bind] in H; [|discriminate].
        destruct (validate_parameter n d pdef) as [[]|e] eqn:Ev; cbn [res_bind] in H;
          [|discriminate].
        apply (Hset d Ev (or_intror (conj eq_refl eq_refl)) H).
      * destruct (get_method pdef "required" (VBool false)) as [rq|e]; cbn [res_bind] in H;
          [|discriminate].
        destruct (py_truthy rq); [discriminate|].
        destruct (IH _ H Hk) as [H1|[pd [Hin Hpd]]]; [left; exact H1|].
        right; exists pd; split; [right; exact Hin|exact Hpd].
Qed.

Lemma prepare_loop_frame (prov ps fin0 fin : dict) (k : string) :
  ~ In k (map fst ps) ->
  prepare_loop prov ps fin0 = Ok fin ->
  dict_get k fin = dict_get k fin0.
Proof.
  revert fin0; induction ps as [|[n pdef] rest IH]; intros fin0 Hn H.
  - cbn in H; injection H as <-; reflexivity.
  - cbn in Hn; cbn [prepare_loop] in H.
    assert (Hne : k <> n) by (intros ->; apply Hn; left; reflexivity).
    assert (Hr : ~ In k (map fst rest)) by (intros Hi; apply Hn; right; exact Hi).
    assert (Hset : forall v0, prepare_loop prov rest (dict_set n v0 fin0) = Ok fin ->
                   dict_get k fin = dict_get k fin0).
    { intros v0 H'; rewrite (IH _ Hr H'), dict_get_set.
      destruct (String.eqb_spec k n); [contradiction|reflexivity]. }
    destruct (dict_get n prov) as [v0|]; cbn [res_bind] in H.
    + destruct (validate_parameter n v0 pdef) as [[]|e]; cbn [res_bind] in H; [|discriminate].
      exact (Hset v0 H).
    + destruct (in_op (VStr "default") pdef) as [[]|e]; cbn [res_bind] in H; [| |discriminate].
      * destruct (getitem pdef "default") as [d|e]; cbn [res_bind] in H; [|discriminate].
        destruct (validate_parameter n d pdef) as [[]|e]; cbn [res_bind] in H; [|discriminate].
        exact (Hset d H).
      * destruct (get_method pdef "required" (VBool false)) as [rq|e]; cbn [res_bind] in H;
          [|discriminate].
        destruct (py_truthy rq); [discriminate|].
        exact (IH _ Hr H).
Qed.

Lemma prepare_loop_complete (prov ps fin0 fin : dict) (k : string) (pdef v : value) :
  NoDup (map fst ps) ->
  prepare_loop prov ps fin0 = Ok fin ->
  In (k, pdef) ps ->
  (dict_get k prov = Some v \/ (dict_get k prov = None /\ getitem pdef "default" = Ok v)) ->
  dict_get k fin = Some v.
Proof.
  revert fin0; induction ps as [|[n pd] rest IH]; intros fin0 Hnd H Hin Hc; [destruct Hin|].
  cbn [map] in Hnd; inversion Hnd as [|? ? Hn Hnd']; subst.
  cbn [prepare_loop] in H.
  destruct Hin as [Heq|Hin].
  - injection Heq as -> ->.
    assert (Hset : forall v0, prepare_loop prov rest (dict_set k v0 fin0) = Ok fin ->
                   dict_get k fin = Some v0).
    { intros v0 H'; rewrite (prepare_loop_frame _ _ _ _ _ Hn H'), dict_get_set.
      rewrite String.eqb_refl; reflexivity. }
    destruct Hc as [Hp|[Hp Hd]]; rewrite Hp in H; cbn [res_bind] in H.
    + destruct (validate_parameter k v pdef) as [[]|e]; cbn [res_bind] in H; [|discriminate].
      exact (Hset v H).
    + rewrite (getitem_dict_mem _ _ _ Hd) in H; cbn [res_bind] in H.
      rewrite Hd in H; cbn [res_bind] in H.
      destruct (validate_parameter k v pdef) as [[]|e]; cbn [res_bind] in H; [|discriminate].
      exact (Hset v H).
  - assert (Hstep : exists fin1, prepare_loop prov rest fin1 = Ok fin).
    { destruct (dict_get n prov) as [v0|]; cbn [res_bind] in H.
      - destruct (validate_parameter n v0 pd) as [[]|e]; cbn [res_bind] in H; [|discriminate].
        eauto.
      - destruct (in_op (VStr "default") pd) as [[]|e]; cbn [res_bind] in H; [| |discriminate].
        + destruct (getitem pd "default") as [d|e]; cbn [res_bind] in H; [|discriminate].
          destruct (validate_parameter n d pd) as [[]|e]; cbn [res_bind] in H; [|discriminate].
          eauto.
        + destruct (get_method pd "required" (VBool false)) as [rq|e]; cbn [res_bind] in H;
            [|discriminate].
          destruct (py_truthy rq); [discriminate|eauto]. }
    destruct Hstep as [fin1 H1].
    exact (IH fin1 Hnd' H1 Hin Hc).
Qed.

(** [_prepare_parameters] only returns declared parameters, each with the
    user's value if one was provided and the declared default otherwise,
    and every returned value has passed [_validate_parameter]. *)
Theorem prepare_parameters_sound (md prov fin : dict) (k : string) (v : value) :
  prepare_parameters md prov = Ok fin ->
  dict_get k fin = Some v ->
  exists ps pdef,
    dict_get "parameters" md = Some (VDict ps) /\ In (k, pdef) ps /\
    (dict_get k prov = Some v \/ (dict_get k prov = None /\ getitem pdef "default" = Ok v)) /\
    validate_parameter k v pdef = Ok tt.
Proof.
  unfold prepare_parameters; intros H Hk.
  cbn [get_method] in H.
  destruct (dict_get "parameters" md) as [tp|] eqn:Ep; cbn [res_bind] in H.
  - destruct tp as [| | | | |ps]; cbn [items_method res_bind] in H; try discriminate.
    destruct (prepare_loop_sound _ _ _ _ _ _ H Hk) as [H0|[pdef Hp]]; [discriminate|].
    exists ps, pdef; split; [reflexivity|exact Hp].
  - cbn [items_method res_bind prepare_loop] in H; injection H as <-; discriminate.
Qed.

Lemma prepare_parameters_sound_witness :
  exists fin,
    prepare_parameters md_int [("port", VInt 8080)] = Ok fin /\
    dict_get "port" fin = Some (VInt 8080) /\
    exists ps pdef,
      dict_get "parameters" md_int = Some (VDict ps) /\ In ("port", pdef) ps /\
      (dict_get "port" [("port", VInt 8080)] = Some (VInt 8080) \/
       (dict_get "port" [("port", VInt 8080)] = None /\ getitem pdef "default" = Ok (VInt 8080))) /\
      validate_parameter "port" (VInt 8080) pdef = Ok tt.
Proof.
  eexists; split; [vm_compute; reflexivity|].
  split; [vm_compute; reflexivity|].
  exact (prepare_parameters_sound md_int [("port", VInt 8080)] _ "port" (VInt 8080)
           ltac:(vm_compute; reflexivity) ltac:(vm_compute; reflexivity)).
Defined.

(** Conversely, when the declared parameters have distinct names and
    preparation succeeds, every declared parameter the user provided is in
    the result with the user's value, and every declared parameter with a
    default that the user did not provide is in the result with its
    default; parameters the user provided without declaring them are not. *)
Theorem prepare_parameters_complete (md prov fin ps : dict) (k : string) (pdef v : value) :
  dict_get "parameters" md = Some (VDict ps) ->
  NoDup (map fst ps) ->
  prepare_parameters md prov = Ok fin ->
  ((In (k, pdef) ps /\
    (dict_get k prov = Some v \/ (dict_get k prov = None /\ getitem pdef "default" = Ok v))) ->
   dict_get k fin = Some v) /\
  (~ In k (map fst ps) -> dict_get k fin = None).
Proof.
  unfold prepare_parameters; intros Ep Hnd H.
  cbn [get_method] in H; rewrite Ep in H; cbn [res_bind items_method] in H.
  split.
  - intros [Hin Hc]; exact (prepare_loop_complete _ _ _ _ _ _ _ Hnd H Hin Hc).
  - intros Hn; rewrite (prepare_loop_frame _ _ _ _ _ Hn H); reflexivity.
Qed.

Lemma prepare_parameters_complete_witness :
  exists fin,
    prepare_parameters md_int [("port", VInt 8080); ("extra", VStr "x")] = Ok fin /\
    dict_get "port" fin = Some (VInt 8080) /\ dict_get "extra" fin = None.
Proof.
  eexists; split; [vm_compute; reflexivity|].
  destruct (prepare_parameters_complete md_int [("port", VInt 8080); ("extra", VStr "x")] _
              [("port", int_spec)] "port" int_spec (VInt 8080)
              ltac:(vm_compute; reflexivity) ltac:(repeat constructor; cbn; tauto)
              ltac:(vm_compute; reflexivity)) as [H1 _].
  destruct (prepare_parameters_complete md_int [("port", VInt 8080); ("extra", VStr "x")] _
              [("port", int_spec)] "extra" int_spec (VInt 8080)
              ltac:(vm_compute; reflexivity) ltac:(repeat constructor; cbn; tauto)
              ltac:(vm_compute; reflexivity)) as [_ H2].
  split.
  - apply H1; split; [left; reflexivity|left; reflexivity].
  - apply H2; cbn; intros [H|[]]; discriminate.
Defined.

(** ** Parameter validation *)

(** When a parameter declares an [enum] list, [_validate_parameter] only
    accepts values equal (with Python's [==]) to one of its members,
    whatever the declared type. *)
Theorem validate_parameter_enum_member (name : string) (v : value) (d : dict) (l : list value) :
  dict_get "enum" d = Some (VList l) ->
  validate_parameter name v (VDict d) = Ok tt ->
  existsb (py_eq v) l = true.
Proof.
  intros He H.
  unfold validate_parameter, validate_parameter_with in H.
  destruct (getitem (VDict d) "type") as [pt|e]; cbn [res_bind] in H; [|discriminate].
  match type of H with res_bind ?c _ = _ => destruct c as [[]|e] end;
  cbn [res_bind] in H; [|discriminate].
  cbn [in_op getitem] in H; unfold dict_mem in H; rewrite He in H; cbn [res_bind] in H.
  cbn [in_op res_bind] in H; destruct (existsb (py_eq v) l); [reflexivity|cbn in H; discriminate].
Qed.


Lemma validate_parameter_enum_member_witness :
  validate_parameter "port" (VBool true) (VDict port_enum_spec) =
    Raise (ValueError "Parameter 'port' must be one of [80, 443]") /\
  validate_parameter "port" (VInt 443) (VDict port_enum_spec) = Ok tt /\
  existsb (py_eq (VInt 443)) [VInt 80; VInt 443] = true.
Proof.
  split; [vm_compute; reflexivity|].
  split; [vm_compute; reflexivity|].
  exact (validate_parameter_enum_member "port" (VInt 443) port_enum_spec _
           ltac:(vm_compute; reflexivity) ltac:(vm_compute; reflexivity)).
Defined.

(** An [integer] parameter with integer bounds [min] and [max] and no
    [enum] is accepted exactly when [min <= value <= max] ([bool] values
    count as 0 and 1); below the range the error names [min], above it
    [max]. *)
Theorem validate_parameter_integer_range (name : string) (v : value) (d : dict) (z mn mx : Z) :
  dict_get "type" d = Some (VStr "integer") ->
  dict_get "enum" d = None ->
  dict_get "min" d = Some (VInt mn) ->
  dict_get "max" d = Some (VInt mx) ->
  as_int v = Some z ->
  validate_parameter name v (VDict d) =
  if Z.ltb z mn then
    Raise (ValueError ("Parameter '" ++ name ++ "' must be >= " ++ py_str (VInt mn)))
  else if Z.ltb mx z then
    Raise (ValueError ("Parameter '" ++ name ++ "' must be <= " ++ py_str (VInt mx)))
  else Ok tt.
Proof.
  intros Ht He Hmn Hmx Hz.
  unfold validate_parameter, validate_parameter_with; cbn [getitem]; rewrite Ht; cbn [res_bind].
  destruct v as [|b|z'| | |]; cbn in Hz; try discriminate; injection Hz as <-;
  cbn [in_op]; unfold dict_mem; rewrite He, Hmn, Hmx; cbn.
  all: destruct (Z.ltb _ mn); cbn; [reflexivity|]; destruct (Z.ltb mx _); reflexivity.
Qed.


Lemma validate_parameter_integer_range_witness :
  validate_parameter "port" (VInt 70000) (VDict port_range_spec) =
    Raise (ValueError "Parameter 'port' must be <= 65535").
Proof.
  rewrite (validate_parameter_integer_range "port" (VInt 70000) port_range_spec 70000 1 65535
             eq_refl eq_refl eq_refl eq_refl eq_refl).
  vm_compute; reflexivity.
Defined.

(** ** [list_templates] *)

Lemma load_required_fields (st : store) (p : string) (d : dict) :
  load_template_metadata st p = Ok d ->
  exists n ver ds c,
    dict_get "name" d = Some (VStr n) /\ dict_get "version" d = Some ver /\
    dict_get "description" d = Some ds /\ dict_get "category" d = Some (VStr c).
Proof.
  unfold load_template_metadata; intros H.
  destruct (assoc p (metas st)) as [[[| | | | |d0]|]|]; try discriminate.
  destruct (template_schema_ok (VDict d0)) eqn:E; [|discriminate].
  injection H as <-.
  unfold template_schema_ok, object_with in E.
  repeat match type of E with (_ && _)%bool = true => apply andb_prop in E; destruct E as [E ?] end.
  cbn [forallb] in *.
  repeat match goal with H : (_ && _)%bool = true |- _ => apply andb_prop in H; destruct H end.
  unfold dict_mem, opt_prop in *.
  destruct (dict_get "name" d0) as [[| | |n| |]|]; try discriminate.
  destruct (dict_get "version" d0) as [ver|]; try discriminate.
  destruct (dict_get "description" d0) as [ds|]; try discriminate.
  destruct (dict_get "category" d0) as [[| | |c| |]|]; try discriminate.
  exists n, ver, ds, c; auto.
Qed.

Lemma str_ltb_irrefl (s : string) : str_ltb s s = false.
Proof. induction s as [|a s IH]; cbn; [reflexivity|]. rewrite Nat.eqb_refl; exact IH. Qed.

Lemma str_ltb_asym (s t : string) : str_ltb s t = true -> str_ltb t s = false.
Proof.
  revert t; induction s as [|a s IH]; intros [|b t]; cbn; try discriminate; try reflexivity.
  rewrite (Nat.eqb_sym (nat_of_ascii b)).
  destruct (Nat.eqb (nat_of_ascii a) (nat_of_ascii b)) eqn:E; [apply IH|].
  intros H; apply Nat.ltb_lt in H; apply Nat.ltb_ge; lia.
Qed.

Lemma entry_lt_str (x y : dict) (cx nx cy ny : string) :
  dict_get "category" x = Some (VStr cx) -> dict_get "name" x = Some (VStr nx) ->
  dict_get "category" y = Some (VStr cy) -> dict_get "name" y = Some (VStr ny) ->
  entry_lt x y =
  Ok (if String.eqb cx cy then (if String.eqb nx ny then false else str_ltb nx ny) else str_ltb cx cy).
Proof.
  intros H1 H2 H3 H4; unfold entry_lt; cbn [getitem]; rewrite H1, H2, H3, H4; cbn.
  destruct (String.eqb cx cy); [destruct (String.eqb nx ny)|]; reflexivity.
Qed.

Lemma entry_lt_asym (x y : dict) :
  key_str x -> key_str y -> entry_lt x y = Ok true -> entry_lt y x = Ok false.
Proof.
  intros [cx [nx [H1 H2]]] [cy [ny [H3 H4]]].
  rewrite (entry_lt_str _ _ _ _ _ _ H1 H2 H3 H4), (entry_lt_str _ _ _ _ _ _ H3 H4 H1 H2).
  rewrite (String.eqb_sym cy cx), (String.eqb_sym ny nx).
  destruct (String.eqb cx cy); [destruct (String.eqb nx ny)|]; intros H; injection H as H;
    [discriminate|rewrite (str_ltb_asym _ _ H)|rewrite (str_ltb_asym _ _ H)]; reflexivity.
Qed.

Lemma key_str_lt (x y : dict) : key_str x -> key_str y -> exists b, entry_lt x y = Ok b.
Proof.
  intros [cx [nx [H1 H2]]] [cy [ny [H3 H4]]].
  rewrite (entry_lt_str _ _ _ _ _ _ H1 H2 H3 H4); eauto.
Qed.

Lemma insert_entry_ok (x : dict) (l : list dict) :
  key_str x -> Forall key_str l ->
  exists l', insert_entry x l = Ok l' /\ Permutation l' (x :: l) /\
    (Sorted entry_le l -> Sorted entry_le l') /\
    (forall z, HdRel entry_le z l -> entry_le z x -> HdRel entry_le z l').
Proof.
  intros Hx; induction l as [|y r IH]; intros Hl.
  - exists [x]; cbn; split; [reflexivity|]; split; [reflexivity|].
    split; [intros _; repeat constructor|intros z _ Hz; constructor; exact Hz].
  - inversion Hl as [|? ? Hy Hr]; subst.
    destruct (key_str_lt x y Hx Hy) as [[] Hb]; cbn [insert_entry]; rewrite Hb; cbn [res_bind].
    + exists (x :: y :: r); split; [reflexivity|]; split; [reflexivity|].
      split; [intros Hs; constructor; [exact Hs|constructor; exact (entry_lt_asym _ _ Hx Hy Hb)]|].
      intros z _ Hz; constructor; exact Hz.
    + destruct (IH Hr) as [r' [Hi [Hp [Hs Hh]]]]; rewrite Hi; cbn [res_bind].
      exists (y :: r'); split; [reflexivity|].
      split; [rewrite Hp; apply perm_swap|].
      split.
      * intros Hsy; inversion Hsy as [|? ? Hsr Hhr]; subst.
        constructor; [exact (Hs Hsr)|exact (Hh y Hhr Hb)].
      * intros z Hz _; inversion Hz; subst; constructor; assumption.
Qed.

Lemma sort_entries_ok (acc l : list dict) :
  Forall key_str acc -> Forall key_str l -> Sorted entry_le acc ->
  exists ts, sort_entries acc l = Ok ts /\ Permutation ts (acc ++ l) /\ Sorted entry_le ts.
Proof.
  revert acc; induction l as [|x r IH]; intros acc Ha Hl Hs.
  - exists acc; rewrite app_nil_r; split; [reflexivity|]; split; [reflexivity|exact Hs].
  - inversion Hl as [|? ? Hx Hr]; subst.
    destruct (insert_entry_ok x acc Hx Ha) as [acc' [Hi [Hp [Hs' _]]]].
    cbn [sort_entries]; rewrite Hi; cbn [res_bind].
    assert (Ha' : Forall key_str acc').
    { apply Forall_forall; intros z Hz.
      apply (Permutation_in _ Hp) in Hz; destruct Hz as [<-|Hz]; [exact Hx|].
      exact (proj1 (Forall_forall _ _) Ha z Hz). }
    destruct (IH acc' Ha' Hr (Hs' Hs)) as [ts [Ht [Hpt Hst]]].
    exists ts; split; [exact Ht|]; split; [|exact Hst].
    rewrite Hpt, Hp; apply Permutation_middle.
Qed.

Lemma list_entry_loaded (st : store) (c : option string) (p : string) (md : dict) :
  load_template_metadata st p = Ok md ->
  exists o, list_entry st c p = Ok o /\
    forall e, o = Some e -> key_str e /\ entry_shape c p md e.
Proof.
  intros Hl.
  destruct (load_required_fields _ _ _ Hl) as [n [ver [ds [cc [Hn [Hv [Hd Hc]]]]]]].
  assert (Hk : (forall c0, c = Some c0 -> cc = c0) ->
     exists o, (let* name := getitem (VDict md) "name" in
      let* version := getitem (VDict md) "version" in
      let* description := getitem (VDict md) "description" in
      let* cat := getitem (VDict md) "category" in
      let* tags := get_method (VDict md) "tags" (VList []) in
      Ok (Some [("path", VStr p); ("name", name); ("version", version);
                ("description", description); ("category", cat); ("tags", tags)])) = Ok o /\
     forall e, o = Some e -> key_str e /\ entry_shape c p md e).
  { intros Hc'; cbn [getitem get_method]; rewrite Hn, Hv, Hd, Hc; cbn [res_bind].
    exists (Some [("path", VStr p); ("name", VStr n); ("version", ver); ("description", ds);
                  ("category", VStr cc);
                  ("tags", match dict_get "tags" md with Some t => t | None => VList [] end)]).
    split; [destruct (dict_get "tags" md); reflexivity|]; intros e He; injection He as <-.
    split; [exists cc, n; split; reflexivity|].
    exists (VStr n), ver, ds, (VStr cc); repeat split; auto.
    intros c0 E; rewrite (Hc' c0 E); reflexivity. }
  unfold list_entry; rewrite Hl; cbn [res_bind].
  destruct c as [c0|]; cbn [get_method]; [rewrite Hc|]; cbn [res_bind py_eq].
  - destruct (String.eqb_spec cc c0) as [<-|Hne].
    + apply Hk; intros c1 E; injection E as ->; reflexivity.
    + exists None; split; [reflexivity|discriminate].
  - apply Hk; discriminate.
Qed.

Lemma list_entry_raise (st : store) (c : option string) (p : string) (e : exn) :
  list_entry st c p = Raise e <-> load_template_metadata st p = Raise e.
Proof.
  split.
  - intros H; destruct (load_template_metadata st p) as [md|e'] eqn:Hl.
    + destruct (list_entry_loaded st c p md Hl) as [o [Ho _]]; congruence.
    + unfold list_entry in H; rewrite Hl in H; cbn [res_bind] in H; congruence.
  - intros Hl; unfold list_entry; rewrite Hl; reflexivity.
Qed.

Lemma list_entry_some (st : store) (c : option string) (p : string) (e : dict) :
  list_entry st c p = Ok (Some e) <->
  exists md, load_template_metadata st p = Ok md /\ entry_shape c p md e.
Proof.
  split.
  - intros H; destruct (load_template_metadata st p) as [md|e'] eqn:Hl.
    + destruct (list_entry_loaded st c p md Hl) as [o [Ho He]].
      rewrite H in Ho; injection Ho as <-.
      exists md; split; [reflexivity|exact (proj2 (He e eq_refl))].
    + unfold list_entry in H; rewrite Hl in H; discriminate.
  - intros [md [Hl [n [ver [ds [cat [Hn [Hv [Hd [Hc [Hf ->]]]]]]]]]]].
    unfold list_entry; rewrite Hl; cbn [res_bind].
    assert (Hkeep : (let* keep := match c with
                                  | None => Ok true
                                  | Some c0 => let* mc := get_method (VDict md) "category" VNone in
                                               Ok (py_eq mc (VStr c0))
                                  end in Ok keep) = Ok true).
    { destruct c as [c0|]; [|reflexivity].
      cbn [get_method]; rewrite Hc, (Hf c0 eq_refl); cbn; rewrite String.eqb_refl; reflexivity. }
    destruct c as [c0|]; cbn [get_method res_bind] in Hkeep |- *;
      [rewrite Hc in Hkeep |- *; cbn [res_bind] in Hkeep |- *; injection Hkeep as Hkeep; rewrite Hkeep|];
      cbn [getitem get_method]; rewrite Hn, Hv, Hd, Hc; cbn [res_bind]; destruct (dict_get "tags" md); reflexivity.
Qed.

Lemma list_loop_entries (st : store) (c : option string) (ps : list string) (e : dict) :
  In e (fst (list_loop st c ps)) <-> exists p, In p ps /\ list_entry st c p = Ok (Some e).
Proof.
  induction ps as [|p ps IH]; cbn [list_loop].
  - cbn; split; [tauto|intros [p [[] _]]].
  - destruct (list_loop st c ps) as [ts ws]; cbn [fst] in IH.
    destruct (list_entry st c p) as [[e'|]|x] eqn:E; cbn [fst In]; rewrite IH.
    + split.
      * intros [<-|[p' [H1 H2]]]; [exists p; auto|exists p'; auto].
      * intros [p' [[<-|H1] H2]]; [rewrite E in H2; injection H2 as ->; auto|right; eauto].
    + split; [intros [p' [H1 H2]]; eauto|].
      intros [p' [[<-|H1] H2]]; [congruence|eauto].
    + split; [intros [p' [H1 H2]]; eauto|].
      intros [p' [[<-|H1] H2]]; [congruence|eauto].
Qed.

Lemma list_loop_warnings (st : store) (c : option string) (ps : list string) :
  snd (list_loop st c ps) =
  flat_map (fun p => match list_entry st c p with Raise e => [load_warning p e] | Ok _ => [] end) ps.
Proof.
  induction ps as [|p ps IH]; cbn [list_loop flat_map]; [reflexivity|].
  destruct (list_loop st c ps) as [ts ws]; cbn [snd] in IH |- *.
  destruct (list_entry st c p) as [[e'|]|x]; cbn [snd app]; congruence.
Qed.

Lemma list_loop_key_str (st : store) (c : option string) (ps : list string) :
  Forall key_str (fst (list_loop st c ps)).
Proof.
  apply Forall_forall; intros e He.
  apply list_loop_entries in He; destruct He as [p [_ H]].
  destruct (load_template_metadata st p) as [md|x] eqn:Hl.
  - destruct (list_entry_loaded st c p md Hl) as [o [Ho Hk]].
    rewrite H in Ho; injection Ho as <-; exact (proj1 (Hk e eq_refl)).
  - unfold list_entry in H; rewrite Hl in H; discriminate.
Qed.

(** [list_templates] never raises: every template that loads has string
    [name] and [category] (the schema requires them), so [sorted] succeeds,
    and the result is ordered by [(category, name)]: no entry is strictly
    before the one preceding it. *)
Theorem list_templates_sorted (st : store) (c : option string) :
  exists ts, snd (list_templates st c) = Ok ts /\
             Sorted (fun a b => entry_lt b a = Ok false) ts.
Proof.
  unfold list_templates.
  pose proof (list_loop_key_str st c (map fst (metas st))) as Hk.
  destruct (list_loop st c (map fst (metas st))) as [ts ws]; cbn [snd fst] in *.
  destruct (sort_entries_ok [] ts (Forall_nil _) Hk (Sorted_nil _)) as [ts' [H1 [_ H3]]].
  exists ts'; split; [exact H1|exact H3].
Qed.

(** The entries [list_templates] returns are exactly those of the templates
    whose metadata loads and that pass the category filter, each built from
    the template's path and its [name], [version], [description],
    [category] and [tags] (an empty list when absent). *)
Theorem list_templates_members (st : store) (c : option string) (ts : list dict) (e : dict) :
  snd (list_templates st c) = Ok ts ->
  (In e ts <->
   exists p md, In p (map fst (metas st)) /\ load_template_metadata st p = Ok md /\
                entry_shape c p md e).
Proof.
  unfold list_templates; intros H.
  pose proof (list_loop_key_str st c (map fst (metas st))) as Hk.
  pose proof (list_loop_entries st c (map fst (metas st)) e) as Hm.
  destruct (list_loop st c (map fst (metas st))) as [ts0 ws]; cbn [snd fst] in *.
  destruct (sort_entries_ok [] ts0 (Forall_nil _) Hk (Sorted_nil _)) as [ts' [H1 [H2 _]]].
  rewrite H in H1; injection H1 as <-.
  assert (Hi : In e ts <-> In e ts0).
  { split; [apply (Permutation_in _ H2)|apply (Permutation_in _ (Permutation_sym H2))]. }
  rewrite Hi, Hm.
  split.
  - intros [p [Hp He]]; apply list_entry_some in He; destruct He as [md [Hl Hs]]; eauto.
  - intros [p [md [Hp [Hl Hs]]]]; exists p; split; [exact Hp|].
    apply list_entry_some; eauto.
Qed.

Lemma list_templates_members_witness :
  exists ts, snd (list_templates st_catalog (Some "app")) = Ok ts /\
    In (("path", VStr "api") :: app (std_fields "api" "app") [("tags", VList [])]) ts /\
    exists p md, In p (map fst (metas st_catalog)) /\
      load_template_metadata st_catalog p = Ok md /\
      entry_shape (Some "app") p md (("path", VStr "api") :: app (std_fields "api" "app") [("tags", VList [])]).
Proof.
  eexists; split; [vm_compute; reflexivity|].
  split; [vm_compute; tauto|].
  apply (proj1 (list_templates_members st_catalog (Some "app") _ _ ltac:(vm_compute; reflexivity))).
  vm_compute; tauto.
Defined.

(** [list_templates] prints one warning per template whose metadata fails
    to load, in visiting order, with the loading error; templates dropped by
    the category filter give no warning. *)
Theorem list_templates_warnings (st : store) (c : option string) :
  fst (list_templates st c) =
  flat_map (fun p => match load_template_metadata st p with
                     | Raise e => [load_warning p e]
                     | Ok _ => []
                     end) (map fst (metas st)).
Proof.
  unfold list_templates.
  pose proof (list_loop_warnings st c (map fst (metas st))) as Hw.
  destruct (list_loop st c (map fst (metas st))) as [ts ws]; cbn [snd fst] in *.
  rewrite Hw; apply flat_map_ext; intros p.
  destruct (load_template_metadata st p) as [md|x] eqn:Hl.
  - destruct (list_entry_loaded st c p md Hl) as [o [Ho _]]; rewrite Ho; reflexivity.
  - rewrite (proj2 (list_entry_raise st c p x) Hl); reflexivity.
Qed.

(** ** [test_template] *)

Lemma tally_initial : tally_ok initial_tresults.
Proof. unfold tally_ok; cbn; repeat split; auto. Qed.

Lemma tally_failed (m : string) (r : tresults) : tally_ok r -> tally_ok (test_failed m r).
Proof.
  unfold tally_ok, test_failed; cbn; rewrite length_app; cbn.
  intros [H1 [H2 [H3 H4]]]; repeat split; try lia; try discriminate.
  intros H; destruct (test_errors r); discriminate.
Qed.

Lemma tally_count_failed (m : string) (r : tresults) :
  tally_ok r -> tally_ok (test_failed m (count_test r)).
Proof.
  unfold tally_ok, test_failed, count_test; cbn; rewrite length_app; cbn.
  intros [H1 [H2 [H3 H4]]]; repeat split; try lia; try discriminate.
  intros H; destruct (test_errors r); discriminate.
Qed.

Lemma tally_count_passed (m : string) (r : tresults) :
  tally_ok r -> tally_ok (test_passed m (count_test r)).
Proof.
  unfold tally_ok, test_passed, count_test; cbn; rewrite length_app; cbn.
  intros [H1 [H2 [H3 H4]]]; repeat split; try lia; tauto.
Qed.

Create HintDb tally.
#[local] Hint Resolve tally_initial tally_failed tally_count_failed tally_count_passed : tally.

Lemma tally_docker_test (run : nat -> list string -> option string -> Z -> run_outcome)
    (md : dict) (td path : string) (r : tresults) :
  tally_ok r -> tally_ok (docker_test run md td path r).
Proof.
  intros H; unfold docker_test.
  destruct (getitem (VDict md) "name"); [|auto with tally].
  destruct (run _ _ _ _) as [rc err|m|m]; [destruct (Z.eqb rc 0)|..]; auto with tally.
Qed.

Lemma tally_command_test (run : nat -> list string -> option string -> Z -> run_outcome)
    (td : string) (r : tresults) (c : value) :
  tally_ok r -> tally_ok (command_test run td r c).
Proof.
  intros H; unfold command_test.
  destruct (split_method c); [|auto with tally].
  destruct (run _ _ _ _) as [rc err|m|m]; [destruct (Z.eqb rc 0)|..]; auto with tally.
Qed.

Lemma tally_commands (run : nat -> list string -> option string -> Z -> run_outcome)
    (td : string) (l : list value) (r : tresults) :
  tally_ok r -> tally_ok (fold_left (command_test run td) l r).
Proof.
  revert r; induction l as [|c l IH]; intros r H; cbn; [exact H|].
  apply IH, tally_command_test, H.
Qed.

Lemma tests_run_commands (run : nat -> list string -> option string -> Z -> run_outcome)
    (td : string) (l : list value) (r : tresults) :
  tests_run (fold_left (command_test run td) l r) = tests_run r + length l.
Proof.
  revert r; induction l as [|c l IH]; intros r; cbn; [lia|].
  rewrite IH; unfold command_test.
  destruct (split_method c); [|cbn; lia].
  destruct (run _ _ _ _) as [rc err|m|m]; [destruct (Z.eqb rc 0)|..]; cbn; lia.
Qed.

(** Whatever the processes do and wherever [test_template] stops, its
    counters agree with its lists: no more tests pass than run, one output
    line per passed test, [success] exactly when no error was recorded, and
    every test run either passed or recorded an error. *)
Theorem test_template_tally (tmpl : Type) (compile : string -> res tmpl)
    (render : tmpl -> dict -> res string)
    (run : nat -> list string -> option string -> Z -> run_outcome)
    (depth : nat) (st : store) (tp : string) (params : dict) (now td : string) :
  let r := fst (test_template tmpl compile render run depth st tp params now td) in
  tests_passed r <= tests_run r /\ length (output r) = tests_passed r /\
  (success r = true <-> test_errors r = []) /\
  tests_run r <= tests_passed r + length (test_errors r).
Proof.
  cbv zeta.
  assert (Hdock : forall md gen, tally_ok (match find_dockerfile gen with
              | Some path => if py_truthy (VStr path) then docker_test run md td path initial_tresults
                             else initial_tresults
              | None => initial_tresults end)).
  { intros md gen; destruct (find_dockerfile gen) as [path|]; [destruct (py_truthy (VStr path))|];
      auto using tally_docker_test with tally. }
  unfold test_template.
  destruct (resolve_inheritance depth st tp) as [md|e]; [|apply tally_failed, tally_initial].
  destruct (get_method (VDict md) "testing" (VDict [])) as [tc|e]; [|apply tally_failed, tally_initial].
  destruct (negb (py_truthy tc)); [exact tally_initial|].
  destruct (generate_template tmpl compile render depth st tp td params now false []) as [[gen|e] ev];
    [|apply tally_failed, tally_initial].
  destruct (get_method tc "test_commands" (VList [])) as [cmds|e]; [|apply tally_failed, Hdock].
  destruct (py_iter cmds) as [l|e]; [|apply tally_failed, Hdock].
  apply tally_commands, Hdock.
Qed.

Lemma tests_run_docker (run : nat -> list string -> option string -> Z -> run_outcome)
    (md : dict) (td path : string) (r : tresults) :
  tests_run (docker_test run md td path r) = S (tests_run r).
Proof.
  unfold docker_test; destruct (getitem (VDict md) "name"); [|reflexivity].
  destruct (run _ _ _ _) as [rc err|m|m]; [destruct (Z.eqb rc 0)|..]; reflexivity.
Qed.

Lemma find_dockerfile_some (gen : list (string * string)) :
  match find_dockerfile gen with
  | Some path => existsb (fun kv => ends_with "Dockerfile" (fst kv)) gen = true /\
                 py_truthy (VStr path) = true
  | None => existsb (fun kv => ends_with "Dockerfile" (fst kv)) gen = false
  end.
Proof.
  unfold find_dockerfile; induction gen as [|[k c] gen IH]; cbn; [reflexivity|].
  destruct (ends_with "Dockerfile" k) eqn:E; cbn.
  - split; [reflexivity|].
    unfold ends_with in E; apply andb_prop in E; destruct E as [E _].
    destruct k; [discriminate|reflexivity].
  - exact IH.
Qed.

(** When the metadata resolves, has a testing configuration and the
    template generates, [test_template] runs one Docker build if a generated
    path ends in [Dockerfile] and then one test per entry of
    [test_commands]; the generation is the only one it performs. *)
Theorem test_template_tests_run (tmpl : Type) (compile : string -> res tmpl)
    (render : tmpl -> dict -> res string)
    (run : nat -> list string -> option string -> Z -> run_outcome)
    (depth : nat) (st : store) (tp : string) (params : dict) (now td : string)
    (md : dict) (tc cmds : value) (gen : list (string * string)) (ev : list event) (l : list value) :
  resolve_inheritance depth st tp = Ok md ->
  get_method (VDict md) "testing" (VDict []) = Ok tc ->
  py_truthy tc = true ->
  generate_template tmpl compile render depth st tp td params now false [] = (Ok gen, ev) ->
  get_method tc "test_commands" (VList []) = Ok cmds ->
  py_iter cmds = Ok l ->
  tests_run (fst (test_template tmpl compile render run depth st tp params now td)) =
    (if existsb (fun kv => ends_with "Dockerfile" (fst kv)) gen then 1 else 0) + length l /\
  snd (test_template tmpl compile render run depth st tp params now td) = ev.
Proof.
  intros Hr Ht Htc Hg Hc Hl.
  unfold test_template; rewrite Hr, Ht, Htc; cbn [negb]; rewrite Hg, Hc, Hl; cbn [fst snd].
  split; [|reflexivity].
  rewrite tests_run_commands.
  pose proof (find_dockerfile_some gen) as Hf.
  destruct (find_dockerfile gen) as [path|]; [destruct Hf as [-> ->]; rewrite tests_run_docker|rewrite Hf];
    reflexivity.
Qed.

Lemma test_template_tests_run_witness :
  tests_run (fst (test_template (list node) jinja_compile (jinja_render (rng st_testing)) run_fails_third
                    recursion_limit st_testing "web" [] "T" "/tmp/t")) = 3.
Proof.
  destruct (test_template_tests_run (list node) jinja_compile (jinja_render (rng st_testing)) run_fails_third
              recursion_limit st_testing "web" [] "T" "/tmp/t" _ _ _ _ _ _
              ltac:(vm_compute; reflexivity) ltac:(vm_compute; reflexivity)
              ltac:(vm_compute; reflexivity) ltac:(vm_compute; reflexivity)
              ltac:(vm_compute; reflexivity) ltac:(vm_compute; reflexivity)) as [H _].
  rewrite H; vm_compute; reflexivity.
Defined.

(** A template without a (truthy) [testing] configuration is not generated
    and no process runs: the result reports success with no tests and the
    warning [No testing configuration found]. *)
Theorem test_template_no_testing (tmpl : Type) (compile : string -> res tmpl)
    (render : tmpl -> dict -> res string)
    (run : nat -> list string -> option string -> Z -> run_outcome)
    (depth : nat) (st : store) (tp : string) (params : dict) (now td : string) (md : dict) :
  resolve_inheritance depth st tp = Ok md ->
  py_truthy (match dict_get "testing" md with Some v => v | None => VDict [] end) = false ->
  test_template tmpl compile render run depth st tp params now td =
  ({| success := true; tests_run := 0; tests_passed := 0; test_errors := []; output := [];
      test_warnings := Some ["No testing configuration found"] |}, []).
Proof.
  intros Hr Ht; unfold test_template; rewrite Hr; cbn [get_method].
  destruct (dict_get "testing" md) as [tc|]; cbn [res_bind]; rewrite Ht; reflexivity.
Qed.

Lemma test_template_no_testing_witness :
  test_template (list node) jinja_compile (jinja_render (rng st_catalog)) run_fails_third recursion_limit
    st_catalog "web" [] "T" "/tmp/t" =
  ({| success := true; tests_run := 0; tests_passed := 0; test_errors := []; output := [];
      test_warnings := Some ["No testing configuration found"] |}, []).
Proof.
  apply (test_template_no_testing (list node) jinja_compile (jinja_render (rng st_catalog)) run_fails_third
           recursion_limit st_catalog "web" [] "T" "/tmp/t" _
           ltac:(vm_compute; reflexivity) ltac:(vm_compute; reflexivity)).
Defined.

(** ** The [generate] command of [main] *)

Lemma split_once_some (sep : ascii) (s k v : string) :
  split_once sep s = Some (k, v) <-> s = (k ++ String sep v)%string /\ ~ In sep (list_ascii_of_string k).
Proof.
  revert k; induction s as [|a s IH]; intros k; cbn.
  - split; [discriminate|intros [H _]; destruct k; discriminate].
  - destruct (Ascii.eqb_spec a sep) as [->|Hne].
    + split.
      * intros H; injection H as <- <-; cbn; split; [reflexivity|tauto].
      * intros [H Hn]; destruct k as [|b k]; cbn in H, Hn.
        -- injection H as ->; reflexivity.
        -- injection H as -> _; exfalso; apply Hn; left; reflexivity.
    + destruct (split_once sep s) as [[k' v']|] eqn:E.
      * split.
        -- intros H; injection H as <- <-.
           destruct (proj1 (IH k') eq_refl) as [H1 H2]; subst s; cbn; split; [reflexivity|].
           intros [H|H]; [congruence|tauto].
        -- intros [H Hn]; destruct k as [|b k]; cbn in H, Hn; [injection H as ->; contradiction|].
           injection H as -> H.
           assert (Hk : Some (k', v') = Some (k, v)) by (apply IH; split; [exact H|tauto]).
           injection Hk as -> ->; reflexivity.
      * split; [discriminate|].
        intros [H Hn]; destruct k as [|b k]; cbn in H, Hn; [injection H as ->; contradiction|].
        injection H as -> H.
        assert (Hk : None = Some (k, v)) by (apply IH; split; [exact H|tauto]).
        discriminate.
Qed.

Lemma split_once_none (sep : ascii) (s : string) :
  split_once sep s = None <-> ~ In sep (list_ascii_of_string s).
Proof.
  induction s as [|a s IH]; cbn; [tauto|].
  destruct (Ascii.eqb_spec a sep) as [->|Hne].
  - split; [discriminate|intros H; exfalso; apply H; left; reflexivity].
  - destruct (split_once sep s) as [[k v]|].
    + split; [discriminate|intros H; exfalso].
      assert (Hn : ~ In sep (list_ascii_of_string s)) by tauto.
      apply IH in Hn; discriminate.
    + split; [intros _; intros [H|H]; [congruence|apply IH in H; auto; reflexivity]|reflexivity].
Qed.

Lemma cli_params_app (pre post : list string) (p : dict) :
  cli_params (pre ++ post) p = (let* p' := cli_params pre p in cli_params post p').
Proof.
  revert p; induction pre as [|a pre IH]; intros p; cbn; [reflexivity|].
  destruct (parse_param a); cbn; [apply IH|reflexivity].
Qed.

Lemma cli_params_frame (args : list string) (p d : dict) (k : string) :
  cli_params args p = Ok d ->
  (forall a k' v', In a args -> parse_param a = Ok (k', v') -> k' <> k) ->
  dict_get k d = dict_get k p.
Proof.
  revert p; induction args as [|a args IH]; intros p H Hn; cbn in H.
  - injection H as <-; reflexivity.
  - destruct (parse_param a) as [[k' v']|e] eqn:E; cbn in H; [|discriminate].
    rewrite (IH _ H (fun a0 k0 v0 Hi => Hn a0 k0 v0 (or_intror Hi))), dict_get_set.
    destruct (String.eqb_spec k k') as [->|]; [|reflexivity].
    exfalso; exact (Hn a k' v' (or_introl eq_refl) E eq_refl).
Qed.

Lemma cli_params_raise (args : list string) (p : dict) (a : string) :
  In a args -> ~ In "="%char (list_ascii_of_string a) ->
  cli_params args p = Raise (ValueError "not enough values to unpack (expected 2, got 1)").
Proof.
  revert p; induction args as [|b args IH]; intros p Hi Ha; [destruct Hi|].
  cbn [cli_params]; unfold parse_param.
  destruct Hi as [->|Hi].
  - rewrite (proj2 (split_once_none _ _) Ha); reflexivity.
  - destruct (split_once "=" b); cbn [res_bind]; [exact (IH _ Hi Ha)|reflexivity].
Qed.

Lemma dict_get_update (j acc : dict) (k : string) :
  NoDup (map fst j) ->
  dict_get k (fold_left (fun acc kv => dict_set (fst kv) (snd kv) acc) j acc) =
  match dict_get k j with Some v => Some v | None => dict_get k acc end.
Proof.
  revert acc; induction j as [|[k0 v0] j IH]; intros acc Hnd; cbn; [reflexivity|].
  inversion Hnd as [|? ? Hn Hnd']; subst.
  rewrite (IH _ Hnd'), dict_get_set.
  destruct (String.eqb_spec k k0) as [->|]; [|reflexivity].
  rewrite dict_get_notin by exact Hn; reflexivity.
Qed.

(** [key, value = param.split("=", 1)] succeeds exactly on arguments
    containing [=], splitting at the first one: the key never contains [=],
    the value may; without [=] it raises [ValueError]. *)
Theorem parse_param_split (s k v : string) :
  (parse_param s = Ok (k, v) <-> s = k ++ "=" ++ v /\ ~ In "="%char (list_ascii_of_string k)) /\
  (parse_param s = Raise (ValueError "not enough values to unpack (expected 2, got 1)") <->
   ~ In "="%char (list_ascii_of_string s)).
Proof.
  unfold parse_param; replace ("=" ++ v) with (String "="%char v) by reflexivity; split.
  - rewrite <- split_once_some.
    destruct (split_once "=" s) as [[k' v']|]; split; congruence.
  - rewrite <- split_once_none.
    destruct (split_once "=" s) as [[k' v']|]; split; congruence.
Qed.

Lemma cli_last_param (json : option (res dict)) (pre post : list string) (k v : string) (d : dict) :
  main_params json (pre ++ (k ++ "=" ++ v) :: post) = Ok d ->
  ~ In "="%char (list_ascii_of_string k) ->
  (forall a k' v', In a post -> parse_param a = Ok (k', v') -> k' <> k) ->
  dict_get k d = Some (VStr v).
Proof.
  unfold main_params; intros H Hk Hn.
  destruct (match json with Some loaded => _ | None => _ end) as [p0|e0];
    cbn [res_bind] in H; [|discriminate].
  rewrite cli_params_app in H.
  destruct (cli_params pre _) as [p1|e]; cbn [res_bind] in H; [|discriminate].
  cbn [cli_params] in H.
  assert (Hp : parse_param (k ++ "=" ++ v) = Ok (k, v)).
  { unfold parse_param; replace ("=" ++ v) with (String "="%char v) by reflexivity.
    rewrite (proj2 (split_once_some _ _ _ _) (conj eq_refl Hk)); reflexivity. }
  rewrite Hp in H; cbn [res_bind fst snd] in H.
  rewrite (cli_params_frame _ _ _ _ H Hn), dict_get_set, String.eqb_refl; reflexivity.
Qed.

(** The value of a parameter set by [--param] is the string after the
    first [=] of its last [--param] argument, whatever the [--params] file
    says. *)
Theorem main_params_last_param (json : option (res dict)) (pre post : list string) (k v : string) (d : dict) :
  main_params json (pre ++ (k ++ "=" ++ v) :: post) = Ok d ->
  ~ In "="%char (list_ascii_of_string k) ->
  (forall a k' v', In a post -> parse_param a = Ok (k', v') -> k' <> k) ->
  dict_get k d = Some (VStr v).
Proof. apply cli_last_param. Qed.

Lemma main_params_last_param_witness :
  main_params (Some (Ok [("port", VInt 80)])) ["port=8080"; "log=a=b"] =
    Ok [("port", VStr "8080"); ("log", VStr "a=b")] /\
  dict_get "log" [("port", VStr "8080"); ("log", VStr "a=b")] = Some (VStr "a=b").
Proof.
  split; [vm_compute; reflexivity|].
  apply (main_params_last_param (Some (Ok [("port", VInt 80)])) ["port=8080"] [] "log" "a=b").
  - vm_compute; reflexivity.
  - apply split_once_none; reflexivity.
  - intros a k' v' [].
Defined.

(** A parameter of the [--params] file keeps its value unless a [--param]
    argument sets the same key. *)
Theorem main_params_json_value (j : dict) (args : list string) (k : string) (d : dict) :
  main_params (Some (Ok j)) args = Ok d ->
  NoDup (map fst j) ->
  (forall a k' v', In a args -> parse_param a = Ok (k', v') -> k' <> k) ->
  dict_get k d = dict_get k j.
Proof.
  unfold main_params, dict_update; cbn [res_bind]; intros H Hnd Hn.
  rewrite (cli_params_frame _ _ _ _ H Hn), (dict_get_update _ _ _ Hnd).
  destruct (dict_get k j); reflexivity.
Qed.

Lemma main_params_json_value_witness :
  main_params (Some (Ok [("port", VInt 80); ("name", VStr "svc")])) ["port=8080"] =
    Ok [("port", VStr "8080"); ("name", VStr "svc")] /\
  dict_get "name" [("port", VStr "8080"); ("name", VStr "svc")] = Some (VStr "svc").
Proof.
  split; [vm_compute; reflexivity|].
  apply (main_params_json_value [("port", VInt 80); ("name", VStr "svc")] ["port=8080"] "name").
  - vm_compute; reflexivity.
  - repeat constructor; cbn; intuition discriminate.
  - intros a k' v' [<-|[]] H; vm_compute in H; injection H as <- _; discriminate.
Defined.

(** A [--params] file that cannot be opened, decoded or merged makes
    [main] raise that exception before any generation, and a [--param]
    argument without [=] makes it raise [ValueError] when the [--params]
    file (if any) loads: either error escapes the handler that prints
    [Error: ...], and no file is written. *)
Theorem main_generate_param_without_eq :
  (forall (st : store) (e : exn) (args : list string) (template output now : string)
          (dry_run : bool),
     main_generate st (Some (Raise e)) args template output now dry_run = (Uncaught e, [])) /\
  (forall (st : store) (json : option (res dict)) (args : list string)
          (a template output now : string) (dry_run : bool),
     (forall e, json <> Some (Raise e)) ->
     In a args -> ~ In "="%char (list_ascii_of_string a) ->
     main_generate st json args template output now dry_run =
     (Uncaught (ValueError "not enough values to unpack (expected 2, got 1)"), [])).
Proof.
  split; [intros; reflexivity|].
  intros st json args a template output now dry_run Hj Hi Ha; unfold main_generate, main_params.
  destruct json as [[j|e]|]; [|exfalso; exact (Hj e eq_refl)|]; cbn [res_bind];
    rewrite (cli_params_raise _ _ _ Hi Ha); reflexivity.
Qed.

Lemma main_generate_param_without_eq_witness :
  main_generate st_render (Some (Raise (FileNotFoundError
      "[Errno 2] No such file or directory: 'p.json'"))) ["debug"] "web" "out" "T" false =
  (Uncaught (FileNotFoundError "[Errno 2] No such file or directory: 'p.json'"), []) /\
  main_generate st_render (Some (Ok [("port", VInt 80)])) ["port=8080"; "debug"] "web" "out" "T" false =
  (Uncaught (ValueError "not enough values to unpack (expected 2, got 1)"), []).
Proof.
  destruct main_generate_param_without_eq as [HA HB]; split; [apply HA|].
  apply (HB st_render (Some (Ok [("port", VInt 80)])) ["port=8080"; "debug"] "debug").
  - intros e; discriminate.
  - right; left; reflexivity.
  - apply split_once_none; reflexivity.
Defined.

Lemma prepare_loop_validates (prov ps fin0 fin : dict) (k : string) (pdef v : value) :
  prepare_loop prov ps fin0 = Ok fin ->
  In (k, pdef) ps -> dict_get k prov = Some v ->
  validate_parameter k v pdef = Ok tt.
Proof.
  revert fin0; induction ps as [|[n pd] rest IH]; intros fin0 H Hin Hv; [destruct Hin|].
  cbn [prepare_loop] in H.
  destruct Hin as [Heq|Hin].
  - injection Heq as -> ->; rewrite Hv in H; cbn [res_bind] in H.
    destruct (validate_parameter k v pdef) as [[]|e]; cbn [res_bind] in H; [reflexivity|discriminate].
  - destruct (dict_get n prov) as [v0|]; cbn [res_bind] in H.
    + destruct (validate_parameter n v0 pd) as [[]|e]; cbn [res_bind] in H; [|discriminate].
      exact (IH _ H Hin Hv).
    + destruct (in_op (VStr "default") pd) as [[]|e]; cbn [res_bind] in H; [| |discriminate].
      * destruct (getitem pd "default") as [d|e]; cbn [res_bind] in H; [|discriminate].
        destruct (validate_parameter n d pd) as [[]|e]; cbn [res_bind] in H; [|discriminate].
        exact (IH _ H Hin Hv).
      * destruct (get_method pd "required" (VBool false)) as [rq|e]; cbn [res_bind] in H;
          [|discriminate].
        destruct (py_truthy rq); [discriminate|exact (IH _ H Hin Hv)].
Qed.

Lemma validate_parameter_str_typed (n s t : string) (pdef : dict) :
  dict_get "type" pdef = Some (VStr t) -> In t ["integer"; "boolean"; "array"; "object"] ->
  validate_parameter n (VStr s) (VDict pdef) <> Ok tt.
Proof.
  intros Ht Hin; unfold validate_parameter, validate_parameter_with; cbn [getitem]; rewrite Ht;
    cbn [res_bind].
  destruct Hin as [<-|[<-|[<-|[<-|[]]]]]; cbn; discriminate.
Qed.

Lemma generate_prepared (tmpl : Type) (compile : string -> res tmpl)
    (render : tmpl -> dict -> res string) (depth : nat) (st : store) (tp od : string)
    (params : dict) (now : string) (dry : bool) (ev0 ev : list event)
    (files : list (string * string)) :
  generate_template tmpl compile render depth st tp od params now dry ev0 = (Ok files, ev) ->
  exists md fin, resolve_inheritance depth st tp = Ok md /\ prepare_parameters md params = Ok fin.
Proof.
  unfold generate_template, mbind, lift.
  destruct (resolve_inheritance depth st tp) as [md|e] eqn:E1; [|discriminate].
  destruct (prepare_parameters md params) as [fin|e] eqn:E2; [|discriminate].
  intros _; exists md, fin; split; [reflexivity|exact E2].
Qed.

(** [main] never reports success when a parameter the template declares as
    [integer], [boolean], [array] or [object] takes its value from a
    [--param] argument: such values are strings, which fail the type check. *)
Theorem main_generate_typed_cli_param (st : store) (json : option (res dict)) (pre post : list string)
    (k v template output now : string) (dry_run : bool) (md ps pdef : dict) (t : string) :
  ~ In "="%char (list_ascii_of_string k) ->
  (forall a k' v', In a post -> parse_param a = Ok (k', v') -> k' <> k) ->
  resolve_inheritance recursion_limit st template = Ok md ->
  dict_get "parameters" md = Some (VDict ps) -> In (k, VDict pdef) ps ->
  dict_get "type" pdef = Some (VStr t) -> In t ["integer"; "boolean"; "array"; "object"] ->
  forall lines, fst (main_generate st json (pre ++ (k ++ "=" ++ v) :: post) template output now dry_run)
                <> Exit 0 lines.
Proof.
  intros Hk Hn Hr Hp Hin Ht Htin lines.
  unfold main_generate.
  destruct (main_params json _) as [prov|e] eqn:Em; [|discriminate].
  pose proof (cli_last_param _ _ _ _ _ _ Em Hk Hn) as Hv.
  destruct (generate recursion_limit st template output prov now dry_run) as [[files|e] ev] eqn:Eg;
    [|discriminate].
  destruct (generate_prepared _ _ _ _ _ _ _ _ _ _ _ _ _ Eg) as [md' [fin [Hr' Hpp]]].
  rewrite Hr in Hr'; injection Hr' as <-.
  unfold prepare_parameters in Hpp; cbn [get_method] in Hpp; rewrite Hp in Hpp;
    cbn [res_bind items_method] in Hpp.
  exfalso; apply (validate_parameter_str_typed k v t pdef Ht Htin).
  exact (prepare_loop_validates _ _ _ _ _ _ _ Hpp Hin Hv).
Qed.

Lemma main_generate_typed_cli_param_witness :
  fst (main_generate st_render None ([] ++ ("port" ++ "=" ++ "8080") :: []) "web" "out" "T" false) =
    Exit 1 ["Error: Parameter 'port' must be an integer"] /\
  fst (main_generate st_render None ([] ++ ("port" ++ "=" ++ "8080") :: []) "web" "out" "T" false)
    <> Exit 0 [].
Proof.
  split; [vm_compute; reflexivity|].
  exact (main_generate_typed_cli_param st_render None [] [] "port" "8080" "web" "out" "T" false
           _ _ _ "integer"
           ltac:(apply split_once_none; reflexivity) (fun a k' v' H => match H with end)
           ltac:(vm_compute; reflexivity) ltac:(vm_compute; reflexivity)
           ltac:(left; reflexivity) ltac:(vm_compute; reflexivity) ltac:(left; reflexivity) []).
Defined.
